(** * Attendance tracker: the storage adapter, the identity service and the roster

    A shallow embedding of the three JavaScript classes of the application
    ([Storage], [Auth], [UI]) and of the controller [App], followed by the
    properties of the specification that were checked against them.

    Conventions of the embedding.
    - A JavaScript string is a [string]; each character stands for one
      UTF-16 code unit below 256.  The string methods of the host
      ([toLowerCase], [trim], [parseInt]) and its crypto object are fields of
      the class [Browser]: every theorem holds for whatever these methods
      compute, and [latin1] is the instance used to run examples.
    - A function that can throw, read or write the page is a computation
      of the monad [Js]: it takes the [World] and returns either a value or
      the thrown error, together with the new [World].  A write made before a
      [throw] is kept, as in JavaScript.
    - The [World] holds [localStorage], the alerts shown, the rendered
      table and statistic cards, the controller's pending deletion, the
      random numbers [Math.random] will return, the clock, and the calls
      of [login] that were started and not awaited.  The texts in
      [localStorage] are kept as the values they are the JSON of.
    - [Storage], [Auth], [UI] and [App] are written over any Web Storage
      (class [WebStorage], whose calls may throw).  The properties of the
      adapter hold for all of them; those of [Auth], [UI] and [App] are
      stated for [page_storage], which stores what it is given.
    - [async] functions are run to completion where they are awaited.  The
      one call that is not awaited ([login] inside [register]) runs up to
      its first [await] and stays in [pending] ([startLogin]); the rest of
      it runs in a job of its own ([resumeLogin]), after [register] has
      returned, and its rejection reaches nobody.
    - [console.error], timers, modals, routing and form resets leave no trace
      in the [World].
    - The sections, the modals, the address and the edit form are kept in a
      [Document] beside the [World]; the two make a [Page], and the module
      [Full] has the functions of [UI] and [App] on it, with what they do to
      the document.  Every element they look up by its id exists, a control
      takes the value it is given, and [history.pushState] succeeds. *)

From Stdlib Require Import ZArith Ascii String.
From stdpp Require Import base tactics option list strings gmap fin_maps relations.

(** ** JavaScript values *)

(** A thrown value: [new Error(msg)] has the name ["Error"]. *)
Record JsError := mkError { error_name : string; message : string }.

Definition Error (msg : string) : JsError := mkError "Error" msg.

Inductive Result (A : Type) : Type :=
| Ok (a : A)
| Throw (e : JsError).
Arguments Ok {A} a.
Arguments Throw {A} e.

(** The results of [parseInt]: [NaN] or an integer. *)
Inductive Number := NaN | Num (z : Z).

(** A string in a boolean position: only the empty string is falsy. *)
Definition truthy (s : string) : bool := negb (String.eqb s "").

(** A number in a boolean position: [NaN] and [0] are falsy. *)
Definition truthy_number (n : Number) : bool :=
  match n with
  | NaN => false
  | Num z => negb (z =? 0)%Z
  end.

(** [x ? ... : ...] and [!x] on a value that is a string or [null]. *)
Definition truthy_or_null (x : option string) : bool :=
  match x with
  | Some s => truthy s
  | None => false
  end.

(** [a === b] where [a] is a string and [b] a string or [null]. *)
Definition strict_eq (a : string) (b : option string) : bool :=
  match b with
  | Some s => String.eqb a s
  | None => false
  end.

Fixpoint startsWith (s p : string) : bool :=
  match p, s with
  | EmptyString, _ => true
  | String c p', String d s' => Ascii.eqb c d && startsWith s' p'
  | String _ _, EmptyString => false
  end.

(** [s.includes(q)] *)
Fixpoint includes (s q : string) : bool :=
  startsWith s q ||
  match s with
  | EmptyString => false
  | String _ s' => includes s' q
  end.

(** [charCodeAt] over the whole string. *)
Definition charCodes (s : string) : list Z :=
  List.map (fun c => Z.of_nat (nat_of_ascii c)) (list_ascii_of_string s).

(** ToInt32: what [<<] and [&] make of their operands. *)
Definition toInt32 (z : Z) : Z := ((z + 2 ^ 31) mod 2 ^ 32 - 2 ^ 31)%Z.

Definition hexDigit (d : Z) : ascii :=
  nth (Z.to_nat d) (list_ascii_of_string "0123456789abcdef") "0"%char.

Fixpoint hexDigits (fuel : nat) (n : Z) (acc : string) : string :=
  match fuel with
  | O => acc
  | S fuel' =>
      let acc' := String (hexDigit (n mod 16)) acc in
      if (n <? 16)%Z then acc' else hexDigits fuel' (n / 16) acc'
  end.

(** [n.toString(16)] for an integer [n]: a minus sign, then the digits. *)
Definition toString16 (z : Z) : string :=
  if (z <? 0)%Z
  then "-" +:+ hexDigits (S (Z.to_nat (Z.log2 (- z)))) (- z) ""
  else hexDigits (S (Z.to_nat (Z.log2 z))) z "".

(** [s.padStart(n, c)] *)
Definition padStart (n : nat) (c : ascii) (s : string) : string :=
  string_of_list_ascii (repeat c (n - String.length s)) +:+ s.

(** [arr.findIndex(f)]; [None] is [-1]. *)
Fixpoint findIndex {A : Type} (f : A -> bool) (l : list A) : option nat :=
  match l with
  | [] => None
  | x :: l' => if f x then Some O else S <$> findIndex f l'
  end.

(** ** Records of the data model *)

Module Teacher.
Record t := mk {
  id : string;
  username : string;
  password : string;       (* the digest, never the plain text *)
  createdAt : string
}.
End Teacher.

Module Student.
Record t := mk {
  id : string;
  teacherId : string;
  name : string;
  studentId : string;
  course : string;
  year : Number;
  status : string;
  createdAt : string
}.
End Student.

(** The record kept under [attendance_current_user]. *)
Module Session.
Record t := mk {
  id : string;
  username : string;
  createdAt : string
}.
End Session.

(** The four statistic cards. *)
Module Stats.
Record t := mk {
  total : nat;
  present : nat;
  absent : nat;
  unmarked : nat
}.
End Stats.

(** ** The page *)

(** What a [localStorage] entry holds, seen through [JSON.parse]: the empty
    string, a text [JSON.parse] rejects, or the text of one of the values
    this program writes.  A text of any other shape is outside the typed
    model and reads as [Garbled]. *)
Inductive JsValue :=
| TeacherArray (ts : list Teacher.t)
| StudentArray (ss : list Student.t)
| UserObject (u : Session.t)
| Null.

Inductive StoredText :=
| EmptyText
| Garbled
| Json (v : JsValue).

Definition truthy_text (text : StoredText) : bool :=
  match text with
  | EmptyText => false
  | _ => true
  end.

Record World := mkWorld {
  localStorage : gmap string StoredText;
  messages : list (string * string);   (* the alerts shown: message, type *)
  table : list Student.t;              (* the rows of #studentsTableBody *)
  counters : Stats.t;                  (* the statistic cards *)
  currentDeleteId : option string;     (* App.currentDeleteId *)
  entropy : nat → Z;                   (* the random numbers still to be drawn *)
  clock : string;                      (* what new Date().toISOString() returns *)
  pending : list (string * string)     (* the calls of Auth.login nobody awaits, each
                                          stopped at its first await: username, password *)
}.

Definition set_localStorage (f : gmap string StoredText -> gmap string StoredText) (w : World) : World :=
  mkWorld (f (localStorage w)) (messages w) (table w) (counters w) (currentDeleteId w)
          (entropy w) (clock w) (pending w).

Definition set_messages (f : list (string * string) -> list (string * string)) (w : World) : World :=
  mkWorld (localStorage w) (f (messages w)) (table w) (counters w) (currentDeleteId w)
          (entropy w) (clock w) (pending w).

Definition set_table (rows : list Student.t) (w : World) : World :=
  mkWorld (localStorage w) (messages w) rows (counters w) (currentDeleteId w)
          (entropy w) (clock w) (pending w).

Definition set_counters (c : Stats.t) (w : World) : World :=
  mkWorld (localStorage w) (messages w) (table w) c (currentDeleteId w)
          (entropy w) (clock w) (pending w).

Definition set_currentDeleteId (x : option string) (w : World) : World :=
  mkWorld (localStorage w) (messages w) (table w) (counters w) x
          (entropy w) (clock w) (pending w).

Definition set_entropy (e : nat → Z) (w : World) : World :=
  mkWorld (localStorage w) (messages w) (table w) (counters w) (currentDeleteId w)
          e (clock w) (pending w).

Definition set_pending (f : list (string * string) → list (string * string)) (w : World) : World :=
  mkWorld (localStorage w) (messages w) (table w) (counters w) (currentDeleteId w)
          (entropy w) (clock w) (f (pending w)).

(** ** Computations *)

Definition Js (A : Type) : Type := World -> Result A * World.

Definition run {A : Type} (m : Js A) (w : World) : Result A * World := m w.

(** The world a computation leaves, and the value it returns. *)
Definition exec {A : Type} (m : Js A) (w : World) : World := snd (run m w).
Definition outcome {A : Type} (m : Js A) (w : World) : Result A := fst (run m w).

#[global] Instance Js_ret : MRet Js := fun A a w => (Ok a, w).

#[global] Instance Js_bind : MBind Js := fun A B f m w =>
  match m w with
  | (Ok a, w') => f a w'
  | (Throw e, w') => (Throw e, w')
  end.

(** [throw e] *)
Definition throw {A : Type} (e : JsError) : Js A := fun w => (Throw e, w).

(** [try { m } catch (error) { handler(error) }] *)
Definition try_catch {A : Type} (m : Js A) (handler : JsError -> Js A) : Js A := fun w =>
  match m w with
  | (Ok a, w') => (Ok a, w')
  | (Throw e, w') => handler e w'
  end.

(** A pure expression that may throw. *)
Definition lift {A : Type} (r : Result A) : Js A := fun w => (r, w).

(** [if (c) { m }] *)
Definition when (c : bool) (m : Js unit) : Js unit := if c then m else mret tt.

Definition modify (f : World -> World) : Js unit := fun w => (Ok tt, f w).

Definition gets {A : Type} (f : World -> A) : Js A := fun w => (Ok (f w), w).

(** ** The host *)

(** The built-in methods the program calls on strings, and the crypto
    object.  [crypto_subtle] is [None] where [crypto.subtle] is undefined;
    otherwise it gives the bytes of
    [crypto.subtle.digest('SHA-256', new TextEncoder().encode(s))], which
    is taken not to reject.  [crypto_randomUUID] is [None] where
    [crypto.randomUUID] is undefined; otherwise it gives the identifier
    made from the random numbers at hand, and the numbers left. *)
Class Browser := {
  toLowerCase : string -> string;
  trim : string -> string;
  parseInt : string -> Number;
  crypto_subtle : option (string -> list Z);
  crypto_randomUUID : option ((nat → Z) → string * (nat → Z))
}.

(** The Web Storage object behind [localStorage]: each call may throw
    (a full quota, storage disabled by the user). *)
Class WebStorage := {
  localStorage_getItem : string -> Js (option StoredText);
  localStorage_setItem : string -> StoredText -> Js unit;
  localStorage_removeItem : string -> Js unit
}.

(** [JSON.stringify] and [JSON.parse] at the type [V]. *)
Class JSON (V : Type) := {
  JSON_stringify : V -> Result StoredText;
  JSON_parse : StoredText -> Result V
}.

Definition SyntaxError : JsError := mkError "SyntaxError" "Unexpected token".

#[global] Instance JSON_teachers : JSON (list Teacher.t) := {
  JSON_stringify ts := Ok (Json (TeacherArray ts));
  JSON_parse text :=
    match text with
    | Json (TeacherArray ts) => Ok ts
    | _ => Throw SyntaxError
    end
}.

#[global] Instance JSON_students : JSON (list Student.t) := {
  JSON_stringify ss := Ok (Json (StudentArray ss));
  JSON_parse text :=
    match text with
    | Json (StudentArray ss) => Ok ss
    | _ => Throw SyntaxError
    end
}.

(** The current user: an object or [null]. *)
#[global] Instance JSON_user : JSON (option Session.t) := {
  JSON_stringify u :=
    match u with
    | Some u => Ok (Json (UserObject u))
    | None => Ok (Json Null)
    end;
  JSON_parse text :=
    match text with
    | Json (UserObject u) => Ok (Some u)
    | Json Null => Ok None
    | _ => Throw SyntaxError
    end
}.

(** ** class Storage *)

Section Storage.
Context {store : WebStorage}.

Section Adapter.
Context {V : Type} {codec : JSON V}.

(** [Storage.getItem(key, defaultValue)] *)
Definition getItem (key : string) (defaultValue : V) : Js V :=
  try_catch
    (item ← localStorage_getItem key;
     match item with
     | Some text => if truthy_text text then lift (JSON_parse text) else mret defaultValue
     | None => mret defaultValue
     end)
    (fun error => mret defaultValue).

(** [Storage.setItem(key, data)] *)
Definition setItem (key : string) (data : V) : Js bool :=
  try_catch
    (text ← lift (JSON_stringify data);
     localStorage_setItem key text;;
     mret true)
    (fun error => mret false).

End Adapter.

(** [Storage.getCurrentUser()] *)
Definition getCurrentUser : Js (option Session.t) :=
  getItem "attendance_current_user" None.

(** [Storage.setCurrentUser(user)] *)
Definition setCurrentUser (user : Session.t) : Js bool :=
  setItem "attendance_current_user" (Some user).

(** [Storage.clearCurrentUser()] *)
Definition clearCurrentUser : Js unit :=
  localStorage_removeItem "attendance_current_user".

(** [Storage.getTeachers()] *)
Definition getTeachers : Js (list Teacher.t) :=
  getItem "attendance_teachers" [].

(** [Storage.saveTeachers(teachers)] *)
Definition saveTeachers (teachers : list Teacher.t) : Js bool :=
  setItem "attendance_teachers" teachers.

(** [Storage.getStudents()] *)
Definition getStudents : Js (list Student.t) :=
  getItem "attendance_students" [].

(** [Storage.saveStudents(students)] *)
Definition saveStudents (students : list Student.t) : Js bool :=
  setItem "attendance_students" students.

End Storage.

Section Primitives.
Context {browser : Browser}.

(** The value [Storage.hashPassword(password)] resolves to: the SHA-256
    digest in lower-case hex where [crypto.subtle] exists, else the 32-bit
    rolling hash ([hash << 5], [hash & hash] wrap to 32 bits). *)
Definition digest (password : string) : string :=
  match crypto_subtle with
  | Some sha256 =>
      String.concat "" (List.map (fun b => padStart 2 "0"%char (toString16 b)) (sha256 password))
  | None =>
      toString16
        (fold_left
           (fun hash char =>
              let hash := (toInt32 (Z.shiftl (toInt32 hash) 5) - hash + char)%Z in
              Z.land (toInt32 hash) (toInt32 hash))
           (charCodes password) 0%Z)
  end.

(** [Storage.hashPassword(password)] *)
Definition hashPassword (password : string) : Js string :=
  try_catch
    (mret (digest password))
    (fun error => throw (Error "Failed to hash password")).

(** [Math.random() * 16 | 0]: the next random number, between 0 and 15. *)
Definition random16 : Js Z := fun w =>
  (Ok (entropy w 0 mod 16)%Z, set_entropy (fun n => entropy w (S n)) w).

(** ['...'.replace(/[xy]/g, c => ...)], one character at a time: an [x]
    becomes a random hex digit, a [y] one of 8, 9, a, b. *)
Fixpoint replace_xy (template : string) : Js string :=
  match template with
  | EmptyString => mret ""
  | String c rest =>
      piece ← (if Ascii.eqb c "x" || Ascii.eqb c "y" then
                 r ← random16;
                 let v := if Ascii.eqb c "x" then r else Z.lor (Z.land r 3) 8 in
                 mret (toString16 v)
               else mret (String c ""));
      tail ← replace_xy rest;
      mret (piece +:+ tail)
  end.

(** [Storage.generateId()] *)
Definition generateId : Js string :=
  match crypto_randomUUID with
  | Some randomUUID => fun w =>
      let '(id, rest) := randomUUID (entropy w) in (Ok id, set_entropy rest w)
  | None => replace_xy "xxxxxxxx-xxxx-4xxx-yxxx-xxxxxxxxxxxx"
  end.

(** [new Date().toISOString()] *)
Definition currentTime : Js string := gets clock.

End Primitives.


(** ** class UI: the message banner *)

(** [UI.showMessage(message, type)]: one more alert in the container. *)
Definition showMessage (msg type : string) : Js unit :=
  modify (set_messages (fun shown => shown ++ [(msg, type)])).

(** ** class Auth *)

Section Auth.
Context {store : WebStorage} {browser : Browser}.

(** [Auth.login(username, password)] *)
Definition login (username password : string) : Js Session.t :=
  try_catch
    (when (negb (truthy username) || negb (truthy password))
       (throw (Error "Please enter both username and password"));;
     hashedPassword ← hashPassword password;
     teachers ← getTeachers;
     let teacher :=
       find (fun t =>
               String.eqb (toLowerCase (Teacher.username t)) (toLowerCase username)
               && String.eqb (Teacher.password t) hashedPassword)
            teachers in
     match teacher with
     | None => throw (Error "Invalid username or password")
     | Some teacher =>
         let sessionUser :=
           Session.mk (Teacher.id teacher) (Teacher.username teacher) (Teacher.createdAt teacher) in
         setCurrentUser sessionUser;;
         showMessage ("Welcome back, " +:+ username +:+ "!") "success";;
         mret sessionUser
     end)
    (fun error =>
       showMessage (message error) "error";;
       throw error).

(** [this.login(username, password)] with no [await] in front.  An [async]
    function runs at its call up to its first [await].  For [login] that
    is the validation: when it fails, the alert is shown at the call and
    the rejection reaches nobody.  With both fields filled in, the call
    stops at [await Storage.hashPassword(password)]: nothing was shown or
    stored, the caller goes on, and what follows in [login] is left to a
    later job. *)
Definition startLogin (username password : string) : Js unit := fun w =>
  if negb (truthy username) || negb (truthy password)
  then (Ok tt, exec (login username password) w)
  else (Ok tt, set_pending (fun calls => calls ++ [(username, password)]) w).

(** The job in which the pending call number [i] goes on after its
    [await]: [login] looks the teacher up in what is stored by then and
    writes the session or shows the failure; what it returns or throws
    reaches nobody.  The validation at the head of [login] was passed at
    the call and shows nothing. *)
Definition resumeLogin (i : nat) : Js unit := fun w =>
  match pending w !! i with
  | None => (Ok tt, w)
  | Some (username, password) =>
      (Ok tt, exec (login username password) (set_pending (delete i) w))
  end.

(** [Auth.register(username, password)].  The call to [login] is not
    awaited: [register] shows its alert and returns while that call is
    pending. *)
Definition register (username password : string) : Js Teacher.t :=
  try_catch
    (when (negb (truthy username) || (String.length (trim username) <? 3))
       (throw (Error "Username must be at least 3 characters long"));;
     when (negb (truthy password) || (String.length password <? 4))
       (throw (Error "Password must be at least 4 characters long"));;
     teachers ← getTeachers;
     let existing :=
       find (fun t => String.eqb (toLowerCase (Teacher.username t)) (toLowerCase username))
            teachers in
     when (bool_decide (is_Some existing))
       (throw (Error "Username already exists. Please choose another one."));;
     hashedPassword ← hashPassword password;
     id ← generateId;
     createdAt ← currentTime;
     let newTeacher := Teacher.mk id (trim username) hashedPassword createdAt in
     saveTeachers (teachers ++ [newTeacher]);;
     startLogin username password;;
     showMessage ("Registration successful! Welcome aboard, " +:+ username +:+ "!") "success";;
     mret newTeacher)
    (fun error =>
       showMessage (message error) "error";;
       throw error).

(** [Auth.logout()] *)
Definition logout : Js unit :=
  clearCurrentUser;;
  showMessage "You have been logged out successfully" "success".

(** [Auth.requireAuth()] *)
Definition requireAuth : Js bool :=
  currentUser ← getCurrentUser;
  match currentUser with
  | None => showMessage "Please login to access this page" "error";; mret false
  | Some _ => mret true
  end.

(** [Auth.getCurrentTeacherId()]: a string or [null]. *)
Definition getCurrentTeacherId : Js (option string) :=
  currentUser ← getCurrentUser;
  mret (Session.id <$> currentUser).

End Auth.

(** ** class UI: the table and the statistic cards *)

Section UI.
Context {store : WebStorage} {browser : Browser}.

(** [UI.updateStats(students)] *)
Definition updateStats (students : list Student.t) : Js unit :=
  let total := length students in
  let present := length (List.filter (fun s => String.eqb (Student.status s) "Present") students) in
  let absent := length (List.filter (fun s => String.eqb (Student.status s) "Absent") students) in
  let unmarked := length (List.filter (fun s => String.eqb (Student.status s) "Unmarked") students) in
  modify (set_counters (Stats.mk total present absent unmarked)).

(** [UI.renderStudentsTable(searchQuery, courseFilter)] *)
Definition renderStudentsTable (searchQuery courseFilter : string) : Js unit :=
  teacherId ← getCurrentTeacherId;
  if negb (truthy_or_null teacherId) then mret tt else
  stored ← getStudents;
  let students := List.filter (fun s => strict_eq (Student.teacherId s) teacherId) stored in
  let students :=
    if truthy searchQuery then
      let query := toLowerCase searchQuery in
      List.filter (fun s =>
                     includes (toLowerCase (Student.name s)) query
                     || includes (toLowerCase (Student.studentId s)) query)
                  students
    else students in
  let students :=
    if truthy courseFilter then
      List.filter (fun s => String.eqb (Student.course s) courseFilter) students
    else students in
  updateStats students;;
  modify (set_table students).

End UI.

(** ** class App *)

(** The fields of the add-student form, as typed. *)
Record AddStudentForm := mkAddStudentForm {
  studentName : string;
  studentIdInput : string;
  studentCourse : string;
  studentYear : string
}.

(** The fields of the edit-student form; [editStudentId] is the hidden
    field holding the record's identifier. *)
Record EditStudentForm := mkEditStudentForm {
  editStudentId : string;
  editStudentName : string;
  editStudentIdInput : string;
  editStudentCourse : string;
  editStudentYear : string
}.

Definition TypeError : JsError := mkError "TypeError" "Cannot read properties of undefined".

(** [arr[i]] followed by a property access. *)
Definition at_index {A : Type} (arr : list A) (i : nat) : Js A :=
  match arr !! i with
  | Some x => mret x
  | None => throw TypeError
  end.

Section App.
Context {store : WebStorage} {browser : Browser}.

(** [App.handleAddStudent(e)] *)
Definition handleAddStudent (e : AddStudentForm) : Js unit :=
  teacherId ← getCurrentTeacherId;
  if negb (truthy_or_null teacherId) then
    showMessage "Session expired. Please login again." "error"
  else
  let teacherId := default "" teacherId in   (* a non-empty string from here on *)
  let name := trim (studentName e) in
  let studentId := trim (studentIdInput e) in
  let course := studentCourse e in
  let year := parseInt (studentYear e) in
  try_catch
    (when (negb (truthy name) || negb (truthy studentId)
           || negb (truthy course) || negb (truthy_number year))
       (throw (Error "Please fill in all fields"));;
     students ← getStudents;
     let duplicate :=
       find (fun s =>
               String.eqb (Student.teacherId s) teacherId
               && String.eqb (toLowerCase (Student.studentId s)) (toLowerCase studentId))
            students in
     when (bool_decide (is_Some duplicate))
       (throw (Error "A student with this ID already exists"));;
     id ← generateId;
     createdAt ← currentTime;
     let newStudent :=
       Student.mk id teacherId name studentId course year "Unmarked" createdAt in
     saveStudents (students ++ [newStudent]);;
     showMessage ("Student " +:+ name +:+ " added successfully!") "success";;
     renderStudentsTable "" "")
    (fun error => showMessage (message error) "error").

(** [App.handleEditStudent(e)] *)
Definition handleEditStudent (e : EditStudentForm) : Js unit :=
  let studentId := editStudentId e in
  let name := trim (editStudentName e) in
  let studentIdInput := trim (editStudentIdInput e) in
  let course := editStudentCourse e in
  let year := parseInt (editStudentYear e) in
  try_catch
    (when (negb (truthy name) || negb (truthy studentIdInput)
           || negb (truthy course) || negb (truthy_number year))
       (throw (Error "Please fill in all fields"));;
     teacherId ← getCurrentTeacherId;
     students ← getStudents;
     match findIndex (fun s => String.eqb (Student.id s) studentId) students with
     | None => throw (Error "Student not found")
     | Some studentIndex =>
         let duplicate :=
           find (fun s =>
                   negb (String.eqb (Student.id s) studentId)
                   && strict_eq (Student.teacherId s) teacherId
                   && String.eqb (toLowerCase (Student.studentId s)) (toLowerCase studentIdInput))
                students in
         when (bool_decide (is_Some duplicate))
           (throw (Error "A student with this ID already exists"));;
         current ← at_index students studentIndex;
         let updated :=
           Student.mk (Student.id current) (Student.teacherId current)
                      name studentIdInput course year
                      (Student.status current) (Student.createdAt current) in
         saveStudents (<[studentIndex := updated]> students);;
         showMessage "Student updated successfully!" "success";;
         renderStudentsTable "" ""
     end)
    (fun error => showMessage (message error) "error").

(** [App.handleToggleAttendance(studentId)] *)
Definition handleToggleAttendance (studentId : string) : Js unit :=
  try_catch
    (teacherId ← getCurrentTeacherId;
     students ← getStudents;
     match findIndex (fun s => String.eqb (Student.id s) studentId) students with
     | None => throw (Error "Student not found")
     | Some studentIndex =>
         current ← at_index students studentIndex;
         let currentStatus := Student.status current in
         let newStatus := if String.eqb currentStatus "Present" then "Absent" else "Present" in
         let toggled :=
           Student.mk (Student.id current) (Student.teacherId current)
                      (Student.name current) (Student.studentId current)
                      (Student.course current) (Student.year current)
                      newStatus (Student.createdAt current) in
         saveStudents (<[studentIndex := toggled]> students);;
         showMessage "Attendance updated successfully!" "success";;
         renderStudentsTable "" ""
     end)
    (fun error => showMessage (message error) "error").

(** [App.handleDeleteStudent(studentId)] *)
Definition handleDeleteStudent (studentId : string) : Js unit :=
  modify (set_currentDeleteId (Some studentId)).

(** [App.handleDeleteConfirm()] *)
Definition handleDeleteConfirm : Js unit :=
  pending ← gets currentDeleteId;
  if negb (truthy_or_null pending) then mret tt else
  try_catch
    (teacherId ← getCurrentTeacherId;
     students ← getStudents;
     match findIndex (fun s => strict_eq (Student.id s) pending) students with
     | None => throw (Error "Student not found")
     | Some studentIndex =>
         current ← at_index students studentIndex;
         let studentName := Student.name current in
         let students :=
           List.filter (fun s => negb (strict_eq (Student.id s) pending)) students in
         saveStudents students;;
         showMessage ("Student " +:+ studentName +:+ " deleted successfully!") "success";;
         modify (set_currentDeleteId None);;
         renderStudentsTable "" ""
     end)
    (fun error => showMessage (message error) "error").

(** [App.handleEditStudentModal(studentId)]: only its message is kept. *)
Definition handleEditStudentModal (studentId : string) : Js unit :=
  teacherId ← getCurrentTeacherId;
  students ← getStudents;
  match find (fun s => String.eqb (Student.id s) studentId) students with
  | None => showMessage "Student not found" "error"
  | Some _ => mret tt
  end.

(** [App.handleTableAction(e)], from the button's [data-action] and
    [data-id]. *)
Definition handleTableAction (action id : string) : Js unit :=
  if negb (truthy action) || negb (truthy id) then mret tt else
  if String.eqb action "toggle" then handleToggleAttendance id
  else if String.eqb action "edit" then handleEditStudentModal id
  else if String.eqb action "delete" then handleDeleteStudent id
  else mret tt.

End App.

(** ** The page's own storage

    [localStorage] as a map from keys to texts, with room to spare: a read
    returns what is stored and a write is accepted.  The properties of
    [Auth], [UI] and [App] below are stated for this storage; those of the
    adapter hold for any. *)
#[global] Instance page_storage : WebStorage := {
  localStorage_getItem key := gets (fun w => localStorage w !! key);
  localStorage_setItem key text := modify (set_localStorage (insert key text));
  localStorage_removeItem key := modify (set_localStorage (delete key))
}.

(** ** A host for examples

    The string methods on code units below 256, where they agree with
    JavaScript: [toLowerCase] moves A-Z and the accented capitals of
    Latin-1, [trim] strips tab, line feed, vertical tab, form feed, carriage
    return, space and no-break space, [parseInt] reads an optional sign, an
    optional [0x] and the digits that follow.  [crypto.subtle] and
    [crypto.randomUUID] are absent, as on a page served without TLS. *)
Module Latin1.

Definition code (c : ascii) : nat := nat_of_ascii c.

Definition lower (c : ascii) : ascii :=
  let n := code c in
  if (65 <=? n) && (n <=? 90) || (192 <=? n) && (n <=? 222) && negb (n =? 215)
  then ascii_of_nat (n + 32) else c.

Fixpoint toLowerCase (s : string) : string :=
  match s with
  | EmptyString => EmptyString
  | String c s' => String (lower c) (toLowerCase s')
  end.

Definition isSpace (c : ascii) : bool :=
  let n := code c in
  (9 <=? n) && (n <=? 13) || (n =? 32) || (n =? 160).

Fixpoint trimStart (s : string) : string :=
  match s with
  | EmptyString => EmptyString
  | String c s' => if isSpace c then trimStart s' else s
  end.

Definition reverse (s : string) : string :=
  string_of_list_ascii (rev (list_ascii_of_string s)).

Definition trim (s : string) : string :=
  reverse (trimStart (reverse (trimStart s))).

Definition digitValue (radix : Z) (c : ascii) : option Z :=
  let n := Z.of_nat (code c) in
  let d := if (48 <=? n)%Z && (n <=? 57)%Z then (n - 48)%Z
           else if (97 <=? n)%Z && (n <=? 122)%Z then (n - 87)%Z
           else if (65 <=? n)%Z && (n <=? 90)%Z then (n - 55)%Z
           else radix in
  if (d <? radix)%Z then Some d else None.

Fixpoint digits (radix : Z) (s : string) (acc : option Z) : option Z :=
  match s with
  | EmptyString => acc
  | String c s' =>
      match digitValue radix c with
      | Some d => digits radix s' (Some (default 0 acc * radix + d)%Z)
      | None => acc
      end
  end.

Definition parseInt (s : string) : Number :=
  let s := trimStart s in
  let '(sign, s) :=
    match s with
    | String "-" s' => ((-1)%Z, s')
    | String "+" s' => (1%Z, s')
    | _ => (1%Z, s)
    end in
  let '(radix, s) :=
    match s with
    | String "0" (String "x" s') => (16%Z, s')
    | String "0" (String "X" s') => (16%Z, s')
    | _ => (10%Z, s)
    end in
  match digits radix s None with
  | Some z => Num (sign * z)
  | None => NaN
  end.

End Latin1.

Definition latin1 : Browser := {|
  toLowerCase := Latin1.toLowerCase;
  trim := Latin1.trim;
  parseInt := Latin1.parseInt;
  crypto_subtle := None;
  crypto_randomUUID := None
|}.

(** Two storages that fail.  [refusing_storage] refuses every write
    ([QuotaExceededError]) and every read ([SecurityError]): the worst case
    the adapter has to absorb.  [full_storage] reads like the page's own
    and refuses every write. *)
Definition QuotaExceededError : JsError := mkError "QuotaExceededError" "The quota has been exceeded".

Definition SecurityError : JsError := mkError "SecurityError" "The operation is insecure".

Definition refusing_storage : WebStorage := {|
  localStorage_getItem key := throw SecurityError;
  localStorage_setItem key text := throw QuotaExceededError;
  localStorage_removeItem key := throw SecurityError
|}.

Definition full_storage : WebStorage := {|
  localStorage_getItem key := gets (fun w => localStorage w !! key);
  localStorage_setItem key text := throw QuotaExceededError;
  localStorage_removeItem key := modify (set_localStorage (delete key))
|}.

(** ** What the program sees of a world *)

(** The collections and the session as [Storage] hands them out. *)
Definition studentsOf (w : World) : list Student.t :=
  match outcome getStudents w with
  | Ok ss => ss
  | Throw _ => []
  end.

Definition teachersOf (w : World) : list Teacher.t :=
  match outcome getTeachers w with
  | Ok ts => ts
  | Throw _ => []
  end.

Definition sessionOf (w : World) : option Session.t :=
  match outcome getCurrentUser w with
  | Ok u => u
  | Throw _ => None
  end.

(** [teacher] is logged in: [Auth.getCurrentTeacherId()] returns this
    non-empty identifier. *)
Definition loggedIn (w : World) (teacher : string) : Prop :=
  outcome getCurrentTeacherId w = Ok (Some teacher) ∧ teacher ≠ "".

(** A handler that does nothing but show [msg] as an error. *)
Definition rejects (handler : Js unit) (msg : string) (w : World) : Prop :=
  run handler w = run (showMessage msg "error") w.

(** An [Auth] call that shows [msg] as an error and throws it. *)
Definition fails {A : Type} (call : Js A) (msg : string) (w : World) : Prop :=
  run call w = (Throw (Error msg), exec (showMessage msg "error") w).

(** The first record with the identifier [id]. *)
Definition studentWithId (id : string) (ss : list Student.t) : option Student.t :=
  find (fun s => String.eqb (Student.id s) id) ss.

(** ** The vocabulary of the specification *)

Section Vocabulary.
Context {browser : Browser}.

(** Two strings are equal case-insensitively. *)
Definition same_ci (a b : string) : Prop := toLowerCase a = toLowerCase b.

(** [text] contains [query] case-insensitively. *)
Definition contains_ci (text query : string) : Prop :=
  includes (toLowerCase text) (toLowerCase query) = true.

(** The credentials fit the stored teacher. *)
Definition credentials_fit (username password : string) (t : Teacher.t) : Prop :=
  same_ci (Teacher.username t) username ∧ Teacher.password t = digest password.

(** The teacher record a successful registration appends. *)
Definition registered (username password id createdAt : string) : Teacher.t :=
  Teacher.mk id (trim username) (digest password) createdAt.

(** The identifier [Storage.generateId()] returns in the world [w]. *)
Definition freshId (w : World) : string :=
  match outcome generateId w with
  | Ok id => id
  | Throw _ => ""
  end.

(** The rows [list(teacher, searchQuery, courseFilter)] keeps. *)
Definition listed (teacher searchQuery courseFilter : string) (s : Student.t) : Prop :=
  Student.teacherId s = teacher
  ∧ (searchQuery ≠ "" →
     contains_ci (Student.name s) searchQuery ∨ contains_ci (Student.studentId s) searchQuery)
  ∧ (courseFilter ≠ "" → Student.course s = courseFilter).

#[global] Instance listed_dec teacher searchQuery courseFilter s :
  Decision (listed teacher searchQuery courseFilter s).
Proof. unfold listed, contains_ci. apply _. Defined.

(** The four fields of a form are all filled in. *)
Definition filled (name studentId course : string) (year : Number) : Prop :=
  name ≠ "" ∧ studentId ≠ "" ∧ course ≠ "" ∧ year ≠ NaN ∧ year ≠ Num 0.

(** Another record of [teacher] already carries [studentId], up to case. *)
Definition taken_by (teacher studentId : string) (s : Student.t) : Prop :=
  Student.teacherId s = teacher ∧ same_ci (Student.studentId s) studentId.

End Vocabulary.

(** [s] stands at index [i] and is the first record with identifier [id]:
    the one [findIndex] points at. *)
Definition firstWithId (id : string) (students : list Student.t) (i : nat) (s : Student.t) : Prop :=
  students !! i = Some s
  ∧ Student.id s = id
  ∧ ∀ j y, j < i → students !! j = Some y → Student.id y ≠ id.

(** A record with another status, every other field kept. *)
Definition withStatus (status : string) (s : Student.t) : Student.t :=
  Student.mk (Student.id s) (Student.teacherId s) (Student.name s) (Student.studentId s)
             (Student.course s) (Student.year s) status (Student.createdAt s).

(** The flip rule of the toggle: Absent after Present, Present after
    anything else. *)
Definition flipped (status : string) : string :=
  if String.eqb status "Present" then "Absent" else "Present".

(** A record with the four editable fields replaced, the others kept. *)
Definition withFields (name studentId course : string) (year : Number) (s : Student.t) : Student.t :=
  Student.mk (Student.id s) (Student.teacherId s) name studentId course year
             (Student.status s) (Student.createdAt s).

(** The number of students with a given status. *)
Fixpoint howMany (status : string) (students : list Student.t) : nat :=
  match students with
  | [] => 0
  | s :: rest =>
      (if String.eqb (Student.status s) status then 1 else 0) + howMany status rest
  end.

(** Every status is one of the three of the data model. *)
Definition statusOk (s : Student.t) : Prop :=
  Student.status s = "Present" ∨ Student.status s = "Absent" ∨ Student.status s = "Unmarked".

(** One roster operation, with whatever arguments the page supplies. *)
Inductive roster_step {browser : Browser} : World → World → Prop :=
| step_add e w :
    roster_step w (exec (handleAddStudent e) w)
| step_edit e w :
    roster_step w (exec (handleEditStudent e) w)
| step_toggle studentId w :
    roster_step w (exec (handleToggleAttendance studentId) w)
| step_choose studentId w :
    roster_step w (exec (handleDeleteStudent studentId) w)
| step_delete w :
    roster_step w (exec handleDeleteConfirm w).

(** ** Worlds for examples *)

(** A page just opened: nothing stored, nothing shown. *)
Definition blank : World :=
  mkWorld ∅ [] [] (Stats.mk 0 0 0 0) None Z.of_nat "2024-02-01T08:00:00.000Z" [].

(** Two teachers with the demo password, as the demo data has them. *)
Definition teacher1 : Teacher.t :=
  Teacher.mk "teacher-1" "Teacher1" (digest (browser := latin1) "123456") "2024-01-01T08:00:00.000Z".

Definition teacher2 : Teacher.t :=
  Teacher.mk "teacher-2" "Teacher2" (digest (browser := latin1) "123456") "2024-01-01T08:00:00.000Z".

Definition john : Student.t :=
  Student.mk "student-1" "teacher-1" "John Smith" "2024-001" "WAD" (Num 3) "Present"
             "2024-01-02T08:00:00.000Z".

Definition johnny : Student.t :=
  Student.mk "student-2" "teacher-2" "Johnny Appleseed" "2024-002" "OMT" (Num 2) "Unmarked"
             "2024-01-02T08:00:00.000Z".

Definition michael : Student.t :=
  Student.mk "student-3" "teacher-1" "Michael Brown" "2024-003" "WAD" (Num 3) "Absent"
             "2024-01-02T08:00:00.000Z".

(** A page on which the first teacher is logged in. *)
Definition classroom : World :=
  mkWorld
    (<["attendance_current_user" :=
         Json (UserObject (Session.mk "teacher-1" "Teacher1" "2024-01-01T08:00:00.000Z"))]>
       (<["attendance_students" := Json (StudentArray [john; johnny; michael])]>
          (<["attendance_teachers" := Json (TeacherArray [teacher1; teacher2])]> ∅)))
    [] [] (Stats.mk 0 0 0 0) None Z.of_nat "2024-02-01T08:00:00.000Z" [].

(** The record [emmaForm] below adds for the first teacher; the random
    numbers of the demo page are 0, 1, 2, ... *)
Definition emma : Student.t :=
  Student.mk "01234567-89ab-4cde-b012-3456789abcde" "teacher-1" "Emma Johnson" "2024-002"
             "OMT" (Num 2) "Unmarked" "2024-02-01T08:00:00.000Z".

(** A rename of the first student. *)
Definition johnEdit : EditStudentForm :=
  mkEditStudentForm "student-1" "John A. Smith" "2024-001" "WAD" "4".

(** The same page with the students' entry damaged. *)
Definition damaged : World :=
  set_localStorage (insert "attendance_students" Garbled) classroom.

(** An edit of a record that does not exist, with the name left empty. *)
Definition emptyEdit : EditStudentForm :=
  mkEditStudentForm "student-404" "" "2024-001" "WAD" "3".

(** A new student for the first teacher, with the studentId the second
    teacher's student already has. *)
Definition emmaForm : AddStudentForm :=
  mkAddStudentForm " Emma Johnson " "2024-002" "OMT" "2".

(** ** class Auth and class App: around the roster *)

Section Around.
Context {store : WebStorage}.

(** [Auth.getCurrentTeacher()]: the stored teacher of the session without
    its password (the fields of a session record), or [null]. *)
Definition getCurrentTeacher : Js (option Session.t) :=
  currentUser ← getCurrentUser;
  match currentUser with
  | None => mret None
  | Some currentUser =>
      teachers ← getTeachers;
      match find (fun t => String.eqb (Teacher.id t) (Session.id currentUser)) teachers with
      | None => mret None
      | Some teacher =>
          mret (Some (Session.mk (Teacher.id teacher) (Teacher.username teacher)
                                 (Teacher.createdAt teacher)))
      end
  end.

(** One teacher of the demo data.  The password of all of them is 123456,
    stored as its SHA-256 digest. *)
Definition sampleTeacher (id username : string) : Js Teacher.t :=
  createdAt ← currentTime;
  mret (Teacher.mk id username
          "8d969eef6ecad3c29a3a629280e686cf0c3f5d5a86aff3ca12020c923adc6c92" createdAt).

(** One student of the demo data. *)
Definition sampleStudent (id teacherId name studentId course : string) (year : Z)
    (status : string) : Js Student.t :=
  createdAt ← currentTime;
  mret (Student.mk id teacherId name studentId course (Num year) status createdAt).

(** [App.loadSampleData()] *)
Definition loadSampleData : Js unit :=
  teachers ← getTeachers;
  students ← getStudents;
  if (0 <? length teachers) || (0 <? length students) then mret tt else
  showMessage "Loading demo data for first-time setup..." "info";;
  t1 ← sampleTeacher "teacher-1" "Teacher1";
  t2 ← sampleTeacher "teacher-2" "Teacher2";
  t3 ← sampleTeacher "teacher-3" "Teacher3";
  s1 ← sampleStudent "student-1" "teacher-1" "John Smith" "2024-001" "WAD" 3 "Present";
  s2 ← sampleStudent "student-2" "teacher-1" "Emma Johnson" "2024-002" "OMT" 2 "Present";
  s3 ← sampleStudent "student-3" "teacher-1" "Michael Brown" "2024-003" "WAD" 3 "Absent";
  s4 ← sampleStudent "student-4" "teacher-2" "Sarah Davis" "2024-004" "HM" 1 "Present";
  s5 ← sampleStudent "student-5" "teacher-2" "James Wilson" "2024-005" "HRT" 4 "Unmarked";
  s6 ← sampleStudent "student-6" "teacher-2" "Lisa Anderson" "2024-006" "BSIT" 2 "Absent";
  s7 ← sampleStudent "student-7" "teacher-3" "Robert Taylor" "2024-007" "BSHM" 1 "Present";
  s8 ← sampleStudent "student-8" "teacher-3" "Jennifer Lee" "2024-008" "OAT" 3 "Present";
  s9 ← sampleStudent "student-9" "teacher-3" "David Martinez" "2024-009" "WAD" 2 "Unmarked";
  s10 ← sampleStudent "student-10" "teacher-1" "Maria Garcia" "2024-010" "OMT" 4 "Absent";
  saveTeachers [t1; t2; t3];;
  saveStudents [s1; s2; s3; s4; s5; s6; s7; s8; s9; s10];;
  mret tt.

End Around.

(** ** More vocabulary: identifiers, digests, invariants *)

(** A codec under which every value has a text that is not empty and parses
    back to the value. *)
Definition roundTrips {V : Type} (codec : JSON V) : Prop :=
  ∀ v, ∃ text, JSON_stringify v = Ok text ∧ truthy_text text = true ∧ JSON_parse text = Ok v.

Definition isHexDigit (c : ascii) : bool :=
  existsb (Ascii.eqb c) (list_ascii_of_string "0123456789abcdef").

(** [id] follows [template]: a hexadecimal digit for each [x], one of 8, 9,
    a, b for each [y], the character of the template elsewhere. *)
Fixpoint fits (template id : string) : bool :=
  match template, id with
  | EmptyString, EmptyString => true
  | String t template', String c id' =>
      (if Ascii.eqb t "x" then isHexDigit c
       else if Ascii.eqb t "y" then existsb (Ascii.eqb c) (list_ascii_of_string "89ab")
       else Ascii.eqb c t)
      && fits template' id'
  | _, _ => false
  end.

(** The textual shape of a version-4 UUID. *)
Definition uuid_v4 (id : string) : bool := fits "xxxxxxxx-xxxx-4xxx-yxxx-xxxxxxxxxxxx" id.

(** The number of [x] and [y] in a template. *)
Fixpoint holes (template : string) : nat :=
  match template with
  | EmptyString => 0
  | String c rest => (if Ascii.eqb c "x" || Ascii.eqb c "y" then 1 else 0) + holes rest
  end.

(** The polynomial hash of a string over its character codes, without
    wrap-around: c0 * 31^(n-1) + ... + c(n-1). *)
Definition hashCode (s : string) : Z :=
  fold_left (fun h c => (31 * h + c)%Z) (charCodes s) 0%Z.

Definition isByte (b : Z) : Prop := (0 ≤ b < 256)%Z.

Section Invariants.
Context {browser : Browser}.

(** No two stored teachers have the same username up to case. *)
Definition distinctUsernames (teachers : list Teacher.t) : Prop :=
  ∀ i j t1 t2, teachers !! i = Some t1 → teachers !! j = Some t2 →
    same_ci (Teacher.username t1) (Teacher.username t2) → i = j.

(** No two records have the same identifier, and no teacher has two records
    with the same studentId up to case. *)
Definition distinctRoster (students : list Student.t) : Prop :=
  NoDup (Student.id <$> students)
  ∧ ∀ s1 s2, s1 ∈ students → s2 ∈ students →
      Student.teacherId s1 = Student.teacherId s2 →
      same_ci (Student.studentId s1) (Student.studentId s2) →
      Student.id s1 = Student.id s2.

End Invariants.


(** The records of the other teachers. *)
Definition others (teacher : string) (students : list Student.t) : list Student.t :=
  filter (λ s, Student.teacherId s ≠ teacher) students.

(** The table and the cards show the records of [teacher] as they are
    stored. *)
Definition refreshed (teacher : string) (w : World) : Prop :=
  table w = filter (λ s, Student.teacherId s = teacher) (studentsOf w)
  ∧ counters w = Stats.mk (length (table w)) (howMany "Present" (table w))
                          (howMany "Absent" (table w)) (howMany "Unmarked" (table w)).


(** One roster operation of [teacher] on the teacher's own records: an add
    whose generated identifier is new, an edit of a record of the teacher,
    a toggle, the choice of a record to delete, its confirmation. *)
Inductive own_step {browser : Browser} (teacher : string) : World → World → Prop :=
| own_add e w :
    freshId w ∉ (Student.id <$> studentsOf w) →
    own_step teacher w (exec (handleAddStudent e) w)
| own_edit e w :
    (∀ s, s ∈ studentsOf w → Student.id s = editStudentId e → Student.teacherId s = teacher) →
    own_step teacher w (exec (handleEditStudent e) w)
| own_toggle studentId w :
    own_step teacher w (exec (handleToggleAttendance studentId) w)
| own_choose studentId w :
    own_step teacher w (exec (handleDeleteStudent studentId) w)
| own_confirm w :
    own_step teacher w (exec handleDeleteConfirm w).

(** The demo data, created at the time [now]. *)
Definition demoDigest : string :=
  "8d969eef6ecad3c29a3a629280e686cf0c3f5d5a86aff3ca12020c923adc6c92".

Definition demoTeachers (now : string) : list Teacher.t :=
  [ Teacher.mk "teacher-1" "Teacher1" demoDigest now;
    Teacher.mk "teacher-2" "Teacher2" demoDigest now;
    Teacher.mk "teacher-3" "Teacher3" demoDigest now ].

Definition demoStudents (now : string) : list Student.t :=
  [ Student.mk "student-1" "teacher-1" "John Smith" "2024-001" "WAD" (Num 3) "Present" now;
    Student.mk "student-2" "teacher-1" "Emma Johnson" "2024-002" "OMT" (Num 2) "Present" now;
    Student.mk "student-3" "teacher-1" "Michael Brown" "2024-003" "WAD" (Num 3) "Absent" now;
    Student.mk "student-4" "teacher-2" "Sarah Davis" "2024-004" "HM" (Num 1) "Present" now;
    Student.mk "student-5" "teacher-2" "James Wilson" "2024-005" "HRT" (Num 4) "Unmarked" now;
    Student.mk "student-6" "teacher-2" "Lisa Anderson" "2024-006" "BSIT" (Num 2) "Absent" now;
    Student.mk "student-7" "teacher-3" "Robert Taylor" "2024-007" "BSHM" (Num 1) "Present" now;
    Student.mk "student-8" "teacher-3" "Jennifer Lee" "2024-008" "OAT" (Num 3) "Present" now;
    Student.mk "student-9" "teacher-3" "David Martinez" "2024-009" "WAD" (Num 2) "Unmarked" now;
    Student.mk "student-10" "teacher-1" "Maria Garcia" "2024-010" "OMT" (Num 4) "Absent" now ].

(** ** The document around the table

    What the program reads and writes of the page besides the alerts, the
    rows and the cards: the [action] parameter of the address, the title,
    the [display] style of the elements it shows and hides, the modals
    that carry the class [active], the overflow style of the body, the
    name shown in the header, the message of the empty state, the values
    of the edit form and of the two controls above the table.  Every
    element the program looks up by its id exists, and a control takes the
    value it is given. *)
Module Document.

Record t := mk {
  action : option string;        (* new URLSearchParams(location.search).get('action') *)
  title : string;                (* document.title *)
  display : gmap string string;  (* style.display, by element id, where it was set *)
  active : gset string;          (* the ids of the modals that are open *)
  overflow : string;             (* document.body.style.overflow *)
  currentUserDisplay : string;   (* the name in the header, after the pictogram *)
  emptyState : string;           (* the message in #emptyState *)
  editForm : EditStudentForm;    (* the values of the inputs of the edit form *)
  searchInput : string;          (* the value of #searchInput *)
  courseFilter : string          (* the value of #courseFilter *)
}.

Definition set_action (x : option string) (d : t) : t :=
  mk x (title d) (display d) (active d) (overflow d) (currentUserDisplay d) (emptyState d)
     (editForm d) (searchInput d) (courseFilter d).

Definition set_title (x : string) (d : t) : t :=
  mk (action d) x (display d) (active d) (overflow d) (currentUserDisplay d) (emptyState d)
     (editForm d) (searchInput d) (courseFilter d).

Definition set_display (id value : string) (d : t) : t :=
  mk (action d) (title d) (<[id := value]> (display d)) (active d) (overflow d)
     (currentUserDisplay d) (emptyState d) (editForm d) (searchInput d) (courseFilter d).

Definition set_active (f : gset string → gset string) (d : t) : t :=
  mk (action d) (title d) (display d) (f (active d)) (overflow d) (currentUserDisplay d)
     (emptyState d) (editForm d) (searchInput d) (courseFilter d).

Definition set_overflow (x : string) (d : t) : t :=
  mk (action d) (title d) (display d) (active d) x (currentUserDisplay d) (emptyState d)
     (editForm d) (searchInput d) (courseFilter d).

Definition set_currentUserDisplay (x : string) (d : t) : t :=
  mk (action d) (title d) (display d) (active d) (overflow d) x (emptyState d)
     (editForm d) (searchInput d) (courseFilter d).

Definition set_emptyState (x : string) (d : t) : t :=
  mk (action d) (title d) (display d) (active d) (overflow d) (currentUserDisplay d) x
     (editForm d) (searchInput d) (courseFilter d).

Definition set_editForm (f : EditStudentForm → EditStudentForm) (d : t) : t :=
  mk (action d) (title d) (display d) (active d) (overflow d) (currentUserDisplay d)
     (emptyState d) (f (editForm d)) (searchInput d) (courseFilter d).

End Document.

(** The page: what [Storage], [Auth] and the table see, and the rest of
    the document. *)
Record Page := mkPage { world : World; document : Document.t }.

(** A computation on the whole page. *)
Definition Dom (A : Type) : Type := Page → Result A * Page.

Definition runPage {A : Type} (m : Dom A) (p : Page) : Result A * Page := m p.

Definition execPage {A : Type} (m : Dom A) (p : Page) : Page := snd (runPage m p).

#[global] Instance Dom_ret : MRet Dom := fun A a p => (Ok a, p).

#[global] Instance Dom_bind : MBind Dom := fun A B f m p =>
  match m p with
  | (Ok a, p') => f a p'
  | (Throw e, p') => (Throw e, p')
  end.

(** [try { m } catch (error) { handler(error) }] on the page. *)
Definition tryCatch {A : Type} (m : Dom A) (handler : JsError → Dom A) : Dom A := fun p =>
  match m p with
  | (Ok a, p') => (Ok a, p')
  | (Throw e, p') => handler e p'
  end.

(** A computation of [Storage], [Auth] or the table, run on the page: the
    document is not touched, a thrown error is thrown on. *)
Definition inWorld {A : Type} (m : Js A) : Dom A := fun p =>
  let '(r, w) := run m (world p) in (r, mkPage w (document p)).

(** A change of the document. *)
Definition update (f : Document.t → Document.t) : Dom unit := fun p =>
  (Ok tt, mkPage (world p) (f (document p))).

(** A look at the document. *)
Definition ask {A : Type} (f : Document.t → A) : Dom A := fun p => (Ok (f (document p)), p).

(** [arr.forEach(f)] *)
Fixpoint forEach {A : Type} (arr : list A) (f : A → Dom unit) : Dom unit :=
  match arr with
  | [] => mret tt
  | x :: rest => f x;; forEach rest f
  end.

(** [String(n)] for the result of [parseInt]: what a control shows when it
    is given the number. *)
Fixpoint decimalDigits (fuel : nat) (n : Z) (acc : string) : string :=
  match fuel with
  | O => acc
  | S fuel' =>
      let acc' := String (hexDigit (n mod 10)) acc in
      if (n <? 10)%Z then acc' else decimalDigits fuel' (n / 10) acc'
  end.

Definition toString (n : Number) : string :=
  match n with
  | NaN => "NaN"
  | Num z =>
      if (z <? 0)%Z
      then "-" +:+ decimalDigits (S (Z.to_nat (Z.log2 (- z)))) (- z) ""
      else decimalDigits (S (Z.to_nat (Z.log2 z))) z ""
  end.

(** ** class UI and class App, with the document

    The handlers above keep what the properties of the roster need.  Here
    they are again in full, with the sections, the modals and the forms,
    next to the functions that only concern the document. *)
Module Full.
Section Full.
Context {store : WebStorage} {browser : Browser}.

(** [UI.showSection(sectionId)] *)
Definition showSection (sectionId : string) : Dom unit :=
  forEach ["loginSection"; "registerSection"; "dashboardSection"] (fun id =>
    update (Document.set_display id (if String.eqb id sectionId then "flex" else "none"))).

(** [UI.showModal(modalId)] *)
Definition showModal (modalId : string) : Dom unit :=
  update (Document.set_active (fun open => {[modalId]} ∪ open));;
  update (Document.set_overflow "hidden").

(** [UI.closeModal(modalId)] *)
Definition closeModal (modalId : string) : Dom unit :=
  update (Document.set_active (fun open => open ∖ {[modalId]}));;
  update (Document.set_overflow "").

(** [UI.renderLogin()] *)
Definition renderLogin : Dom unit :=
  showSection "loginSection";;
  update (Document.set_title "Login - Student Attendance System").

(** [UI.renderRegister()] *)
Definition renderRegister : Dom unit :=
  showSection "registerSection";;
  update (Document.set_title "Register - Student Attendance System").

(** [UI.renderEmptyState(searchQuery, courseFilter)] *)
Definition renderEmptyState (searchQuery courseFilter : string) : Dom unit :=
  let message := "No students found. Add your first student to get started!" in
  let message :=
    if truthy searchQuery || truthy courseFilter
    then "No students match your search criteria. Try adjusting your filters."
    else message in
  update (Document.set_emptyState message).

(** [UI.renderStudentsTable(searchQuery, courseFilter)] *)
Definition renderStudentsTable (searchQuery courseFilter : string) : Dom unit :=
  teacherId ← inWorld getCurrentTeacherId;
  if negb (truthy_or_null teacherId) then mret tt else
  stored ← inWorld getStudents;
  let students := List.filter (fun s => strict_eq (Student.teacherId s) teacherId) stored in
  let students :=
    if truthy searchQuery then
      let query := toLowerCase searchQuery in
      List.filter (fun s =>
                     includes (toLowerCase (Student.name s)) query
                     || includes (toLowerCase (Student.studentId s)) query)
                  students
    else students in
  let students :=
    if truthy courseFilter then
      List.filter (fun s => String.eqb (Student.course s) courseFilter) students
    else students in
  inWorld (updateStats students);;
  if (length students =? 0) then
    inWorld (modify (set_table []));;
    update (Document.set_display "studentsTable" "none");;
    update (Document.set_display "emptyState" "block");;
    renderEmptyState searchQuery courseFilter
  else
    update (Document.set_display "studentsTable" "table");;
    update (Document.set_display "emptyState" "none");;
    inWorld (modify (set_table students)).

(** [UI.renderDashboard()] *)
Definition renderDashboard : Dom unit :=
  showSection "dashboardSection";;
  update (Document.set_title "Dashboard - Student Attendance System");;
  currentUser ← inWorld getCurrentTeacher;
  match currentUser with
  | Some currentUser => update (Document.set_currentUserDisplay (Session.username currentUser))
  | None => mret tt
  end;;
  renderStudentsTable "" "".

(** [UI.prefillEditForm(student)] *)
Definition prefillEditForm (student : Student.t) : Dom unit :=
  update (Document.set_editForm (fun form =>
    mkEditStudentForm (Student.id student) (editStudentName form) (editStudentIdInput form)
                      (editStudentCourse form) (editStudentYear form)));;
  update (Document.set_editForm (fun form =>
    mkEditStudentForm (editStudentId form) (Student.name student) (editStudentIdInput form)
                      (editStudentCourse form) (editStudentYear form)));;
  update (Document.set_editForm (fun form =>
    mkEditStudentForm (editStudentId form) (editStudentName form) (Student.studentId student)
                      (editStudentCourse form) (editStudentYear form)));;
  update (Document.set_editForm (fun form =>
    mkEditStudentForm (editStudentId form) (editStudentName form) (editStudentIdInput form)
                      (Student.course student) (editStudentYear form)));;
  update (Document.set_editForm (fun form =>
    mkEditStudentForm (editStudentId form) (editStudentName form) (editStudentIdInput form)
                      (editStudentCourse form) (toString (Student.year student)))).

(** [App.updateURL(action)], for an action made of letters: the address
    ends in [?action=] and the action. *)
Definition updateURL (action : string) : Dom unit :=
  update (Document.set_action (Some action)).

(** [App.handleRouting()] *)
Definition handleRouting : Dom unit :=
  urlAction ← ask Document.action;
  let action := if truthy_or_null urlAction then default "" urlAction else "login" in
  if String.eqb action "register" then renderRegister
  else if String.eqb action "dashboard" then
    allowed ← inWorld requireAuth;
    if (allowed : bool) then renderDashboard else mret tt
  else renderLogin.

(** [App.handleLogin(e)], with the values of the two fields of the form. *)
Definition handleLogin (username password : string) : Dom unit :=
  tryCatch
    (inWorld (login username password);;
     updateURL "dashboard";;
     handleRouting)
    (fun error => mret tt).

(** [App.handleFilter()] *)
Definition handleFilter : Dom unit :=
  typed ← ask Document.searchInput;
  let searchQuery := trim typed in
  courseFilter ← ask Document.courseFilter;
  renderStudentsTable searchQuery courseFilter.

(** [App.handleAddStudent(e)] *)
Definition handleAddStudent (e : AddStudentForm) : Dom unit :=
  teacherId ← inWorld getCurrentTeacherId;
  if negb (truthy_or_null teacherId) then
    inWorld (showMessage "Session expired. Please login again." "error")
  else
  let teacherId := default "" teacherId in
  let name := trim (studentName e) in
  let studentId := trim (studentIdInput e) in
  let course := studentCourse e in
  let year := parseInt (studentYear e) in
  tryCatch
    (inWorld (when (negb (truthy name) || negb (truthy studentId)
                    || negb (truthy course) || negb (truthy_number year))
                (throw (Error "Please fill in all fields")));;
     students ← inWorld getStudents;
     let duplicate :=
       find (fun s =>
               String.eqb (Student.teacherId s) teacherId
               && String.eqb (toLowerCase (Student.studentId s)) (toLowerCase studentId))
            students in
     inWorld (when (bool_decide (is_Some duplicate))
                (throw (Error "A student with this ID already exists")));;
     id ← inWorld generateId;
     createdAt ← inWorld currentTime;
     let newStudent :=
       Student.mk id teacherId name studentId course year "Unmarked" createdAt in
     inWorld (saveStudents (students ++ [newStudent]));;
     inWorld (showMessage ("Student " +:+ name +:+ " added successfully!") "success");;
     closeModal "addStudentModal";;
     renderStudentsTable "" "")
    (fun error => inWorld (showMessage (message error) "error")).

(** [App.handleEditStudent(e)]: the values are those of the edit form. *)
Definition handleEditStudent : Dom unit :=
  e ← ask Document.editForm;
  let studentId := editStudentId e in
  let name := trim (editStudentName e) in
  let studentIdInput := trim (editStudentIdInput e) in
  let course := editStudentCourse e in
  let year := parseInt (editStudentYear e) in
  tryCatch
    (inWorld (when (negb (truthy name) || negb (truthy studentIdInput)
                    || negb (truthy course) || negb (truthy_number year))
                (throw (Error "Please fill in all fields")));;
     teacherId ← inWorld getCurrentTeacherId;
     students ← inWorld getStudents;
     match findIndex (fun s => String.eqb (Student.id s) studentId) students with
     | None => inWorld (throw (Error "Student not found"))
     | Some studentIndex =>
         let duplicate :=
           find (fun s =>
                   negb (String.eqb (Student.id s) studentId)
                   && strict_eq (Student.teacherId s) teacherId
                   && String.eqb (toLowerCase (Student.studentId s)) (toLowerCase studentIdInput))
                students in
         inWorld (when (bool_decide (is_Some duplicate))
                    (throw (Error "A student with this ID already exists")));;
         current ← inWorld (at_index students studentIndex);
         let updated :=
           Student.mk (Student.id current) (Student.teacherId current)
                      name studentIdInput course year
                      (Student.status current) (Student.createdAt current) in
         inWorld (saveStudents (<[studentIndex := updated]> students));;
         inWorld (showMessage "Student updated successfully!" "success");;
         closeModal "editStudentModal";;
         renderStudentsTable "" ""
     end)
    (fun error => inWorld (showMessage (message error) "error")).

(** [App.handleToggleAttendance(studentId)] *)
Definition handleToggleAttendance (studentId : string) : Dom unit :=
  tryCatch
    (teacherId ← inWorld getCurrentTeacherId;
     students ← inWorld getStudents;
     match findIndex (fun s => String.eqb (Student.id s) studentId) students with
     | None => inWorld (throw (Error "Student not found"))
     | Some studentIndex =>
         current ← inWorld (at_index students studentIndex);
         let currentStatus := Student.status current in
         let newStatus := if String.eqb currentStatus "Present" then "Absent" else "Present" in
         let toggled :=
           Student.mk (Student.id current) (Student.teacherId current)
                      (Student.name current) (Student.studentId current)
                      (Student.course current) (Student.year current)
                      newStatus (Student.createdAt current) in
         inWorld (saveStudents (<[studentIndex := toggled]> students));;
         inWorld (showMessage "Attendance updated successfully!" "success");;
         renderStudentsTable "" ""
     end)
    (fun error => inWorld (showMessage (message error) "error")).

(** [App.handleEditStudentModal(studentId)] *)
Definition handleEditStudentModal (studentId : string) : Dom unit :=
  teacherId ← inWorld getCurrentTeacherId;
  students ← inWorld getStudents;
  match find (fun s => String.eqb (Student.id s) studentId) students with
  | None => inWorld (showMessage "Student not found" "error")
  | Some student =>
      prefillEditForm student;;
      showModal "editStudentModal"
  end.

(** [App.handleDeleteStudent(studentId)] *)
Definition handleDeleteStudent (studentId : string) : Dom unit :=
  inWorld (modify (set_currentDeleteId (Some studentId)));;
  showModal "deleteModal".

(** [App.handleDeleteConfirm()] *)
Definition handleDeleteConfirm : Dom unit :=
  pending ← inWorld (gets currentDeleteId);
  if negb (truthy_or_null pending) then mret tt else
  tryCatch
    (teacherId ← inWorld getCurrentTeacherId;
     students ← inWorld getStudents;
     match findIndex (fun s => strict_eq (Student.id s) pending) students with
     | None => inWorld (throw (Error "Student not found"))
     | Some studentIndex =>
         current ← inWorld (at_index students studentIndex);
         let studentName := Student.name current in
         let students :=
           List.filter (fun s => negb (strict_eq (Student.id s) pending)) students in
         inWorld (saveStudents students);;
         inWorld (showMessage ("Student " +:+ studentName +:+ " deleted successfully!")
                              "success");;
         closeModal "deleteModal";;
         inWorld (modify (set_currentDeleteId None));;
         renderStudentsTable "" ""
     end)
    (fun error => inWorld (showMessage (message error) "error")).

(** [App.handleTableAction(e)], from the button's [data-action] and
    [data-id]. *)
Definition handleTableAction (action id : string) : Dom unit :=
  if negb (truthy action) || negb (truthy id) then mret tt else
  if String.eqb action "toggle" then handleToggleAttendance id
  else if String.eqb action "edit" then handleEditStudentModal id
  else if String.eqb action "delete" then handleDeleteStudent id
  else mret tt.

End Full.
End Full.

(** [m] returns what [j] returns and does to the world what [j] does. *)
Definition projects {A : Type} (m : Dom A) (j : Js A) : Prop :=
  ∀ p, ∃ d, runPage m p = (outcome j (world p), mkPage (exec j (world p)) d).

(** The element [id] is displayed as a section is: [display: flex]. *)
Definition shown (id : string) (p : Page) : Prop :=
  Document.display (document p) !! id = Some "flex".

(** The modal [id] is open. *)
Definition open (id : string) (p : Page) : Prop := id ∈ Document.active (document p).

(** ** A host with [crypto.subtle]

    [latin1] on a page served over TLS by a browser that has no
    [crypto.randomUUID] yet.  The digest is SHA-256 as FIPS 180-4 defines
    it, on the UTF-8 bytes of the string; the round constants and the
    initial state are computed as the standard derives them, from the
    fractional parts of the cube roots and of the square roots of the
    first primes. *)
Module Sha256.

Definition word (x : Z) : Z := (x mod 2 ^ 32)%Z.

Definition rotr (n x : Z) : Z := Z.lor (Z.shiftr x n) (word (Z.shiftl x (32 - n))).

Definition xor3 (x y z : Z) : Z := Z.lxor (Z.lxor x y) z.

Definition Ch (e f g : Z) : Z := Z.lxor (Z.land e f) (Z.land (word (Z.lnot e)) g).

Definition Maj (a b c : Z) : Z := xor3 (Z.land a b) (Z.land a c) (Z.land b c).

Definition Sum0 (a : Z) : Z := xor3 (rotr 2 a) (rotr 13 a) (rotr 22 a).

Definition Sum1 (e : Z) : Z := xor3 (rotr 6 e) (rotr 11 e) (rotr 25 e).

Definition small0 (x : Z) : Z := xor3 (rotr 7 x) (rotr 18 x) (Z.shiftr x 3).

Definition small1 (x : Z) : Z := xor3 (rotr 17 x) (rotr 19 x) (Z.shiftr x 10).

Definition isPrime (n : nat) : bool :=
  forallb (fun d => negb (n mod d =? 0)) (seq 2 (n - 2)).

(** The 64 primes up to 311. *)
Definition primes : list Z := List.map Z.of_nat (List.filter isPrime (seq 2 310)).

(** The integer part of the cube root, one bit at a time from [2 ^ bits]
    down. *)
Fixpoint cubeRoot (bits : nat) (n r : Z) : Z :=
  let r' := (r + 2 ^ Z.of_nat bits)%Z in
  let r := if (r' * r' * r' <=? n)%Z then r' else r in
  match bits with
  | O => r
  | S bits' => cubeRoot bits' n r
  end.

Definition roundConstants : list Z :=
  Eval vm_compute in List.map (fun p => word (cubeRoot 36 (p * 2 ^ 96) 0)) primes.

Definition initialState : list Z :=
  Eval vm_compute in List.map (fun p => word (Z.sqrt (p * 2 ^ 64))) (firstn 8 primes).

(** [new TextEncoder().encode(s)] for code units below 256. *)
Definition encode (s : string) : list Z :=
  flat_map (fun c => if (c <? 128)%Z then [c] else [192 + c / 64; 128 + c mod 64]%Z)
           (charCodes s).

Definition bigEndian (width : nat) (x : Z) : list Z :=
  List.map (fun i => (Z.shiftr x (8 * Z.of_nat i) mod 256)%Z) (rev (seq 0 width)).

Definition padded (bytes : list Z) : list Z :=
  let n := length bytes in
  bytes ++ [128%Z] ++ repeat 0%Z ((119 - n mod 64) mod 64)
        ++ bigEndian 8 (8 * Z.of_nat n).

Definition fromBigEndian (bytes : list Z) : Z :=
  fold_left (fun x b => (256 * x + b)%Z) bytes 0%Z.

Fixpoint words (count : nat) (bytes : list Z) : list Z :=
  match count with
  | O => []
  | S count' => fromBigEndian (firstn 4 bytes) :: words count' (skipn 4 bytes)
  end.

(** The message schedule, grown from the 16 words of a block. *)
Fixpoint schedule (more : nat) (w : list Z) : list Z :=
  match more with
  | O => w
  | S more' =>
      let t := length w in
      let at_ k := nth (t - k) w 0%Z in
      schedule more' (w ++ [word (small1 (at_ 2) + at_ 7 + small0 (at_ 15) + at_ 16)])
  end.

Definition round (state : list Z) (kw : Z * Z) : list Z :=
  match state with
  | [a; b; c; d; e; f; g; h] =>
      let t1 := (h + Sum1 e + Ch e f g + fst kw + snd kw)%Z in
      let t2 := (Sum0 a + Maj a b c)%Z in
      [word (t1 + t2); a; b; c; word (d + t1); e; f; g]
  | _ => state
  end.

Definition compress (state block : list Z) : list Z :=
  let w := schedule 48 (words 16 block) in
  List.map (fun xy => word (fst xy + snd xy))
           (combine state (fold_left round (combine roundConstants w) state)).

Fixpoint blocks (count : nat) (state bytes : list Z) : list Z :=
  match count with
  | O => state
  | S count' => blocks count' (compress state (firstn 64 bytes)) (skipn 64 bytes)
  end.

Definition sha256 (s : string) : list Z :=
  let bytes := padded (encode s) in
  flat_map (bigEndian 4) (blocks (length bytes / 64) initialState bytes).

End Sha256.

Definition secure : Browser := {|
  toLowerCase := Latin1.toLowerCase;
  trim := Latin1.trim;
  parseInt := Latin1.parseInt;
  crypto_subtle := Some Sha256.sha256;
  crypto_randomUUID := None
|}.

(** ** Pages for examples *)

(** A document in which nothing was displayed, opened or typed yet. *)
Definition untouched : Document.t :=
  Document.mk None "" ∅ ∅ "" "" "" (mkEditStudentForm "" "" "" "" "") "" "".

(** The demo page of the first teacher, and the same page before anybody
    logged in. *)
Definition desk : Page := mkPage classroom untouched.

Definition lobby : Page :=
  mkPage (set_localStorage (delete "attendance_current_user") classroom) untouched.

(** The document under the address of the dashboard. *)
Definition atDashboard : Document.t := Document.set_action (Some "dashboard") untouched.

(** The demo page with john typed into the search box, between blanks. *)
Definition searching : Page :=
  mkPage classroom
         (Document.mk None "" ∅ ∅ "" "" "" (mkEditStudentForm "" "" "" "" "") " john " "").

(** * Properties *)

(** ** Running a computation *)

Lemma run_ret {A : Type} (a : A) (w : World) : run (mret a) w = (Ok a, w).
Proof. reflexivity. Qed.

Lemma run_bind {A B : Type} (m : Js A) (f : A → Js B) (w : World) :
  run (m ≫= f) w =
  match run m w with
  | (Ok a, w') => run (f a) w'
  | (Throw e, w') => (Throw e, w')
  end.
Proof. reflexivity. Qed.

Lemma run_throw {A : Type} (e : JsError) (w : World) : run (throw (A:=A) e) w = (Throw e, w).
Proof. reflexivity. Qed.

Lemma run_try_catch {A : Type} (m : Js A) (handler : JsError → Js A) (w : World) :
  run (try_catch m handler) w =
  match run m w with
  | (Ok a, w') => (Ok a, w')
  | (Throw e, w') => run (handler e) w'
  end.
Proof. reflexivity. Qed.

Lemma run_lift {A : Type} (r : Result A) (w : World) : run (lift r) w = (r, w).
Proof. reflexivity. Qed.

Lemma run_when (c : bool) (m : Js unit) (w : World) :
  run (when c m) w = if c then run m w else (Ok tt, w).
Proof. by destruct c. Qed.

Lemma run_modify (f : World → World) (w : World) : run (modify f) w = (Ok tt, f w).
Proof. reflexivity. Qed.

Lemma run_gets {A : Type} (f : World → A) (w : World) : run (gets f) w = (Ok (f w), w).
Proof. reflexivity. Qed.

Lemma run_showMessage (msg type : string) (w : World) :
  run (showMessage msg type) w = (Ok tt, set_messages (λ shown, shown ++ [(msg, type)]) w).
Proof. reflexivity. Qed.

(** A computation never gets stuck: it returns or it throws. *)
Lemma run_cases {A : Type} (m : Js A) (w : World) :
  (∃ a w', run m w = (Ok a, w')) ∨ (∃ e w', run m w = (Throw e, w')).
Proof. destruct (run m w) as [[a|e] w']; eauto. Qed.

(** ** The storage adapter over an arbitrary Web Storage *)

Section AdapterFacts.
Context (store : WebStorage) {V : Type} (J : JSON V).

Lemma getItem_returns (key : string) (defaultValue : V) (w : World) :
  ∃ v w', run (getItem key defaultValue) w = (Ok v, w').
Proof.
  unfold getItem. rewrite run_try_catch, run_bind.
  destruct (run (localStorage_getItem key) w) as [[[text|]|e] w1]; cbv beta iota.
  - destruct (truthy_text text).
    + rewrite run_lift. destruct (JSON_parse text) as [v|e]; eauto.
    + rewrite run_ret. eauto.
  - rewrite run_ret. eauto.
  - rewrite run_ret. eauto.
Qed.

Lemma getItem_parsed (key : string) (defaultValue : V) (w w' : World) (text : StoredText) (v : V) :
  run (localStorage_getItem key) w = (Ok (Some text), w') →
  truthy_text text = true → JSON_parse text = Ok v →
  run (getItem key defaultValue) w = (Ok v, w').
Proof.
  intros Hget Ht Hp. unfold getItem.
  by rewrite run_try_catch, run_bind, Hget, Ht, run_lift, Hp.
Qed.

Lemma getItem_unparsable (key : string) (defaultValue : V) (w w' : World) (text : StoredText) (e : JsError) :
  run (localStorage_getItem key) w = (Ok (Some text), w') →
  JSON_parse text = Throw e →
  run (getItem key defaultValue) w = (Ok defaultValue, w').
Proof.
  intros Hget Hp. unfold getItem.
  rewrite run_try_catch, run_bind, Hget. cbv beta iota.
  destruct (truthy_text text); [by rewrite run_lift, Hp | done].
Qed.

Lemma getItem_missing (key : string) (defaultValue : V) (w w' : World) :
  run (localStorage_getItem key) w = (Ok None, w') →
  run (getItem key defaultValue) w = (Ok defaultValue, w').
Proof. intros Hget. unfold getItem. by rewrite run_try_catch, run_bind, Hget. Qed.

Lemma getItem_unreadable (key : string) (defaultValue : V) (w w' : World) (e : JsError) :
  run (localStorage_getItem key) w = (Throw e, w') →
  run (getItem key defaultValue) w = (Ok defaultValue, w').
Proof. intros Hget. unfold getItem. by rewrite run_try_catch, run_bind, Hget. Qed.

Lemma setItem_returns (key : string) (data : V) (w : World) :
  ∃ b w', run (setItem key data) w = (Ok b, w').
Proof.
  unfold setItem. rewrite run_try_catch, run_bind, run_lift.
  destruct (JSON_stringify data) as [text|e]; cbv beta iota.
  - rewrite run_bind.
    destruct (run (localStorage_setItem key text) w) as [[[]|e] w1]; cbv beta iota;
      rewrite run_ret; eauto.
  - rewrite run_ret. eauto.
Qed.

Lemma setItem_written (key : string) (data : V) (w w' : World) (text : StoredText) :
  JSON_stringify data = Ok text →
  run (localStorage_setItem key text) w = (Ok tt, w') →
  run (setItem key data) w = (Ok true, w').
Proof.
  intros Hs Hset. unfold setItem.
  by rewrite run_try_catch, run_bind, run_lift, Hs, run_bind, Hset.
Qed.

Lemma setItem_refused (key : string) (data : V) (w w' : World) (text : StoredText) (e : JsError) :
  JSON_stringify data = Ok text →
  run (localStorage_setItem key text) w = (Throw e, w') →
  run (setItem key data) w = (Ok false, w').
Proof.
  intros Hs Hset. unfold setItem.
  by rewrite run_try_catch, run_bind, run_lift, Hs, run_bind, Hset.
Qed.

End AdapterFacts.

(** C5.  Over any Web Storage and any JSON codec, for every key, default,
    value and world: [Storage.getItem] never throws, and returns the
    caller's default when the stored text does not parse (or cannot be
    read at all); [Storage.setItem] never throws, and returns [false] when
    the store refuses the write. *)
Theorem storage_adapter_never_throws
    (store : WebStorage) (V : Type) (J : JSON V) (key : string) (defaultValue data : V) (w : World) :
  (∃ v w', run (getItem key defaultValue) w = (Ok v, w'))
  ∧ (∀ text e w',
       run (localStorage_getItem key) w = (Ok (Some text), w') →
       JSON_parse text = Throw e →
       run (getItem key defaultValue) w = (Ok defaultValue, w'))
  ∧ (∀ e w',
       run (localStorage_getItem key) w = (Throw e, w') →
       run (getItem key defaultValue) w = (Ok defaultValue, w'))
  ∧ (∃ b w', run (setItem key data) w = (Ok b, w'))
  ∧ (∀ text e w',
       JSON_stringify data = Ok text →
       run (localStorage_setItem key text) w = (Throw e, w') →
       run (setItem key data) w = (Ok false, w')).
Proof.
  split; [apply getItem_returns|].
  split; [intros text e w'; apply getItem_unparsable|].
  split; [intros e w'; apply getItem_unreadable|].
  split; [apply setItem_returns|].
  intros text e w'. apply setItem_refused.
Qed.

(** ** Reading and writing the page's own storage *)

Lemma studentsOf_eq (w : World) :
  studentsOf w =
  match localStorage w !! "attendance_students" with
  | Some (Json (StudentArray ss)) => ss
  | _ => []
  end.
Proof.
  unfold studentsOf, outcome, getStudents, getItem.
  rewrite run_try_catch, run_bind. cbn [localStorage_getItem page_storage]. rewrite run_gets.
  cbv beta iota.
  destruct (localStorage w !! "attendance_students") as [[| |[ | | |]]|]; reflexivity.
Qed.

Lemma teachersOf_eq (w : World) :
  teachersOf w =
  match localStorage w !! "attendance_teachers" with
  | Some (Json (TeacherArray ts)) => ts
  | _ => []
  end.
Proof.
  unfold teachersOf, outcome, getTeachers, getItem.
  rewrite run_try_catch, run_bind. cbn [localStorage_getItem page_storage]. rewrite run_gets.
  cbv beta iota.
  destruct (localStorage w !! "attendance_teachers") as [[| |[ | | |]]|]; reflexivity.
Qed.

Lemma sessionOf_eq (w : World) :
  sessionOf w =
  match localStorage w !! "attendance_current_user" with
  | Some (Json (UserObject u)) => Some u
  | _ => None
  end.
Proof.
  unfold sessionOf, outcome, getCurrentUser, getItem.
  rewrite run_try_catch, run_bind. cbn [localStorage_getItem page_storage]. rewrite run_gets.
  cbv beta iota.
  destruct (localStorage w !! "attendance_current_user") as [[| |[ | | |]]|]; reflexivity.
Qed.

Lemma run_getStudents (w : World) : run getStudents w = (Ok (studentsOf w), w).
Proof.
  destruct (getItem_returns page_storage JSON_students "attendance_students" [] w)
    as (v & w' & Hrun).
  assert (w' = w) as ->.
  { revert Hrun. unfold getItem.
    rewrite run_try_catch, run_bind. cbn [localStorage_getItem page_storage]. rewrite run_gets.
    cbv beta iota.
    destruct (localStorage w !! "attendance_students") as [[| |[ | | |]]|];
      cbn; intros [= _ <-]; reflexivity. }
  unfold studentsOf, outcome, getStudents. by rewrite Hrun.
Qed.

Lemma run_getTeachers (w : World) : run getTeachers w = (Ok (teachersOf w), w).
Proof.
  destruct (getItem_returns page_storage JSON_teachers "attendance_teachers" [] w)
    as (v & w' & Hrun).
  assert (w' = w) as ->.
  { revert Hrun. unfold getItem.
    rewrite run_try_catch, run_bind. cbn [localStorage_getItem page_storage]. rewrite run_gets.
    cbv beta iota.
    destruct (localStorage w !! "attendance_teachers") as [[| |[ | | |]]|];
      cbn; intros [= _ <-]; reflexivity. }
  unfold teachersOf, outcome, getTeachers. by rewrite Hrun.
Qed.

Lemma run_getCurrentUser (w : World) : run getCurrentUser w = (Ok (sessionOf w), w).
Proof.
  destruct (getItem_returns page_storage JSON_user "attendance_current_user" None w)
    as (v & w' & Hrun).
  assert (w' = w) as ->.
  { revert Hrun. unfold getItem.
    rewrite run_try_catch, run_bind. cbn [localStorage_getItem page_storage]. rewrite run_gets.
    cbv beta iota.
    destruct (localStorage w !! "attendance_current_user") as [[| |[ | | |]]|];
      cbn; intros [= _ <-]; reflexivity. }
  unfold sessionOf, outcome, getCurrentUser. by rewrite Hrun.
Qed.

Lemma run_saveStudents (ss : list Student.t) (w : World) :
  run (saveStudents ss) w =
  (Ok true, set_localStorage (insert "attendance_students" (Json (StudentArray ss))) w).
Proof. reflexivity. Qed.

Lemma run_saveTeachers (ts : list Teacher.t) (w : World) :
  run (saveTeachers ts) w =
  (Ok true, set_localStorage (insert "attendance_teachers" (Json (TeacherArray ts))) w).
Proof. reflexivity. Qed.

Lemma run_setCurrentUser (u : Session.t) (w : World) :
  run (setCurrentUser u) w =
  (Ok true, set_localStorage (insert "attendance_current_user" (Json (UserObject u))) w).
Proof. reflexivity. Qed.

Lemma run_getCurrentTeacherId (w : World) :
  run getCurrentTeacherId w = (Ok (Session.id <$> sessionOf w), w).
Proof. unfold getCurrentTeacherId. by rewrite run_bind, run_getCurrentUser. Qed.

(** What is read depends on the stored texts only. *)
Lemma studentsOf_storage (w w' : World) :
  localStorage w' = localStorage w → studentsOf w' = studentsOf w.
Proof. intros Heq. by rewrite !studentsOf_eq, Heq. Qed.

Lemma teachersOf_storage (w w' : World) :
  localStorage w' = localStorage w → teachersOf w' = teachersOf w.
Proof. intros Heq. by rewrite !teachersOf_eq, Heq. Qed.

Lemma sessionOf_storage (w w' : World) :
  localStorage w' = localStorage w → sessionOf w' = sessionOf w.
Proof. intros Heq. by rewrite !sessionOf_eq, Heq. Qed.

(** Reading back what was saved, and the other keys. *)
Lemma studentsOf_saved (ss : list Student.t) (w : World) :
  studentsOf (set_localStorage (insert "attendance_students" (Json (StudentArray ss))) w) = ss.
Proof. rewrite studentsOf_eq. cbn [localStorage set_localStorage]. by rewrite lookup_insert_eq. Qed.

Lemma teachersOf_saved (ts : list Teacher.t) (w : World) :
  teachersOf (set_localStorage (insert "attendance_teachers" (Json (TeacherArray ts))) w) = ts.
Proof. rewrite teachersOf_eq. cbn [localStorage set_localStorage]. by rewrite lookup_insert_eq. Qed.

Lemma sessionOf_saved (u : Session.t) (w : World) :
  sessionOf (set_localStorage (insert "attendance_current_user" (Json (UserObject u))) w) = Some u.
Proof. rewrite sessionOf_eq. cbn [localStorage set_localStorage]. by rewrite lookup_insert_eq. Qed.

Lemma studentsOf_other_key (key : string) (text : StoredText) (w : World) :
  key ≠ "attendance_students" →
  studentsOf (set_localStorage (insert key text) w) = studentsOf w.
Proof.
  intros Hne. rewrite !studentsOf_eq. cbn [localStorage set_localStorage].
  by rewrite lookup_insert_ne.
Qed.

Lemma teachersOf_other_key (key : string) (text : StoredText) (w : World) :
  key ≠ "attendance_teachers" →
  teachersOf (set_localStorage (insert key text) w) = teachersOf w.
Proof.
  intros Hne. rewrite !teachersOf_eq. cbn [localStorage set_localStorage].
  by rewrite lookup_insert_ne.
Qed.

Lemma sessionOf_other_key (key : string) (text : StoredText) (w : World) :
  key ≠ "attendance_current_user" →
  sessionOf (set_localStorage (insert key text) w) = sessionOf w.
Proof.
  intros Hne. rewrite !sessionOf_eq. cbn [localStorage set_localStorage].
  by rewrite lookup_insert_ne.
Qed.

(** The alerts, the table, the cards and the pending deletion are not
    stored. *)
Lemma studentsOf_set_messages f w : studentsOf (set_messages f w) = studentsOf w.
Proof. by apply studentsOf_storage. Qed.

Lemma studentsOf_set_table rows w : studentsOf (set_table rows w) = studentsOf w.
Proof. by apply studentsOf_storage. Qed.

Lemma studentsOf_set_counters c w : studentsOf (set_counters c w) = studentsOf w.
Proof. by apply studentsOf_storage. Qed.

Lemma studentsOf_set_currentDeleteId x w : studentsOf (set_currentDeleteId x w) = studentsOf w.
Proof. by apply studentsOf_storage. Qed.

Lemma teachersOf_set_messages f w : teachersOf (set_messages f w) = teachersOf w.
Proof. by apply teachersOf_storage. Qed.

Lemma teachersOf_set_table rows w : teachersOf (set_table rows w) = teachersOf w.
Proof. by apply teachersOf_storage. Qed.

Lemma teachersOf_set_counters c w : teachersOf (set_counters c w) = teachersOf w.
Proof. by apply teachersOf_storage. Qed.

Lemma teachersOf_set_currentDeleteId x w : teachersOf (set_currentDeleteId x w) = teachersOf w.
Proof. by apply teachersOf_storage. Qed.

Lemma sessionOf_set_messages f w : sessionOf (set_messages f w) = sessionOf w.
Proof. by apply sessionOf_storage. Qed.

Lemma sessionOf_set_table rows w : sessionOf (set_table rows w) = sessionOf w.
Proof. by apply sessionOf_storage. Qed.

Lemma sessionOf_set_counters c w : sessionOf (set_counters c w) = sessionOf w.
Proof. by apply sessionOf_storage. Qed.

Lemma sessionOf_set_currentDeleteId x w : sessionOf (set_currentDeleteId x w) = sessionOf w.
Proof. by apply sessionOf_storage. Qed.

Lemma studentsOf_set_entropy e w : studentsOf (set_entropy e w) = studentsOf w.
Proof. by apply studentsOf_storage. Qed.

Lemma teachersOf_set_entropy e w : teachersOf (set_entropy e w) = teachersOf w.
Proof. by apply teachersOf_storage. Qed.

Lemma sessionOf_set_entropy e w : sessionOf (set_entropy e w) = sessionOf w.
Proof. by apply sessionOf_storage. Qed.

Lemma studentsOf_set_pending f w : studentsOf (set_pending f w) = studentsOf w.
Proof. by apply studentsOf_storage. Qed.

Lemma teachersOf_set_pending f w : teachersOf (set_pending f w) = teachersOf w.
Proof. by apply teachersOf_storage. Qed.

Lemma sessionOf_set_pending f w : sessionOf (set_pending f w) = sessionOf w.
Proof. by apply sessionOf_storage. Qed.

Create Rewrite HintDb page.

#[global] Hint Rewrite
  studentsOf_set_messages studentsOf_set_table studentsOf_set_counters
  studentsOf_set_currentDeleteId
  teachersOf_set_messages teachersOf_set_table teachersOf_set_counters
  teachersOf_set_currentDeleteId
  sessionOf_set_messages sessionOf_set_table sessionOf_set_counters
  sessionOf_set_currentDeleteId
  studentsOf_set_entropy teachersOf_set_entropy sessionOf_set_entropy
  studentsOf_set_pending teachersOf_set_pending sessionOf_set_pending
  studentsOf_saved teachersOf_saved sessionOf_saved : page.

#[global] Hint Rewrite
  studentsOf_other_key teachersOf_other_key sessionOf_other_key using done : page.

(** Unfolds the world a few storage calls and alerts leave, and reads it. *)
Ltac page :=
  repeat first
    [ progress cbn [fst snd]
    | progress unfold exec
    | rewrite run_showMessage
    | rewrite run_saveStudents
    | rewrite run_saveTeachers
    | rewrite run_setCurrentUser
    | rewrite run_modify
    | progress autorewrite with page ].

(** Generating an identifier returns one and uses up random numbers,
    nothing else. *)
Lemma run_random16 (w : World) :
  run random16 w = (Ok (entropy w 0 mod 16)%Z, set_entropy (λ n, entropy w (S n)) w).
Proof. reflexivity. Qed.

Lemma replace_xy_run (template : string) (w : World) :
  ∃ id e, run (replace_xy template) w = (Ok id, set_entropy e w).
Proof.
  revert w. induction template as [|c rest IH]; intros w.
  - exists "", (entropy w). by destruct w.
  - cbn [replace_xy]. rewrite run_bind.
    destruct (Ascii.eqb c "x" || Ascii.eqb c "y").
    + rewrite run_bind, run_random16. cbv beta iota zeta. rewrite run_ret.
      cbv beta iota. rewrite run_bind.
      destruct (IH (set_entropy (λ n, entropy w (S n)) w)) as (tail & e & ->).
      cbv beta iota. rewrite run_ret. eexists _, e. reflexivity.
    + rewrite run_ret. cbv beta iota. rewrite run_bind.
      destruct (IH w) as (tail & e & ->). cbv beta iota. rewrite run_ret. eauto.
Qed.

Lemma run_generateId {browser : Browser} (w : World) :
  ∃ e, run generateId w = (Ok (freshId w), set_entropy e w).
Proof.
  unfold freshId, outcome, generateId. destruct crypto_randomUUID as [randomUUID|].
  - unfold run. destruct (randomUUID (entropy w)) as [id e]. eauto.
  - destruct (replace_xy_run "xxxxxxxx-xxxx-4xxx-yxxx-xxxxxxxxxxxx" w) as (id & e & ->). eauto.
Qed.

Lemma run_currentTime (w : World) : run currentTime w = (Ok (clock w), w).
Proof. reflexivity. Qed.

Lemma loggedIn_session (w : World) (teacher : string) :
  loggedIn w teacher ↔ (Session.id <$> sessionOf w) = Some teacher ∧ teacher ≠ "".
Proof.
  unfold loggedIn, outcome. rewrite run_getCurrentTeacherId. cbn [fst].
  split; intros [Hid Hne]; split; congruence.
Qed.

(** ** Strings and lists of the host language *)

Lemma truthy_true (s : string) : truthy s = true ↔ s ≠ "".
Proof. unfold truthy. destruct (String.eqb_spec s ""); cbn; naive_solver. Qed.

Lemma truthy_false (s : string) : truthy s = false ↔ s = "".
Proof. unfold truthy. destruct (String.eqb_spec s ""); cbn; naive_solver. Qed.

Lemma truthy_number_true (n : Number) : truthy_number n = true ↔ n ≠ NaN ∧ n ≠ Num 0.
Proof.
  destruct n as [|z]; cbn.
  - split; [done | intros [? _]; done].
  - destruct (Z.eqb_spec z 0) as [->|Hz]; cbn.
    + split; [done | intros [_ ?]; done].
    + split; [|done]. intros _. split; [done | congruence].
Qed.

Lemma strict_eq_Some (a b : string) : strict_eq a (Some b) = true ↔ a = b.
Proof. cbn. destruct (String.eqb_spec a b); naive_solver. Qed.

(** [List.filter] with a boolean test is stdpp's [filter] with the
    proposition the test decides. *)
Lemma filter_bool_Prop {A : Type} (f : A → bool) (P : A → Prop) `{!∀ x, Decision (P x)}
    (l : list A) :
  (∀ x, f x = true ↔ P x) → List.filter f l = filter P l.
Proof.
  intros Hf. induction l as [|x l IH]; [done|].
  cbn [List.filter]. rewrite filter_cons. destruct (decide (P x)) as [HP|HP].
  - apply Hf in HP. rewrite HP. by f_equal.
  - destruct (f x) eqn:Hfx; [by apply Hf in Hfx | done].
Qed.

Lemma filter_filter_bool {A : Type} (f g : A → bool) (l : list A) :
  List.filter g (List.filter f l) = List.filter (λ x, f x && g x) l.
Proof.
  induction l as [|x l IH]; [done|]. cbn [List.filter].
  destruct (f x); cbn [List.filter andb]; [destruct (g x)|]; by rewrite IH.
Qed.

Lemma find_Some_first {A : Type} (f : A → bool) (l : list A) (x : A) :
  find f l = Some x → x ∈ l ∧ f x = true.
Proof.
  intros Hfind. apply find_some in Hfind as [Hin Hf].
  split; [by apply list_elem_of_In | done].
Qed.

Lemma find_None_all {A : Type} (f : A → bool) (l : list A) :
  find f l = None ↔ ∀ x, x ∈ l → f x = false.
Proof.
  split.
  - intros Hfind x Hin. apply (find_none f l Hfind). by apply list_elem_of_In.
  - intros Hall. induction l as [|y l IH]; [done|]. cbn.
    rewrite (Hall y) by left. apply IH. intros x Hin. apply Hall. by right.
Qed.

Lemma find_is_Some {A : Type} (f : A → bool) (l : list A) :
  is_Some (find f l) ↔ ∃ x, x ∈ l ∧ f x = true.
Proof.
  split.
  - intros [x Hx]. exists x. by apply find_Some_first.
  - intros (x & Hin & Hf). destruct (find f l) eqn:Hfind; [done|].
    rewrite find_None_all in Hfind. rewrite (Hfind x Hin) in Hf. done.
Qed.

(** [findIndex] points at the first element that passes the test. *)
Lemma findIndex_Some {A : Type} (f : A → bool) (l : list A) (i : nat) :
  findIndex f l = Some i →
  ∃ x, l !! i = Some x ∧ f x = true ∧ find f l = Some x
       ∧ ∀ j y, j < i → l !! j = Some y → f y = false.
Proof.
  revert i. induction l as [|x l IH]; intros i; [done|]. cbn [findIndex find].
  destruct (f x) eqn:Hfx.
  - intros [= <-]. exists x. repeat split; try done. intros j y Hj. lia.
  - destruct (findIndex f l) as [k|] eqn:Hk; [|done]. cbn. intros [= <-].
    destruct (IH k eq_refl) as (y & Hy & Hfy & Hfind & Hfirst).
    exists y. repeat split; try done.
    intros [|j] z Hj; cbn; [by intros [= <-] | intros Hz].
    apply (Hfirst j z); [lia | done].
Qed.

Lemma findIndex_None {A : Type} (f : A → bool) (l : list A) :
  findIndex f l = None ↔ ∀ x, x ∈ l → f x = false.
Proof.
  induction l as [|x l IH]; cbn [findIndex].
  - split; [intros _ x Hin; by apply elem_of_nil in Hin | done].
  - destruct (f x) eqn:Hfx.
    + split; [done|]. intros Hall. rewrite (Hall x) in Hfx by left. done.
    + destruct (findIndex f l) as [k|]; cbn.
      * split; [done|]. intros Hall.
        assert (Some k = None) as Hk; [|done].
        apply IH. intros y Hin. apply Hall. by right.
      * split; [|done]. intros _ y Hin. apply elem_of_cons in Hin as [->|Hin]; [done|].
        by apply IH.
Qed.

(** ** Statistics (C9) *)

Lemma howMany_filter (status : string) (students : list Student.t) :
  length (List.filter (λ s, String.eqb (Student.status s) status) students)
  = howMany status students.
Proof.
  induction students as [|s rest IH]; [done|]. cbn [List.filter howMany].
  destruct (String.eqb (Student.status s) status); cbn; by rewrite IH.
Qed.

Lemma howMany_statuses (status : string) (students : list Student.t) :
  howMany status students = length (filter (λ x, x = status) (Student.status <$> students)).
Proof.
  induction students as [|s rest IH]; [done|]. cbn [howMany fmap list_fmap].
  rewrite filter_cons.
  destruct (String.eqb_spec (Student.status s) status);
    destruct (decide (Student.status s = status)); try done; cbn; by rewrite IH.
Qed.

Lemma run_updateStats (students : list Student.t) (w : World) :
  run (updateStats students) w =
  (Ok tt,
   set_counters
     (Stats.mk (length students) (howMany "Present" students)
               (howMany "Absent" students) (howMany "Unmarked" students)) w).
Proof. unfold updateStats. by rewrite run_modify, !howMany_filter. Qed.

(** C9.  For every list of students [UI.updateStats] writes [total] equal
    to the length of the list and [present], [absent], [unmarked] equal to
    the number of students with that status, whatever the world was and
    touching nothing else; the empty list gives 0, 0, 0, 0, and any list
    whose statuses are two Present, one Absent and one Unmarked (in any
    order) gives 4, 2, 1, 1. *)
Theorem updateStats_counts (students : list Student.t) (w : World) :
  exec (updateStats students) w =
    set_counters
      (Stats.mk (length students) (howMany "Present" students)
                (howMany "Absent" students) (howMany "Unmarked" students)) w
  ∧ counters (exec (updateStats []) w) = Stats.mk 0 0 0 0
  ∧ (Student.status <$> students ≡ₚ ["Present"; "Present"; "Absent"; "Unmarked"] →
     counters (exec (updateStats students) w) = Stats.mk 4 2 1 1).
Proof.
  unfold exec. rewrite !run_updateStats. cbn [snd counters set_counters].
  split; [done|]. split; [done|]. intros Hperm.
  rewrite !howMany_statuses, !Hperm.
  apply Permutation_length in Hperm. rewrite length_fmap in Hperm. by rewrite Hperm.
Qed.

(** ** The table (C8) *)

Section Listing.
Context {browser : Browser}.

Lemma listed_test (teacher searchQuery courseFilter : string) (s : Student.t) :
  strict_eq (Student.teacherId s) (Some teacher)
  && (negb (truthy searchQuery)
      || includes (toLowerCase (Student.name s)) (toLowerCase searchQuery)
      || includes (toLowerCase (Student.studentId s)) (toLowerCase searchQuery))
  && (negb (truthy courseFilter) || String.eqb (Student.course s) courseFilter) = true
  ↔ listed teacher searchQuery courseFilter s.
Proof.
  unfold listed, contains_ci.
  rewrite !andb_true_iff, !orb_true_iff, !negb_true_iff, strict_eq_Some, !truthy_false,
    String.eqb_eq.
  destruct (decide (searchQuery = "")), (decide (courseFilter = "")); tauto.
Qed.

Lemma renderStudentsTable_rows (teacher searchQuery courseFilter : string) (w : World) :
  loggedIn w teacher →
  ∃ stats,
    run (renderStudentsTable searchQuery courseFilter) w =
    (Ok tt,
     set_table (filter (listed teacher searchQuery courseFilter) (studentsOf w))
               (set_counters stats w)).
Proof.
  intros [Hid Hne]%loggedIn_session. unfold renderStudentsTable.
  rewrite run_bind, run_getCurrentTeacherId, Hid. cbv beta iota.
  cbn [truthy_or_null]. apply truthy_true in Hne as Htruthy. rewrite Htruthy. cbn [negb].
  rewrite run_bind, run_getStudents. cbv beta iota zeta.
  rewrite run_bind, run_updateStats. cbv beta iota. rewrite run_modify.
  eexists. f_equal. f_equal.
  rewrite <- (filter_bool_Prop _ _ _ (listed_test teacher searchQuery courseFilter)).
  destruct (truthy searchQuery), (truthy courseFilter); cbn [negb orb];
    rewrite ?filter_filter_bool; apply filter_ext; intros s;
    destruct (strict_eq (Student.teacherId s) (Some teacher)); cbn [andb];
    rewrite ?andb_true_r; reflexivity.
Qed.

(** Rendering touches the table and the cards, nothing else. *)
Lemma renderStudentsTable_frame (searchQuery courseFilter : string) (w : World) :
  ∃ rows stats,
    run (renderStudentsTable searchQuery courseFilter) w =
    (Ok tt, set_table rows (set_counters stats w)).
Proof.
  unfold renderStudentsTable.
  rewrite run_bind, run_getCurrentTeacherId. cbv beta iota.
  destruct (negb (truthy_or_null (Session.id <$> sessionOf w))).
  - rewrite run_ret. exists (table w), (counters w). by destruct w.
  - rewrite run_bind, run_getStudents. cbv beta iota zeta.
    rewrite run_bind, run_updateStats. cbv beta iota. rewrite run_modify. eauto.
Qed.

End Listing.

(** C8.  For every stored collection, logged-in teacher, search query and
    course filter, the rows [UI.renderStudentsTable] puts in the table are
    the students of the collection, in their original order, that belong
    to the teacher, contain the query case-insensitively in their name or
    studentId when the query is not empty, and have the course of the
    filter when the filter is not empty; so a student of another teacher
    never appears, whatever the search. *)
Theorem renderStudentsTable_lists
    (B : Browser) (teacher searchQuery courseFilter : string) (w : World) :
  loggedIn w teacher →
  let rows := table (exec (renderStudentsTable searchQuery courseFilter) w) in
  rows = filter (listed teacher searchQuery courseFilter) (studentsOf w)
  ∧ rows `sublist_of` studentsOf w
  ∧ (∀ s, s ∈ rows ↔ s ∈ studentsOf w ∧ listed teacher searchQuery courseFilter s)
  ∧ (∀ s, Student.teacherId s ≠ teacher → s ∉ rows).
Proof.
  intros Hin rows.
  destruct (renderStudentsTable_rows teacher searchQuery courseFilter w Hin) as [stats Hrun].
  assert (rows = filter (listed teacher searchQuery courseFilter) (studentsOf w)) as ->.
  { unfold rows, exec. by rewrite Hrun. }
  split; [done|]. split; [apply sublist_filter|].
  split.
  - intros s. rewrite list_elem_of_filter. tauto.
  - intros s Hother [Hlisted _]%list_elem_of_filter. by destruct Hlisted.
Qed.

(** ** Logging in (C2) *)

Lemma find_first {A : Type} (f : A → bool) (l : list A) (x : A) :
  find f l = Some x →
  ∃ before after, l = before ++ x :: after ∧ f x = true ∧ ∀ y, y ∈ before → f y = false.
Proof.
  induction l as [|y l IH]; [done|]. cbn [find]. destruct (f y) eqn:Hfy.
  - intros [= ->]. exists [], l. repeat split; try done. intros z Hz. by apply elem_of_nil in Hz.
  - intros (before & after & -> & Hfx & Hbefore)%IH.
    exists (y :: before), after. repeat split; try done.
    intros z [->|Hz]%elem_of_cons; [done | by apply Hbefore].
Qed.

Section Login.
Context {browser : Browser}.

Lemma run_hashPassword (password : string) (w : World) :
  run (hashPassword password) w = (Ok (digest password), w).
Proof. reflexivity. Qed.

Lemma credentials_test (username password : string) (t : Teacher.t) :
  String.eqb (toLowerCase (Teacher.username t)) (toLowerCase username)
  && String.eqb (Teacher.password t) (digest password) = true
  ↔ credentials_fit username password t.
Proof. unfold credentials_fit, same_ci. by rewrite andb_true_iff, !String.eqb_eq. Qed.

Lemma credentials_test_false (username password : string) (t : Teacher.t) :
  String.eqb (toLowerCase (Teacher.username t)) (toLowerCase username)
  && String.eqb (Teacher.password t) (digest password) = false
  ↔ ¬ credentials_fit username password t.
Proof. rewrite <- credentials_test. by destruct (_ && _). Qed.

Lemma login_blank (username password : string) (w : World) :
  username = "" ∨ password = "" →
  fails (login username password) "Please enter both username and password" w.
Proof.
  intros Hblank. unfold fails, login. rewrite run_try_catch, run_bind, run_when.
  assert (negb (truthy username) || negb (truthy password) = true) as ->.
  { rewrite orb_true_iff, !negb_true_iff, !truthy_false. done. }
  reflexivity.
Qed.

(** What [login] does once both fields are filled in. *)
Lemma login_run (username password : string) (w : World) :
  username ≠ "" → password ≠ "" →
  run (login username password) w =
  match find (λ t, String.eqb (toLowerCase (Teacher.username t)) (toLowerCase username)
                   && String.eqb (Teacher.password t) (digest password))
             (teachersOf w) with
  | Some t =>
      let u := Session.mk (Teacher.id t) (Teacher.username t) (Teacher.createdAt t) in
      (Ok u,
       exec (showMessage ("Welcome back, " +:+ username +:+ "!") "success")
            (exec (setCurrentUser u) w))
  | None =>
      (Throw (Error "Invalid username or password"),
       exec (showMessage "Invalid username or password" "error") w)
  end.
Proof.
  intros Hu Hp. unfold login. rewrite run_try_catch, run_bind, run_when.
  apply truthy_true in Hu, Hp. rewrite Hu, Hp. cbn [negb orb]. cbv beta iota.
  rewrite run_bind, run_hashPassword. cbv beta iota.
  rewrite run_bind, run_getTeachers. cbv beta iota zeta.
  destruct (find _ (teachersOf w)) as [t|]; reflexivity.
Qed.


End Login.

(** C2.  For every stored teacher collection and every username and
    password: with an empty field [Auth.login] fails with the validation
    message; otherwise it succeeds exactly when some stored teacher has the
    username up to case and the digest of the password, and fails with the
    authentication message otherwise; on success the session written and
    returned holds the id, username and createdAt of the first such
    teacher and nothing else, and the collections are untouched. *)
Theorem login_authenticates (B : Browser) (username password : string) (w : World) :
  (username = "" ∨ password = "" →
   fails (login username password) "Please enter both username and password" w)
  ∧ (username ≠ "" → password ≠ "" →
     ((∃ u w', run (login username password) w = (Ok u, w'))
      ↔ ∃ t, t ∈ teachersOf w ∧ credentials_fit username password t)
     ∧ ((∀ t, t ∈ teachersOf w → ¬ credentials_fit username password t) →
        fails (login username password) "Invalid username or password" w)
     ∧ (∀ u w', run (login username password) w = (Ok u, w') →
        ∃ before t after,
          teachersOf w = before ++ t :: after
          ∧ credentials_fit username password t
          ∧ (∀ t', t' ∈ before → ¬ credentials_fit username password t')
          ∧ u = Session.mk (Teacher.id t) (Teacher.username t) (Teacher.createdAt t)
          ∧ sessionOf w' = Some u
          ∧ teachersOf w' = teachersOf w
          ∧ studentsOf w' = studentsOf w)).
Proof.
  split; [apply login_blank|]. intros Hu Hp.
  pose proof (login_run username password w Hu Hp) as Hrun.
  destruct (find _ (teachersOf w)) as [t|] eqn:Hfind.
  - destruct (find_first _ _ _ Hfind) as (before & after & Hlist & Hfit & Hbefore).
    apply credentials_test in Hfit.
    split; [|split].
    + split; [intros _ | eauto].
      exists t. split; [|done]. rewrite Hlist. apply elem_of_app. right. left.
    + intros Hnone. destruct (Hnone t); [|done]. rewrite Hlist. apply elem_of_app. right. left.
    + intros u w'. rewrite Hrun. intros [= <- <-].
      exists before, t, after. split_and!; try done.
      * intros t' Hin. apply credentials_test_false. by apply Hbefore.
      * unfold exec. rewrite run_showMessage, run_setCurrentUser. cbn [snd].
        by autorewrite with page.
      * unfold exec. rewrite run_showMessage, run_setCurrentUser. cbn [snd].
        by autorewrite with page.
      * unfold exec. rewrite run_showMessage, run_setCurrentUser. cbn [snd].
        by autorewrite with page.
  - rewrite find_None_all in Hfind.
    split; [|split].
    + rewrite Hrun. split; [by intros (u & w' & [=]) |].
      intros (t & Hin & Hfit%credentials_test). by rewrite (Hfind t Hin) in Hfit.
    + intros _. apply Hrun.
    + intros u w'. by rewrite Hrun.
Qed.

(** ** Registering (C3) *)

Lemma find_app_none {A : Type} (f : A → bool) (l1 l2 : list A) :
  (∀ x, x ∈ l1 → f x = false) → find f (l1 ++ l2) = find f l2.
Proof.
  induction l1 as [|y l1 IH]; intros Hall; [done|]. cbn [app find].
  rewrite (Hall y) by left. apply IH. intros x Hin. apply Hall. by right.
Qed.

Section Register.
Context {browser : Browser}.

(** A call of [login] with both fields filled in, not awaited, shows and
    stores nothing: it is pending. *)
Lemma run_startLogin (username password : string) (w : World) :
  truthy username = true → truthy password = true →
  run (startLogin username password) w
  = (Ok tt, set_pending (λ calls, calls ++ [(username, password)]) w).
Proof. intros Hu Hp. unfold run, startLogin. by rewrite Hu, Hp. Qed.

(** [register], case by case. *)
Lemma register_run (username password : string) (w : World) :
  run (register username password) w =
  if negb (truthy username) || (String.length (trim username) <? 3) then
    (Throw (Error "Username must be at least 3 characters long"),
     exec (showMessage "Username must be at least 3 characters long" "error") w)
  else if negb (truthy password) || (String.length password <? 4) then
    (Throw (Error "Password must be at least 4 characters long"),
     exec (showMessage "Password must be at least 4 characters long" "error") w)
  else
    match find (λ t, String.eqb (toLowerCase (Teacher.username t)) (toLowerCase username))
               (teachersOf w) with
    | Some _ =>
        (Throw (Error "Username already exists. Please choose another one."),
         exec (showMessage "Username already exists. Please choose another one." "error") w)
    | None =>
        let newTeacher := registered username password (freshId w) (clock w) in
        (Ok newTeacher,
         exec (showMessage ("Registration successful! Welcome aboard, " +:+ username +:+ "!")
                           "success")
              (set_pending (λ calls, calls ++ [(username, password)])
                 (exec (saveTeachers (teachersOf w ++ [newTeacher]))
                       (exec generateId w))))
    end.
Proof.
  unfold register. rewrite run_try_catch, run_bind, run_when.
  destruct (truthy username) eqn:Hu; [|reflexivity]. cbn [negb orb].
  destruct (String.length (trim username) <? 3); [reflexivity|].
  cbv beta iota. rewrite run_bind, run_when.
  destruct (truthy password) eqn:Hp; [|reflexivity]. cbn [negb orb].
  destruct (String.length password <? 4); [reflexivity|].
  cbv beta iota. rewrite run_bind, run_getTeachers. cbv beta iota zeta.
  rewrite run_bind, run_when.
  destruct (find _ (teachersOf w)) as [t|] eqn:Hfind.
  - rewrite bool_decide_eq_true_2 by eauto. reflexivity.
  - rewrite bool_decide_eq_false_2 by (by intros [? ?]). cbv beta iota.
    rewrite run_bind, run_hashPassword. cbv beta iota.
    rewrite run_bind. unfold exec. destruct (run_generateId w) as [e ->].
    cbv beta iota. rewrite run_bind, run_currentTime. cbv beta iota zeta.
    rewrite run_bind, run_saveTeachers. cbv beta iota.
    rewrite run_bind, (run_startLogin username password) by done.
    reflexivity.
Qed.

Lemma username_test (username : string) (t : Teacher.t) :
  String.eqb (toLowerCase (Teacher.username t)) (toLowerCase username) = true
  ↔ same_ci (Teacher.username t) username.
Proof. unfold same_ci. by rewrite String.eqb_eq. Qed.

Lemma short_test (username password : string) :
  (negb (truthy username) || (String.length (trim username) <? 3) = true
   ↔ username = "" ∨ String.length (trim username) < 3)
  ∧ (negb (truthy password) || (String.length password <? 4) = true
     ↔ String.length password < 4).
Proof.
  rewrite !orb_true_iff, !negb_true_iff, !truthy_false, !Nat.ltb_lt.
  split; [done|]. split; [|by right]. intros [->|Hlen]; [cbn; lia | done].
Qed.

End Register.

(** C3, as the code has it.  [Auth.register] fails with a validation
    message exactly when the username is empty, or shorter than 3 once
    trimmed, or the password is shorter than 4; past validation it fails
    with the conflict message exactly when a stored teacher has the
    username as typed, up to case; otherwise it appends exactly one
    teacher, carrying the generated id, the trimmed username and the
    digest of the password, calls [login] with the credentials as typed,
    shows its own alert and returns the teacher.  The call of [login] is
    not awaited: when [register] returns it is pending, and nothing of it
    was shown or stored. *)
Theorem register_validates_then_registers
    (B : Browser) (username password : string) (w : World) :
  let call := register username password in
  let short :=
    username = "" ∨ String.length (trim username) < 3 ∨ String.length password < 4 in
  let taken := ∃ t, t ∈ teachersOf w ∧ same_ci (Teacher.username t) username in
  let newTeacher := registered username password (freshId w) (clock w) in
  (fails call "Username must be at least 3 characters long" w
   ∨ fails call "Password must be at least 4 characters long" w ↔ short)
  ∧ (fails call "Username already exists. Please choose another one." w ↔ ¬ short ∧ taken)
  ∧ (¬ short → ¬ taken →
     run call w =
       (Ok newTeacher,
        exec (showMessage ("Registration successful! Welcome aboard, " +:+ username +:+ "!")
                          "success")
             (set_pending (λ calls, calls ++ [(username, password)])
                (exec (saveTeachers (teachersOf w ++ [newTeacher]))
                      (exec generateId w))))
     ∧ teachersOf (exec call w) = teachersOf w ++ [newTeacher]
     ∧ studentsOf (exec call w) = studentsOf w
     ∧ pending (exec call w) = pending w ++ [(username, password)]).
Proof.
  intros call short taken newTeacher.
  pose proof (register_run username password w) as Hrun.
  destruct (short_test username password) as [Hshort_u Hshort_p].
  fold call in Hrun. unfold fails.
  destruct (negb (truthy username) || (String.length (trim username) <? 3)) eqn:Hu.
  { assert short as Hs by (unfold short; tauto).
    rewrite Hrun. split_and!; [split; [done | by left] | | done].
    split; [by intros [=] | by intros [? _]]. }
  assert (¬ (username = "" ∨ String.length (trim username) < 3)) as Hu'.
  { intros Hs. apply Hshort_u in Hs. done. }
  destruct (negb (truthy password) || (String.length password <? 4)) eqn:Hp.
  { assert short as Hs by (unfold short; tauto).
    rewrite Hrun. split_and!; [split; [done | by right] | | done].
    split; [by intros [=] | by intros [? _]]. }
  assert (¬ String.length password < 4) as Hp'.
  { intros Hs. apply Hshort_p in Hs. done. }
  assert (¬ short) as Hs by (unfold short; tauto).
  destruct (find _ (teachersOf w)) as [t|] eqn:Hfind.
  { assert taken as Ht.
    { apply find_Some_first in Hfind as [Hin Htest]. exists t. by rewrite <- username_test. }
    rewrite Hrun. split_and!; [|done|done]. split; [|done]. by intros [[=]|[=]]. }
  assert (¬ taken) as Ht.
  { intros (t & Hin & Hsame). rewrite find_None_all in Hfind.
    apply username_test in Hsame. by rewrite (Hfind t Hin) in Hsame. }
  rewrite Hrun. split_and!.
  - split; [|done]. by intros [[=]|[=]].
  - split; [by intros [=] | by intros [_ ?]].
  - intros _ _. fold newTeacher.
    split_and!; [done| | |].
    + unfold exec at 1. rewrite Hrun. cbn [snd]. by page.
    + unfold exec at 1. rewrite Hrun. cbn [snd]. page.
      destruct (run_generateId w) as [e ->]. by page.
    + unfold exec at 1. rewrite Hrun. cbn [snd]. unfold exec.
      rewrite run_showMessage, run_saveTeachers. cbn [snd].
      destruct (run_generateId w) as [e ->]. reflexivity.
Qed.

(** ** Adding a student (C4) *)

Lemma filled_test (name studentId course : string) (year : Number) :
  negb (truthy name) || negb (truthy studentId) || negb (truthy course)
  || negb (truthy_number year) = false
  ↔ filled name studentId course year.
Proof.
  unfold filled. rewrite !orb_false_iff, !negb_false_iff, !truthy_true, truthy_number_true.
  tauto.
Qed.

Lemma filled_test_true (name studentId course : string) (year : Number) :
  negb (truthy name) || negb (truthy studentId) || negb (truthy course)
  || negb (truthy_number year) = true
  ↔ ¬ filled name studentId course year.
Proof. rewrite <- filled_test. by destruct (_ || _). Qed.

(** An alert is one more entry in the list of alerts. *)
Lemma messages_showMessage (msg type : string) (w : World) :
  messages (exec (showMessage msg type) w) = messages w ++ [(msg, type)].
Proof. reflexivity. Qed.

Lemma messages_set_table rows c w : messages (set_table rows (set_counters c w)) = messages w.
Proof. reflexivity. Qed.

(** Two alerts of different types leave different worlds. *)
Lemma showMessage_types (msg msg' : string) (w w' : World) :
  messages w' = messages w ++ [(msg', "success")] →
  w' ≠ exec (showMessage msg "error") w.
Proof.
  intros Hshown ->. rewrite messages_showMessage in Hshown.
  by apply app_inj_tail in Hshown as [_ [=]].
Qed.

Section Adding.
Context {browser : Browser}.

Lemma taken_test (teacher studentId : string) (s : Student.t) :
  String.eqb (Student.teacherId s) teacher
  && String.eqb (toLowerCase (Student.studentId s)) (toLowerCase studentId) = true
  ↔ taken_by teacher studentId s.
Proof. unfold taken_by, same_ci. by rewrite andb_true_iff, !String.eqb_eq. Qed.

(** [handleAddStudent] for a logged-in teacher, case by case. *)
Lemma handleAddStudent_run (e : AddStudentForm) (teacher : string) (w : World) :
  loggedIn w teacher →
  let name := trim (studentName e) in
  let studentId := trim (studentIdInput e) in
  let course := studentCourse e in
  let year := parseInt (studentYear e) in
  run (handleAddStudent e) w =
  if negb (truthy name) || negb (truthy studentId) || negb (truthy course)
     || negb (truthy_number year)
  then run (showMessage "Please fill in all fields" "error") w
  else
    match find (λ s, String.eqb (Student.teacherId s) teacher
                     && String.eqb (toLowerCase (Student.studentId s)) (toLowerCase studentId))
               (studentsOf w) with
    | Some _ => run (showMessage "A student with this ID already exists" "error") w
    | None =>
        let newStudent :=
          Student.mk (freshId w) teacher name studentId course year "Unmarked" (clock w) in
        run (renderStudentsTable "" "")
            (exec (showMessage ("Student " +:+ name +:+ " added successfully!") "success")
                  (exec (saveStudents (studentsOf w ++ [newStudent]))
                        (exec generateId w)))
    end.
Proof.
  intros [Hid Hne]%loggedIn_session name studentId course year. unfold handleAddStudent.
  rewrite run_bind, run_getCurrentTeacherId, Hid. cbv beta iota.
  cbn [truthy_or_null default from_option id]. apply truthy_true in Hne as ->. cbn [negb].
  cbv zeta. fold name studentId course year.
  rewrite run_try_catch, run_bind, run_when.
  destruct (negb (truthy name) || _ || _ || _); [reflexivity|].
  cbv beta iota. rewrite run_bind, run_getStudents. cbv beta iota zeta.
  rewrite run_bind, run_when.
  destruct (find _ (studentsOf w)) as [s|] eqn:Hfind.
  - rewrite bool_decide_eq_true_2 by eauto. reflexivity.
  - rewrite bool_decide_eq_false_2 by (by intros [? ?]). cbv beta iota.
    rewrite run_bind. unfold exec. destruct (run_generateId w) as [entropy' ->].
    cbv beta iota. rewrite run_bind, run_currentTime. cbv beta iota zeta.
    rewrite run_bind, run_saveStudents. cbv beta iota.
    rewrite run_bind, run_showMessage. cbv beta iota.
    rewrite run_saveStudents, run_showMessage. cbn [snd clock set_entropy].
    match goal with
    | |- context [run (renderStudentsTable "" "") ?w1] =>
        destruct (renderStudentsTable_frame "" "" w1) as (rows & stats & ->)
    end.
    reflexivity.
Qed.

End Adding.

(** C4.  For every logged-in teacher and every add request:
    [App.handleAddStudent] shows the validation message when the name, the
    studentId (both trimmed), the course or the parsed year is empty or
    falsy; with all four filled in it shows the conflict message exactly
    when a student of this teacher already has the studentId up to case (a
    student of another teacher with it does not count); otherwise it
    appends exactly one student, with the identifier just generated, the
    status Unmarked and the teacher's id, and touches neither the teachers
    nor the session. *)
Theorem handleAddStudent_adds
    (B : Browser) (e : AddStudentForm) (teacher : string) (w : World) :
  loggedIn w teacher →
  let name := trim (studentName e) in
  let studentId := trim (studentIdInput e) in
  let course := studentCourse e in
  let year := parseInt (studentYear e) in
  let call := handleAddStudent e in
  let taken := ∃ s, s ∈ studentsOf w ∧ taken_by teacher studentId s in
  let newStudent :=
    Student.mk (freshId w) teacher name studentId course year "Unmarked" (clock w) in
  (¬ filled name studentId course year → rejects call "Please fill in all fields" w)
  ∧ (filled name studentId course year →
     (rejects call "A student with this ID already exists" w ↔ taken)
     ∧ (¬ taken →
        studentsOf (exec call w) = studentsOf w ++ [newStudent]
        ∧ teachersOf (exec call w) = teachersOf w
        ∧ sessionOf (exec call w) = sessionOf w
        ∧ messages (exec call w)
          = messages w ++ [("Student " +:+ name +:+ " added successfully!", "success")])
     ∧ ((∀ s, s ∈ studentsOf w →
              same_ci (Student.studentId s) studentId → Student.teacherId s ≠ teacher) →
        studentsOf (exec call w) = studentsOf w ++ [newStudent])).
Proof.
  intros Hin name studentId course year call taken newStudent.
  pose proof (handleAddStudent_run e teacher w Hin) as Hrun.
  cbv zeta in Hrun. fold name studentId course year call newStudent in Hrun.
  unfold rejects.
  destruct (negb (truthy name) || _ || _ || _) eqn:Hfilled.
  { apply filled_test_true in Hfilled. split; [done | by intros Hf]. }
  apply filled_test in Hfilled. split; [by intros Hf|]. intros _.
  assert (¬ taken →
          studentsOf (exec call w) = studentsOf w ++ [newStudent]
          ∧ teachersOf (exec call w) = teachersOf w
          ∧ sessionOf (exec call w) = sessionOf w
          ∧ messages (exec call w)
            = messages w ++ [("Student " +:+ name +:+ " added successfully!", "success")])
    as Hadded.
  { intros Hfree.
    destruct (find _ (studentsOf w)) as [s|] eqn:Hfind.
    { destruct Hfree. apply find_Some_first in Hfind as [Hs Htest].
      exists s. by rewrite <- taken_test. }
    assert (∃ rows stats entropy',
              exec call w =
              set_table rows (set_counters stats
                (exec (showMessage ("Student " +:+ name +:+ " added successfully!") "success")
                      (exec (saveStudents (studentsOf w ++ [newStudent]))
                            (set_entropy entropy' w)))))
      as (rows & stats & entropy' & ->).
    { unfold exec at 1. rewrite Hrun. unfold exec at 3.
      destruct (run_generateId w) as [entropy' ->]. cbn [snd].
      match goal with
      | |- context [run (renderStudentsTable "" "") ?w1] =>
          destruct (renderStudentsTable_frame "" "" w1) as (rows & stats & ->)
      end.
      eauto. }
    split_and!; by page. }
  split_and!; [|done|].
  - split.
    + intros Hrejected. destruct (find _ (studentsOf w)) as [s|] eqn:Hfind.
      * apply find_Some_first in Hfind as [Hs Htest]. exists s. by rewrite <- taken_test.
      * assert (¬ taken) as Hfree.
        { intros (s & Hs & Htaken). rewrite find_None_all in Hfind.
          apply taken_test in Htaken. by rewrite (Hfind s Hs) in Htaken. }
        destruct (Hadded Hfree) as (_ & _ & _ & Hshown).
        apply showMessage_types with (msg := "A student with this ID already exists")
          in Hshown.
        destruct Hshown. unfold exec. by rewrite Hrejected.
    + intros (s & Hs & Htaken). apply taken_test in Htaken.
      destruct (find _ (studentsOf w)) as [s'|] eqn:Hfind; [done|].
      rewrite find_None_all in Hfind. by rewrite (Hfind s Hs) in Htaken.
  - intros Hothers. apply Hadded. intros (s & Hs & [Hteacher Hsame]).
    by apply (Hothers s Hs Hsame).
Qed.

(** ** Finding a record by its identifier *)

Lemma findIndex_first {A : Type} (f : A → bool) (l : list A) (i : nat) (x : A) :
  l !! i = Some x → f x = true →
  (∀ j y, j < i → l !! j = Some y → f y = false) →
  findIndex f l = Some i.
Proof.
  revert i. induction l as [|y l IH]; intros i Hx Hfx Hfirst; [done|].
  cbn [findIndex]. destruct i as [|i].
  - cbn in Hx. injection Hx as ->. by rewrite Hfx.
  - rewrite (Hfirst 0 y) by (done || lia).
    rewrite (IH i); [done | done | done |].
    intros j z Hj Hz. apply (Hfirst (S j) z); [lia | done].
Qed.

Lemma id_test (id : string) (s : Student.t) :
  String.eqb (Student.id s) id = true ↔ Student.id s = id.
Proof. apply String.eqb_eq. Qed.

Lemma id_test_false (id : string) (s : Student.t) :
  String.eqb (Student.id s) id = false ↔ Student.id s ≠ id.
Proof. apply String.eqb_neq. Qed.

Lemma findIndex_firstWithId (id : string) (students : list Student.t) (i : nat) :
  findIndex (λ s, String.eqb (Student.id s) id) students = Some i
  ↔ ∃ s, firstWithId id students i s.
Proof.
  split.
  - intros (s & Hs & Htest & _ & Hfirst)%findIndex_Some. exists s.
    split_and!; [done | by apply id_test |].
    intros j y Hj Hy. apply id_test_false. by apply (Hfirst j y).
  - intros (s & Hs & Hid & Hfirst). apply (findIndex_first _ _ _ s); [done | by apply id_test |].
    intros j y Hj Hy. apply id_test_false. by apply (Hfirst j y).
Qed.

Lemma findIndex_absent (id : string) (students : list Student.t) :
  findIndex (λ s, String.eqb (Student.id s) id) students = None
  ↔ ∀ s, s ∈ students → Student.id s ≠ id.
Proof.
  rewrite findIndex_None. split; intros Hall s Hs; apply id_test_false || apply id_test_false;
    by apply Hall.
Qed.

Lemma firstWithId_present (id : string) (students : list Student.t) :
  (∃ s, s ∈ students ∧ Student.id s = id) → ∃ i s, firstWithId id students i s.
Proof.
  intros (s & Hs & Hid).
  destruct (findIndex (λ s, String.eqb (Student.id s) id) students) as [i|] eqn:Hfind.
  - exists i. by apply findIndex_firstWithId.
  - rewrite findIndex_absent in Hfind. by destruct (Hfind s Hs).
Qed.

(** Replacing the first record with an identifier by one with the same
    identifier leaves it the first. *)
Lemma firstWithId_insert (id : string) (students : list Student.t) (i : nat) (s s' : Student.t) :
  firstWithId id students i s → Student.id s' = id →
  firstWithId id (<[i := s']> students) i s'.
Proof.
  intros (Hs & Hid & Hfirst) Hid'. split_and!; [|done|].
  - apply list_lookup_insert_eq. by apply lookup_lt_Some in Hs.
  - intros j y Hj. rewrite list_lookup_insert_ne by lia. by apply Hfirst.
Qed.

(** ** Editing a student (C6) *)

Section Editing.
Context {browser : Browser}.

Lemma collides_test (id studentId : string) (teacher : option string) (s : Student.t) :
  negb (String.eqb (Student.id s) id)
  && strict_eq (Student.teacherId s) teacher
  && String.eqb (toLowerCase (Student.studentId s)) (toLowerCase studentId) = true
  ↔ Student.id s ≠ id ∧ teacher = Some (Student.teacherId s)
    ∧ same_ci (Student.studentId s) studentId.
Proof.
  unfold same_ci. rewrite !andb_true_iff, negb_true_iff, id_test_false, String.eqb_eq.
  destruct teacher as [t|]; cbn [strict_eq].
  - rewrite String.eqb_eq. intuition congruence.
  - intuition congruence.
Qed.

(** [handleEditStudent], case by case. *)
Lemma handleEditStudent_run (e : EditStudentForm) (w : World) :
  let id := editStudentId e in
  let name := trim (editStudentName e) in
  let studentId := trim (editStudentIdInput e) in
  let course := editStudentCourse e in
  let year := parseInt (editStudentYear e) in
  run (handleEditStudent e) w =
  if negb (truthy name) || negb (truthy studentId) || negb (truthy course)
     || negb (truthy_number year)
  then run (showMessage "Please fill in all fields" "error") w
  else
    match findIndex (λ s, String.eqb (Student.id s) id) (studentsOf w) with
    | None => run (showMessage "Student not found" "error") w
    | Some i =>
        match find (λ s, negb (String.eqb (Student.id s) id)
                         && strict_eq (Student.teacherId s) (Session.id <$> sessionOf w)
                         && String.eqb (toLowerCase (Student.studentId s))
                                       (toLowerCase studentId))
                   (studentsOf w) with
        | Some _ => run (showMessage "A student with this ID already exists" "error") w
        | None =>
            match studentsOf w !! i with
            | Some current =>
                run (renderStudentsTable "" "")
                    (exec (showMessage "Student updated successfully!" "success")
                          (exec (saveStudents
                                   (<[i := withFields name studentId course year current]>
                                      (studentsOf w)))
                                w))
            | None => run (showMessage (message TypeError) "error") w
            end
        end
    end.
Proof.
  intros id name studentId course year. unfold handleEditStudent.
  cbv zeta. fold id name studentId course year.
  rewrite run_try_catch, run_bind, run_when.
  destruct (negb (truthy name) || _ || _ || _); [reflexivity|].
  cbv beta iota. rewrite run_bind, run_getCurrentTeacherId. cbv beta iota.
  rewrite run_bind, run_getStudents. cbv beta iota.
  destruct (findIndex _ (studentsOf w)) as [i|]; [|reflexivity].
  rewrite run_bind, run_when.
  destruct (find _ (studentsOf w)) as [s|] eqn:Hfind.
  - rewrite bool_decide_eq_true_2 by eauto. reflexivity.
  - rewrite bool_decide_eq_false_2 by (by intros [? ?]). cbv beta iota.
    rewrite run_bind. unfold at_index.
    destruct (studentsOf w !! i) as [current|]; [|reflexivity].
    rewrite run_ret. cbv beta iota zeta.
    rewrite run_bind, run_saveStudents. cbv beta iota.
    rewrite run_bind, run_showMessage. cbv beta iota.
    unfold exec, withFields. rewrite run_saveStudents, run_showMessage. cbn [snd].
    match goal with
    | |- context [run (renderStudentsTable "" "") ?w1] =>
        destruct (renderStudentsTable_frame "" "" w1) as (rows & stats & ->)
    end.
    reflexivity.
Qed.

End Editing.

(** C6, as the code has it.  [App.handleEditStudent] first checks the
    form: with the name, the studentId, the course or the parsed year
    empty or falsy it shows the validation message, whatever the id.  With
    the four filled in, it shows the not-found message when no record has
    the id, and the conflict message when a different record of the
    logged-in teacher has the new studentId up to case; otherwise the
    first record with the id keeps its id, teacherId, status and
    createdAt, takes the four supplied values, and every other record,
    the teachers and the session are unchanged. *)
Theorem handleEditStudent_edits (B : Browser) (e : EditStudentForm) (w : World) :
  let id := editStudentId e in
  let name := trim (editStudentName e) in
  let studentId := trim (editStudentIdInput e) in
  let course := editStudentCourse e in
  let year := parseInt (editStudentYear e) in
  let call := handleEditStudent e in
  let collides :=
    ∃ s, s ∈ studentsOf w ∧ Student.id s ≠ id
         ∧ Session.id <$> sessionOf w = Some (Student.teacherId s)
         ∧ same_ci (Student.studentId s) studentId in
  (¬ filled name studentId course year → rejects call "Please fill in all fields" w)
  ∧ (filled name studentId course year →
     ((∀ s, s ∈ studentsOf w → Student.id s ≠ id) → rejects call "Student not found" w)
     ∧ ((∃ s, s ∈ studentsOf w ∧ Student.id s = id) → collides →
        rejects call "A student with this ID already exists" w)
     ∧ (∀ i current, firstWithId id (studentsOf w) i current → ¬ collides →
        let updated := withFields name studentId course year current in
        studentsOf (exec call w) = <[i := updated]> (studentsOf w)
        ∧ studentsOf (exec call w) !! i = Some updated
        ∧ (Student.id updated = Student.id current
           ∧ Student.teacherId updated = Student.teacherId current
           ∧ Student.status updated = Student.status current
           ∧ Student.createdAt updated = Student.createdAt current)
        ∧ (Student.name updated = name ∧ Student.studentId updated = studentId
           ∧ Student.course updated = course ∧ Student.year updated = year)
        ∧ (∀ j, j ≠ i → studentsOf (exec call w) !! j = studentsOf w !! j)
        ∧ length (studentsOf (exec call w)) = length (studentsOf w)
        ∧ teachersOf (exec call w) = teachersOf w
        ∧ sessionOf (exec call w) = sessionOf w)).
Proof.
  intros id name studentId course year call collides.
  pose proof (handleEditStudent_run e w) as Hrun.
  cbv zeta in Hrun. fold id name studentId course year call in Hrun.
  unfold rejects.
  destruct (negb (truthy name) || _ || _ || _) eqn:Hfilled.
  { apply filled_test_true in Hfilled. split; [done|]. by intros Hf. }
  apply filled_test in Hfilled. split; [by intros Hf|]. intros _.
  split_and!.
  - intros Habsent%findIndex_absent. by rewrite Hrun, Habsent.
  - intros (i & current & Hfirst)%firstWithId_present (s & Hs & Hid & Hteacher & Hsame).
    assert (findIndex (λ s, String.eqb (Student.id s) id) (studentsOf w) = Some i) as Hi.
    { apply findIndex_firstWithId. eauto. }
    rewrite Hrun, Hi.
    destruct (find _ (studentsOf w)) as [s'|] eqn:Hfind; [done|].
    rewrite find_None_all in Hfind. specialize (Hfind s Hs).
    assert (negb (String.eqb (Student.id s) id)
            && strict_eq (Student.teacherId s) (Session.id <$> sessionOf w)
            && String.eqb (toLowerCase (Student.studentId s)) (toLowerCase studentId) = true)
      as Htest by (by apply collides_test).
    by rewrite Htest in Hfind.
  - intros i current Hfirst Hfree.
    set (updated := withFields name studentId course year current).
    assert (findIndex (λ s, String.eqb (Student.id s) id) (studentsOf w) = Some i) as Hi.
    { apply findIndex_firstWithId. eauto. }
    destruct Hfirst as (Hcurrent & _ & _).
    assert (∃ rows stats,
              exec call w =
              set_table rows (set_counters stats
                (exec (showMessage "Student updated successfully!" "success")
                      (exec (saveStudents (<[i := updated]> (studentsOf w))) w))))
      as (rows & stats & Hexec).
    { unfold exec at 1. rewrite Hrun, Hi.
      destruct (find _ (studentsOf w)) as [s|] eqn:Hfind.
      { destruct Hfree. apply find_Some_first in Hfind as [Hs Htest].
        apply collides_test in Htest as (? & ? & ?). by exists s. }
      rewrite Hcurrent. fold updated.
      match goal with
      | |- context [run (renderStudentsTable "" "") ?w1] =>
          destruct (renderStudentsTable_frame "" "" w1) as (rows & stats & ->)
      end.
      eauto. }
    assert (studentsOf (exec call w) = <[i := updated]> (studentsOf w)) as Hstudents.
    { rewrite Hexec. by page. }
    apply lookup_lt_Some in Hcurrent as Hlt.
    split_and!; try done.
    + rewrite Hstudents. by apply list_lookup_insert_eq.
    + intros j Hj. rewrite Hstudents. by apply list_lookup_insert_ne.
    + rewrite Hstudents. apply length_insert.
    + rewrite Hexec. by page.
    + rewrite Hexec. by page.
Qed.

(** ** Toggling attendance (C1) *)

Lemma studentWithId_first (id : string) (students : list Student.t) (i : nat) (s : Student.t) :
  firstWithId id students i s → studentWithId id students = Some s.
Proof.
  intros Hfirst.
  assert (findIndex (λ s, String.eqb (Student.id s) id) students = Some i) as Hi.
  { apply findIndex_firstWithId. eauto. }
  apply findIndex_Some in Hi as (s' & Hs' & _ & Hfind & _).
  destruct Hfirst as (Hs & _). unfold studentWithId. congruence.
Qed.

Lemma withStatus_same (s : Student.t) : withStatus (Student.status s) s = s.
Proof. by destruct s. Qed.

Lemma withStatus_twice (a b : string) (s : Student.t) :
  withStatus b (withStatus a s) = withStatus b s.
Proof. reflexivity. Qed.

Section Toggling.
Context {browser : Browser}.

(** [handleToggleAttendance], case by case. *)
Lemma handleToggleAttendance_run (id : string) (w : World) :
  run (handleToggleAttendance id) w =
  match findIndex (λ s, String.eqb (Student.id s) id) (studentsOf w) with
  | None => run (showMessage "Student not found" "error") w
  | Some i =>
      match studentsOf w !! i with
      | Some current =>
          run (renderStudentsTable "" "")
              (exec (showMessage "Attendance updated successfully!" "success")
                    (exec (saveStudents
                             (<[i := withStatus (flipped (Student.status current)) current]>
                                (studentsOf w)))
                          w))
      | None => run (showMessage (message TypeError) "error") w
      end
  end.
Proof.
  unfold handleToggleAttendance.
  rewrite run_try_catch, run_bind, run_getCurrentTeacherId. cbv beta iota.
  rewrite run_bind, run_getStudents. cbv beta iota.
  destruct (findIndex _ (studentsOf w)) as [i|]; [|reflexivity].
  rewrite run_bind. unfold at_index.
  destruct (studentsOf w !! i) as [current|]; [|reflexivity].
  rewrite run_ret. cbv beta iota zeta.
  rewrite run_bind, run_saveStudents. cbv beta iota.
  rewrite run_bind, run_showMessage. cbv beta iota.
  unfold exec, withStatus, flipped. rewrite run_saveStudents, run_showMessage. cbn [snd].
  match goal with
  | |- context [run (renderStudentsTable "" "") ?w1] =>
      destruct (renderStudentsTable_frame "" "" w1) as (rows & stats & ->)
  end.
  reflexivity.
Qed.

(** One toggle, on a record that exists. *)
Lemma toggle_once (id : string) (w : World) (i : nat) (s : Student.t) :
  firstWithId id (studentsOf w) i s →
  ∃ rows stats,
    exec (handleToggleAttendance id) w =
    set_table rows (set_counters stats
      (exec (showMessage "Attendance updated successfully!" "success")
            (exec (saveStudents
                     (<[i := withStatus (flipped (Student.status s)) s]> (studentsOf w)))
                  w))).
Proof.
  intros Hfirst.
  assert (findIndex (λ s, String.eqb (Student.id s) id) (studentsOf w) = Some i) as Hi.
  { apply findIndex_firstWithId. eauto. }
  destruct Hfirst as (Hs & _).
  unfold exec at 1. rewrite handleToggleAttendance_run, Hi, Hs.
  match goal with
  | |- context [run (renderStudentsTable "" "") ?w1] =>
      destruct (renderStudentsTable_frame "" "" w1) as (rows & stats & ->)
  end.
  eauto.
Qed.

Lemma toggle_students (id : string) (w : World) (i : nat) (s : Student.t) :
  firstWithId id (studentsOf w) i s →
  studentsOf (exec (handleToggleAttendance id) w)
  = <[i := withStatus (flipped (Student.status s)) s]> (studentsOf w).
Proof. intros (rows & stats & ->)%toggle_once. by page. Qed.

Lemma toggle_absent (id : string) (w : World) :
  (∀ s, s ∈ studentsOf w → Student.id s ≠ id) →
  rejects (handleToggleAttendance id) "Student not found" w.
Proof.
  intros Habsent%findIndex_absent. unfold rejects.
  by rewrite handleToggleAttendance_run, Habsent.
Qed.

End Toggling.

(** C1.  For every student that exists: one toggle writes the flipped
    status (Absent after Present, Present after anything else) into that
    record and nothing else; when the status was Present or Absent, two
    toggles give back the collection as it was; when it was Unmarked, the
    first toggle yields Present and the second Absent, so the collection
    is not the original one. *)
Theorem toggle_twice (B : Browser) (id : string) (w : World) (i : nat) (s : Student.t) :
  firstWithId id (studentsOf w) i s →
  let once := exec (handleToggleAttendance id) w in
  let twice := exec (handleToggleAttendance id) once in
  studentsOf once = <[i := withStatus (flipped (Student.status s)) s]> (studentsOf w)
  ∧ (Student.status s = "Present" ∨ Student.status s = "Absent" →
     studentsOf twice = studentsOf w
     ∧ Student.status <$> studentWithId id (studentsOf twice) = Some (Student.status s))
  ∧ (Student.status s = "Unmarked" →
     Student.status <$> studentWithId id (studentsOf once) = Some "Present"
     ∧ Student.status <$> studentWithId id (studentsOf twice) = Some "Absent"
     ∧ studentsOf twice ≠ studentsOf w).
Proof.
  intros Hfirst once twice.
  pose proof (toggle_students id w i s Hfirst) as Honce. fold once in Honce.
  set (s1 := withStatus (flipped (Student.status s)) s) in *.
  assert (firstWithId id (studentsOf once) i s1) as Hfirst1.
  { rewrite Honce. apply firstWithId_insert with (s := s); [done|]. by destruct Hfirst as (_ & ? & _). }
  pose proof (toggle_students id once i s1 Hfirst1) as Htwice. fold twice in Htwice.
  rewrite Honce, list_insert_insert_eq in Htwice.
  change (withStatus (flipped (Student.status s1)) s1)
    with (withStatus (flipped (flipped (Student.status s))) s) in Htwice.
  destruct Hfirst as (Hs & Hid & Hbefore).
  assert (firstWithId id (studentsOf twice) i
            (withStatus (flipped (flipped (Student.status s))) s)) as Hfirst2.
  { rewrite Htwice. by apply firstWithId_insert with (s := s). }
  apply studentWithId_first in Hfirst1, Hfirst2.
  split_and!; [done| |].
  - intros Hstatus.
    assert (flipped (flipped (Student.status s)) = Student.status s) as Hback.
    { by destruct Hstatus as [-> | ->]. }
    rewrite Hback, withStatus_same in Htwice, Hfirst2.
    split; [|by rewrite Hfirst2]. rewrite Htwice. by apply list_insert_id.
  - intros Hstatus. rewrite Hfirst1, Hfirst2. unfold s1. rewrite Hstatus.
    split_and!; [done | done |].
    intros Heq. rewrite Htwice in Heq.
    assert (<[i := withStatus (flipped (flipped (Student.status s))) s]> (studentsOf w) !! i
            = Some s) as Hi by (by rewrite Heq).
    rewrite list_lookup_insert_eq in Hi by (by apply lookup_lt_Some in Hs).
    injection Hi as Hi. apply (f_equal Student.status) in Hi. by rewrite Hstatus in Hi.
Qed.

(** ** Deleting a student (C7) *)

Lemma filter_all {A : Type} (P : A → Prop) `{!∀ x, Decision (P x)} (l : list A) :
  (∀ x, x ∈ l → P x) → filter P l = l.
Proof.
  induction l as [|x l IH]; intros Hall; [done|].
  rewrite filter_cons_True by (apply Hall; left).
  f_equal. apply IH. intros y Hy. apply Hall. by right.
Qed.

(** With distinct identifiers, dropping the records with one identifier
    drops one record. *)
Lemma filter_unique_id (id : string) (students : list Student.t) :
  NoDup (Student.id <$> students) →
  (∃ s, s ∈ students ∧ Student.id s = id) →
  ∃ before s after,
    students = before ++ s :: after ∧ Student.id s = id
    ∧ filter (λ s, Student.id s ≠ id) students = before ++ after.
Proof.
  intros Hnodup (s & Hs & Hid). apply list_elem_of_split in Hs as (before & after & ->).
  exists before, s, after. split_and!; [done | done |].
  rewrite fmap_app, fmap_cons in Hnodup.
  apply NoDup_app in Hnodup as (_ & Hbefore & Hafter%NoDup_cons).
  destruct Hafter as [Hafter _].
  rewrite filter_app, filter_cons_False by (by intros Hne).
  f_equal; apply filter_all; intros x Hx Heq.
  - apply (Hbefore (Student.id x)); [by apply list_elem_of_fmap_2|].
    rewrite Heq, <- Hid. left.
  - apply Hafter. rewrite Hid, <- Heq. by apply list_elem_of_fmap_2.
Qed.

Section Deleting.
Context {browser : Browser}.

(** [handleDeleteConfirm] with a deletion pending, case by case. *)
Lemma handleDeleteConfirm_run (id : string) (w : World) :
  currentDeleteId w = Some id → id ≠ "" →
  run handleDeleteConfirm w =
  match findIndex (λ s, String.eqb (Student.id s) id) (studentsOf w) with
  | None => run (showMessage "Student not found" "error") w
  | Some i =>
      match studentsOf w !! i with
      | Some current =>
          run (renderStudentsTable "" "")
              (exec (modify (set_currentDeleteId None))
                 (exec (showMessage ("Student " +:+ Student.name current
                                     +:+ " deleted successfully!") "success")
                       (exec (saveStudents
                                (List.filter (λ s, negb (String.eqb (Student.id s) id))
                                             (studentsOf w)))
                             w)))
      | None => run (showMessage (message TypeError) "error") w
      end
  end.
Proof.
  intros Hpending Hne%truthy_true. unfold handleDeleteConfirm.
  rewrite run_bind, run_gets, Hpending. cbv beta iota.
  cbn [truthy_or_null strict_eq]. rewrite Hne. cbn [negb].
  rewrite run_try_catch, run_bind, run_getCurrentTeacherId. cbv beta iota.
  rewrite run_bind, run_getStudents. cbv beta iota.
  destruct (findIndex _ (studentsOf w)) as [i|]; [|reflexivity].
  rewrite run_bind. unfold at_index.
  destruct (studentsOf w !! i) as [current|]; [|reflexivity].
  rewrite run_ret. cbv beta iota zeta.
  rewrite run_bind, run_saveStudents. cbv beta iota.
  rewrite run_bind, run_showMessage. cbv beta iota.
  rewrite run_bind, run_modify. cbv beta iota.
  unfold exec. rewrite run_saveStudents, run_showMessage, run_modify. cbn [snd].
  match goal with
  | |- context [run (renderStudentsTable "" "") ?w1] =>
      destruct (renderStudentsTable_frame "" "" w1) as (rows & stats & ->)
  end.
  reflexivity.
Qed.

(** Without a pending deletion the handler returns at once. *)
Lemma handleDeleteConfirm_idle (w : World) :
  currentDeleteId w = None ∨ currentDeleteId w = Some "" →
  run handleDeleteConfirm w = (Ok tt, w).
Proof.
  intros Hidle. unfold handleDeleteConfirm. rewrite run_bind, run_gets. cbv beta iota.
  by destruct Hidle as [-> | ->].
Qed.

End Deleting.

(** C7.  For every stored collection and every pending identifier:
    when a record has it, [App.handleDeleteConfirm] leaves exactly the
    records with another identifier, in their order (one record less when
    identifiers are distinct), and touches neither the teachers nor the
    session; when no record has it, the handler shows the not-found
    message and the stored data is unchanged. *)
Theorem handleDeleteConfirm_deletes (B : Browser) (id : string) (w : World) :
  currentDeleteId w = Some id → id ≠ "" →
  let after := exec handleDeleteConfirm w in
  ((∃ s, s ∈ studentsOf w ∧ Student.id s = id) →
   studentsOf after = filter (λ s, Student.id s ≠ id) (studentsOf w)
   ∧ (∀ s, s ∈ studentsOf after ↔ s ∈ studentsOf w ∧ Student.id s ≠ id)
   ∧ studentsOf after `sublist_of` studentsOf w
   ∧ (NoDup (Student.id <$> studentsOf w) →
      ∃ before s rest,
        studentsOf w = before ++ s :: rest ∧ Student.id s = id
        ∧ studentsOf after = before ++ rest)
   ∧ teachersOf after = teachersOf w
   ∧ sessionOf after = sessionOf w)
  ∧ ((∀ s, s ∈ studentsOf w → Student.id s ≠ id) →
     rejects handleDeleteConfirm "Student not found" w
     ∧ studentsOf after = studentsOf w
     ∧ localStorage after = localStorage w).
Proof.
  intros Hpending Hne after.
  pose proof (handleDeleteConfirm_run id w Hpending Hne) as Hrun.
  split.
  - intros Hpresent.
    destruct (firstWithId_present id _ Hpresent) as (i & current & Hfirst).
    assert (findIndex (λ s, String.eqb (Student.id s) id) (studentsOf w) = Some i) as Hi.
    { apply findIndex_firstWithId. eauto. }
    destruct Hfirst as (Hcurrent & _).
    rewrite Hi, Hcurrent in Hrun.
    assert (studentsOf after = filter (λ s, Student.id s ≠ id) (studentsOf w)
            ∧ teachersOf after = teachersOf w ∧ sessionOf after = sessionOf w)
      as (Hstudents & Hteachers & Hsession).
    { unfold after, exec at 1 2 3. rewrite Hrun.
      match goal with
      | |- context [run (renderStudentsTable "" "") ?w1] =>
          destruct (renderStudentsTable_frame "" "" w1) as (rows & stats & ->)
      end.
      split_and!; page; try done.
      apply filter_bool_Prop. intros s. by rewrite negb_true_iff, id_test_false. }
    split_and!; try done.
    + intros s. rewrite Hstudents, list_elem_of_filter. tauto.
    + rewrite Hstudents. apply sublist_filter.
    + intros Hnodup. rewrite Hstudents. by apply filter_unique_id.
  - intros Habsent%findIndex_absent. rewrite Habsent in Hrun.
    split_and!; [done | |]; unfold after, exec; rewrite Hrun; by page.
Qed.

(** ** The status invariant (C10) *)

Lemma statusOk_flipped (status : string) (s : Student.t) : statusOk (withStatus (flipped status) s).
Proof. unfold statusOk, flipped. cbn. destruct (String.eqb status "Present"); tauto. Qed.

Lemma Forall_List_filter {A : Type} (P : A → Prop) (f : A → bool) (l : list A) :
  Forall P l → Forall P (List.filter f l).
Proof.
  induction 1 as [|x l Hx Hl IH]; cbn [List.filter]; [constructor|].
  destruct (f x); [by constructor | done].
Qed.

(** With valid statuses the three counts add up to the total. *)
Lemma howMany_total (students : list Student.t) :
  Forall statusOk students →
  length students
  = howMany "Present" students + howMany "Absent" students + howMany "Unmarked" students.
Proof.
  induction 1 as [|s rest Hs Hrest IH]; [done|]. cbn [length howMany]. rewrite IH.
  destruct Hs as [Hs|[Hs|Hs]]; rewrite Hs; cbn; lia.
Qed.

Section Invariant.
Context {browser : Browser}.

(** What each handler can do to the stored students. *)
Lemma add_students (e : AddStudentForm) (w : World) :
  studentsOf (exec (handleAddStudent e) w) = studentsOf w
  ∨ ∃ new, Student.status new = "Unmarked"
           ∧ studentsOf (exec (handleAddStudent e) w) = studentsOf w ++ [new].
Proof.
  destruct (Session.id <$> sessionOf w) as [teacher|] eqn:Hid.
  2:{ left. unfold exec, handleAddStudent. rewrite run_bind, run_getCurrentTeacherId, Hid.
      cbv beta iota. cbn [truthy_or_null negb]. by page. }
  destruct (decide (teacher = "")) as [->|Hne].
  { left. unfold exec, handleAddStudent. rewrite run_bind, run_getCurrentTeacherId, Hid.
    cbv beta iota. cbn [truthy_or_null truthy String.eqb negb]. by page. }
  assert (loggedIn w teacher) as Hin by (by apply loggedIn_session).
  unfold exec at 1 2. rewrite (handleAddStudent_run e teacher w Hin). cbv zeta.
  destruct (negb _ || _ || _ || _); [left; by page|].
  destruct (find _ (studentsOf w)); [left; by page|].
  right.
  exists (Student.mk (freshId w) teacher (trim (studentName e)) (trim (studentIdInput e))
                     (studentCourse e) (parseInt (studentYear e)) "Unmarked" (clock w)).
  split; [done|].
  unfold exec at 3. destruct (run_generateId w) as [entropy' ->].
  match goal with
  | |- context [run (renderStudentsTable "" "") ?w1] =>
      destruct (renderStudentsTable_frame "" "" w1) as (rows & stats & ->)
  end.
  by page.
Qed.

Lemma edit_students (e : EditStudentForm) (w : World) :
  studentsOf (exec (handleEditStudent e) w) = studentsOf w
  ∨ ∃ i current updated,
      studentsOf w !! i = Some current
      ∧ Student.status updated = Student.status current
      ∧ studentsOf (exec (handleEditStudent e) w) = <[i := updated]> (studentsOf w).
Proof.
  unfold exec. rewrite handleEditStudent_run. cbv zeta.
  destruct (negb _ || _ || _ || _); [left; by page|].
  destruct (findIndex _ (studentsOf w)) as [i|]; [|left; by page].
  destruct (find _ (studentsOf w)); [left; by page|].
  destruct (studentsOf w !! i) as [current|] eqn:Hcurrent; [|left; by page].
  right.
  exists i, current,
    (withFields (trim (editStudentName e)) (trim (editStudentIdInput e))
                (editStudentCourse e) (parseInt (editStudentYear e)) current).
  split; [done|]. split; [done|].
  match goal with
  | |- context [run (renderStudentsTable "" "") ?w1] =>
      destruct (renderStudentsTable_frame "" "" w1) as (rows & stats & ->)
  end.
  by page.
Qed.

Lemma toggle_any_students (id : string) (w : World) :
  studentsOf (exec (handleToggleAttendance id) w) = studentsOf w
  ∨ ∃ i current,
      studentsOf w !! i = Some current
      ∧ studentsOf (exec (handleToggleAttendance id) w)
        = <[i := withStatus (flipped (Student.status current)) current]> (studentsOf w).
Proof.
  unfold exec. rewrite handleToggleAttendance_run.
  destruct (findIndex _ (studentsOf w)) as [i|]; [|left; by page].
  destruct (studentsOf w !! i) as [current|] eqn:Hcurrent; [|left; by page].
  right. exists i, current. split; [done|].
  match goal with
  | |- context [run (renderStudentsTable "" "") ?w1] =>
      destruct (renderStudentsTable_frame "" "" w1) as (rows & stats & ->)
  end.
  by page.
Qed.

Lemma delete_students (w : World) :
  studentsOf (exec handleDeleteConfirm w) = studentsOf w
  ∨ ∃ keep, studentsOf (exec handleDeleteConfirm w) = List.filter keep (studentsOf w).
Proof.
  destruct (currentDeleteId w) as [id|] eqn:Hpending.
  2:{ left. unfold exec. rewrite handleDeleteConfirm_idle by by left. done. }
  destruct (decide (id = "")) as [->|Hne].
  { left. unfold exec. rewrite handleDeleteConfirm_idle by by right. done. }
  unfold exec. rewrite (handleDeleteConfirm_run id w Hpending Hne).
  destruct (findIndex _ (studentsOf w)) as [i|]; [|left; by page].
  destruct (studentsOf w !! i) as [current|] eqn:Hcurrent; [|left; by page].
  right. eexists.
  match goal with
  | |- context [run (renderStudentsTable "" "") ?w1] =>
      destruct (renderStudentsTable_frame "" "" w1) as (rows & stats & ->)
  end.
  by page.
Qed.

Lemma roster_step_statusOk (w w' : World) :
  roster_step w w' → Forall statusOk (studentsOf w) → Forall statusOk (studentsOf w').
Proof.
  intros Hstep Hok. destruct Hstep as [e w|e w|id w|id w|w].
  - destruct (add_students e w) as [-> | (new & Hnew & ->)]; [done|].
    apply Forall_app. split; [done|]. constructor; [|constructor]. right. by right.
  - destruct (edit_students e w) as [-> | (i & current & updated & Hcurrent & Hstatus & ->)];
      [done|].
    apply Forall_insert; [done|]. unfold statusOk. rewrite Hstatus.
    by apply (Forall_lookup_1 _ _ _ _ Hok Hcurrent).
  - destruct (toggle_any_students id w) as [-> | (i & current & Hcurrent & ->)]; [done|].
    apply Forall_insert; [done|]. apply statusOk_flipped.
  - unfold handleDeleteStudent. by page.
  - destruct (delete_students w) as [-> | (keep & ->)]; [done|]. by apply Forall_List_filter.
Qed.

End Invariant.

(** C10.  Each roster operation (add, edit, toggle, choosing and
    confirming a deletion), whatever its arguments, keeps every stored
    status among Present, Absent and Unmarked; so after any sequence of
    them from a collection with that property the property holds, and the
    cards computed from the collection, or from any selection of its
    rows, satisfy total = present + absent + unmarked. *)
Theorem statuses_stay_valid (B : Browser) :
  (∀ w w', roster_step w w' →
           Forall statusOk (studentsOf w) → Forall statusOk (studentsOf w'))
  ∧ (∀ w0 w, Forall statusOk (studentsOf w0) → rtc roster_step w0 w →
       Forall statusOk (studentsOf w)
       ∧ ∀ shown, shown `sublist_of` studentsOf w →
           let cards := counters (exec (updateStats shown) w) in
           Stats.total cards
           = Stats.present cards + Stats.absent cards + Stats.unmarked cards).
Proof.
  split; [apply roster_step_statusOk|].
  intros w0 w Hok Hsteps.
  assert (Forall statusOk (studentsOf w)) as Hok'.
  { induction Hsteps as [|w1 w2 w3 Hstep _ IH]; [done|].
    apply IH. by apply (roster_step_statusOk w1 w2). }
  split; [done|]. intros shown Hshown cards.
  unfold cards, exec. rewrite run_updateStats. cbn.
  apply howMany_total. apply Forall_forall. intros s Hs.
  apply (proj1 (Forall_forall statusOk (studentsOf w)) Hok').
  by apply (sublist_subseteq _ _ Hshown).
Qed.

(** * The properties at work on the demo page *)

Lemma classroom_loggedIn : loggedIn classroom "teacher-1".
Proof. split; [reflexivity | done]. Qed.

Lemma classroom_students : studentsOf classroom = [john; johnny; michael].
Proof. reflexivity. Qed.

(** Case analysis on a member of the demo roster. *)
Ltac each_student Hs :=
  rewrite classroom_students in Hs;
  repeat (apply elem_of_cons in Hs as [-> | Hs]);
  [.. | by apply elem_of_nil in Hs].

(** The adapter absorbs a damaged entry and a refused write. *)
Lemma storage_adapter_witness :
  run (getItem "attendance_students" [john]) damaged = (Ok [john], damaged)
  ∧ run (setItem (store := refusing_storage) "attendance_students" [john]) classroom
    = (Ok false, classroom).
Proof.
  split.
  - exact (proj1 (proj2 (storage_adapter_never_throws page_storage (list Student.t)
             JSON_students "attendance_students" [john] [john] damaged))
             Garbled SyntaxError damaged eq_refl eq_refl).
  - exact (proj2 (proj2 (proj2 (proj2 (storage_adapter_never_throws refusing_storage
             (list Student.t) JSON_students "attendance_students" [john] [john] classroom))))
             (Json (StudentArray [john])) QuotaExceededError classroom eq_refl eq_refl).
Defined.

(** The statistic cards of a roster with two Present, one Absent and one
    Unmarked. *)
Lemma updateStats_counts_witness :
  counters (exec (updateStats [john; michael; john; johnny]) blank) = Stats.mk 4 2 1 1.
Proof.
  apply (updateStats_counts [john; michael; john; johnny] blank).
  cbn. apply Permutation_skip. symmetry. apply Permutation_swap.
Defined.

(** Searching "john" as the first teacher lists John Smith and not Johnny
    Appleseed, who belongs to the second teacher. *)
Lemma renderStudentsTable_lists_witness :
  loggedIn classroom "teacher-1"
  ∧ table (exec (renderStudentsTable (browser := latin1) "john" "") classroom) = [john]
  ∧ johnny ∉ table (exec (renderStudentsTable (browser := latin1) "john" "") classroom).
Proof.
  split; [exact classroom_loggedIn|].
  destruct (renderStudentsTable_lists latin1 "teacher-1" "john" "" classroom
              classroom_loggedIn) as (Hrows & _ & _ & Hothers).
  split; [by rewrite Hrows | by apply Hothers].
Defined.

(** Logging in with the demo password, whatever the case of the username. *)
Lemma login_authenticates_witness :
  ∃ u w', run (login (browser := latin1) "TEACHER1" "123456") classroom = (Ok u, w')
          ∧ sessionOf w' = Some u.
Proof.
  destruct (login_authenticates latin1 "TEACHER1" "123456" classroom) as [_ Hfilled].
  destruct Hfilled as (Hiff & _ & Hsession); [done | done |].
  destruct (proj2 Hiff) as (u & w' & Hrun).
  { exists teacher1. split; [|done]. rewrite teachersOf_eq. cbn. left. }
  exists u, w'. split; [done|].
  by destruct (Hsession u w' Hrun) as (? & ? & ? & ? & ? & ? & ? & ? & ?).
Defined.

Example login_demo :
  outcome (login (browser := latin1) "TEACHER1" "123456") classroom
  = Ok (Session.mk "teacher-1" "Teacher1" "2024-01-01T08:00:00.000Z").
Proof. vm_compute. reflexivity. Qed.

Example login_wrong_password :
  fails (login (browser := latin1) "Teacher1" "654321") "Invalid username or password" classroom.
Proof. vm_compute. reflexivity. Qed.

(** The claim C3 as the specification words it fails on a username padded
    with a blank: three characters long, it is still rejected. *)
Lemma register_counts_trimmed_length :
  fails (register (browser := latin1) "ab " "abcd")
        "Username must be at least 3 characters long" blank
  ∧ ¬ (String.length "ab " < 3 ∨ String.length "abcd" < 4).
Proof. split; [reflexivity | cbn; lia]. Qed.

(** A registration on the demo page stores the new teacher after the two
    others and leaves the login it called pending. *)
Lemma register_validates_then_registers_witness :
  teachersOf (exec (register (browser := latin1) "alice" "secret") classroom)
  = [teacher1; teacher2;
     Teacher.mk "01234567-89ab-4cde-b012-3456789abcde" "alice"
                (digest (browser := latin1) "secret") "2024-02-01T08:00:00.000Z"]
  ∧ pending (exec (register (browser := latin1) "alice" "secret") classroom)
    = [("alice", "secret")].
Proof.
  assert (¬ ("alice" = ""
             ∨ String.length (trim (Browser := latin1) "alice") < 3
             ∨ String.length "secret" < 4)) as Hlong.
  { intros [Hempty | [Hshort | Hshort]]; [discriminate Hempty | |];
      vm_compute in Hshort; lia. }
  assert (¬ ∃ t, t ∈ teachersOf classroom
                 ∧ same_ci (browser := latin1) (Teacher.username t) "alice") as Hfree.
  { intros (t & Ht & Hsame). rewrite teachersOf_eq in Ht. cbn in Ht.
    repeat (apply elem_of_cons in Ht as [-> | Ht]);
      [vm_compute in Hsame; discriminate Hsame
      | vm_compute in Hsame; discriminate Hsame |].
    by apply elem_of_nil in Ht. }
  destruct (register_validates_then_registers latin1 "alice" "secret" classroom)
    as (_ & _ & Hnew).
  destruct (Hnew Hlong Hfree) as (_ & Hteachers & _ & Hpending).
  split.
  - etransitivity; [exact Hteachers | vm_compute; reflexivity].
  - etransitivity; [exact Hpending | reflexivity].
Defined.

(** When [register] returns, the session is the one there was: on the
    demo page still that of the first teacher, on a blank page none. *)
Example register_returns_before_login :
  sessionOf (exec (register (browser := latin1) "alice" "secret") classroom)
  = sessionOf classroom
  ∧ sessionOf (exec (register (browser := latin1) "alice" "secret") blank) = None
  ∧ messages (exec (register (browser := latin1) "alice" "secret") blank)
    = [("Registration successful! Welcome aboard, alice!", "success")].
Proof. split_and!; vm_compute; reflexivity. Qed.

(** Once the pending login has resumed, its alert follows the one of
    [register] and the session is the new teacher's. *)
Example register_then_login_resumes :
  messages (exec (resumeLogin (browser := latin1) 0)
                 (exec (register (browser := latin1) "alice" "secret") blank))
  = [("Registration successful! Welcome aboard, alice!", "success");
     ("Welcome back, alice!", "success")]
  ∧ sessionOf (exec (resumeLogin (browser := latin1) 0)
                    (exec (register (browser := latin1) "alice" "secret") blank))
    = Some (Session.mk "01234567-89ab-4cde-b012-3456789abcde" "alice"
                       "2024-02-01T08:00:00.000Z").
Proof. split; vm_compute; reflexivity. Qed.

(** The pending login resumes with the username as typed, while the
    teacher is stored under the trimmed one: for a padded username it
    fails. *)
Example register_padded_username_leaves_no_session :
  outcome (register (browser := latin1) " bob " "secret") blank
  = Ok (Teacher.mk "01234567-89ab-4cde-b012-3456789abcde" "bob"
                   (digest (browser := latin1) "secret") "2024-02-01T08:00:00.000Z")
  ∧ sessionOf (exec (resumeLogin (browser := latin1) 0)
                    (exec (register (browser := latin1) " bob " "secret") blank)) = None
  ∧ messages (exec (resumeLogin (browser := latin1) 0)
                   (exec (register (browser := latin1) " bob " "secret") blank))
    = [("Registration successful! Welcome aboard,  bob !", "success");
       ("Invalid username or password", "error")].
Proof. split_and!; vm_compute; reflexivity. Qed.

(** The first teacher adds a student whose studentId the second teacher's
    student already has: accepted, with the status Unmarked. *)
Lemma handleAddStudent_adds_witness :
  loggedIn classroom "teacher-1"
  ∧ studentsOf (exec (handleAddStudent (browser := latin1) emmaForm) classroom)
    = [john; johnny; michael; emma].
Proof.
  split; [exact classroom_loggedIn|].
  assert (∀ s, s ∈ studentsOf classroom →
               same_ci (browser := latin1) (Student.studentId s) "2024-002" →
               Student.teacherId s ≠ "teacher-1") as Hfree.
  { intros s Hs Hsame. each_student Hs; by vm_compute in Hsame. }
  assert (filled "Emma Johnson" "2024-002" "OMT" (Num 2)) as Hfilled by by split_and!.
  destruct (handleAddStudent_adds latin1 emmaForm "teacher-1" classroom classroom_loggedIn)
    as (_ & Hadds).
  destruct (Hadds Hfilled) as (_ & _ & Hothers).
  etransitivity; [exact (Hothers Hfree) | vm_compute; reflexivity].
Defined.

(** On a storage that is full the same request is answered with the
    success message although nothing is stored: [handleAddStudent] does not
    look at what [saveStudents] returns. *)
Example add_on_full_storage_reports_success :
  messages (exec (handleAddStudent (store := full_storage) (browser := latin1) emmaForm)
                 classroom)
  = [("Student Emma Johnson added successfully!", "success")]
  ∧ studentsOf (exec (handleAddStudent (store := full_storage) (browser := latin1) emmaForm)
                     classroom)
    = studentsOf classroom.
Proof. split; vm_compute; reflexivity. Qed.

Example add_same_studentId_same_teacher :
  rejects (handleAddStudent (browser := latin1)
             (mkAddStudentForm "Emma Johnson" "2024-001" "OMT" "2"))
          "A student with this ID already exists" classroom.
Proof. reflexivity. Qed.

(** The claim C6 as the specification words it fails on an edit whose
    name is empty: no record has the id, and the message is the validation
    one, not the not-found one. *)
Lemma edit_validates_before_looking_up :
  (∀ s, s ∈ studentsOf blank → Student.id s ≠ editStudentId emptyEdit)
  ∧ rejects (handleEditStudent (browser := latin1) emptyEdit) "Please fill in all fields" blank
  ∧ ¬ rejects (handleEditStudent (browser := latin1) emptyEdit) "Student not found" blank.
Proof.
  split_and!.
  - intros s Hs. by apply elem_of_nil in Hs.
  - reflexivity.
  - unfold rejects. vm_compute. by intros [=].
Qed.

(** Renaming John Smith: his id, teacher, status and date stay, the other
    two records too. *)
Lemma handleEditStudent_edits_witness :
  studentsOf (exec (handleEditStudent (browser := latin1) johnEdit) classroom)
  = [Student.mk "student-1" "teacher-1" "John A. Smith" "2024-001" "WAD" (Num 4) "Present"
                "2024-01-02T08:00:00.000Z";
     johnny; michael].
Proof.
  destruct (handleEditStudent_edits latin1 johnEdit classroom) as [_ Hfilled].
  destruct Hfilled as (_ & _ & Hedit).
  { vm_compute. by split_and!. }
  destruct (Hedit 0 john) as (Hstudents & _).
  - split_and!; [reflexivity | reflexivity | intros j y Hj; lia].
  - intros (s & Hs & Hid & Hteacher & Hsame).
    each_student Hs; [done | by vm_compute in Hteacher | by vm_compute in Hsame].
  - by rewrite Hstudents.
Defined.

(** Johnny Appleseed is Unmarked: two toggles leave him Absent.  John
    Smith is Present: two toggles give the roster back. *)
Lemma toggle_twice_witness :
  firstWithId "student-2" (studentsOf classroom) 1 johnny
  ∧ Student.status <$> studentWithId "student-2"
      (studentsOf (exec (handleToggleAttendance (browser := latin1) "student-2")
                        (exec (handleToggleAttendance (browser := latin1) "student-2") classroom)))
    = Some "Absent"
  ∧ studentsOf (exec (handleToggleAttendance (browser := latin1) "student-1")
                     (exec (handleToggleAttendance (browser := latin1) "student-1") classroom))
    = studentsOf classroom.
Proof.
  assert (firstWithId "student-2" (studentsOf classroom) 1 johnny) as Hjohnny.
  { split_and!; [reflexivity | reflexivity |].
    intros [|j] y Hj; [intros [= <-]; done | lia]. }
  assert (firstWithId "student-1" (studentsOf classroom) 0 john) as Hjohn.
  { split_and!; [reflexivity | reflexivity | intros j y Hj; lia]. }
  split; [exact Hjohnny|]. split.
  - destruct (toggle_twice latin1 "student-2" classroom 1 johnny Hjohnny)
      as (_ & _ & Hunmarked).
    by destruct (Hunmarked eq_refl) as (_ & ? & _).
  - destruct (toggle_twice latin1 "student-1" classroom 0 john Hjohn) as (_ & Hmarked & _).
    by destruct (Hmarked (or_introl eq_refl)) as [? _].
Defined.

(** Deleting John Smith leaves the two others; confirming the deletion of
    an unknown id shows the not-found message. *)
Lemma handleDeleteConfirm_deletes_witness :
  studentsOf (exec (handleDeleteConfirm (browser := latin1))
                   (exec (handleDeleteStudent "student-1") classroom))
  = [johnny; michael]
  ∧ rejects (handleDeleteConfirm (browser := latin1)) "Student not found"
            (exec (handleDeleteStudent "student-404") classroom).
Proof.
  split.
  - destruct (handleDeleteConfirm_deletes latin1 "student-1"
                (exec (handleDeleteStudent "student-1") classroom) eq_refl)
      as [Hpresent _]; [done|].
    destruct Hpresent as (Hstudents & _).
    { exists john. split; [|done]. left. }
    by rewrite Hstudents.
  - destruct (handleDeleteConfirm_deletes latin1 "student-404"
                (exec (handleDeleteStudent "student-404") classroom) eq_refl)
      as [_ Habsent]; [done|].
    destruct Habsent as (Hrejects & _); [|done].
    intros s Hs. change (s ∈ studentsOf classroom) in Hs. each_student Hs; done.
Defined.

(** After an add and a toggle on the demo page the statuses are still
    valid and the cards add up. *)
Lemma statuses_stay_valid_witness :
  Forall statusOk (studentsOf classroom)
  ∧ Forall statusOk
      (studentsOf (exec (handleToggleAttendance (browser := latin1) "student-2")
                        (exec (handleAddStudent (browser := latin1) emmaForm) classroom))).
Proof.
  assert (Forall statusOk (studentsOf classroom)) as Hok.
  { rewrite classroom_students. repeat constructor; unfold statusOk; cbn; tauto. }
  split; [exact Hok|].
  apply (proj2 (statuses_stay_valid latin1) classroom); [exact Hok|].
  eapply rtc_l; [apply (step_add emmaForm)|].
  eapply rtc_l; [apply (step_toggle "student-2")|].
  apply rtc_refl.
Defined.

(** * Beyond the specification

    Properties of the same code that the specification does not state. *)

(** * Further properties *)

(** ** The identifiers of the fallback generator *)

(** A test that holds of 0, ..., n - 1 holds of every number in that range. *)
Lemma below_forallb (n : nat) (P : Z → bool) :
  forallb P (Z.of_nat <$> seq 0 n) = true → ∀ z, (0 ≤ z < Z.of_nat n)%Z → P z = true.
Proof.
  intros Hall z Hz. rewrite forallb_forall in Hall. apply Hall.
  apply list_elem_of_In, list_elem_of_fmap. exists (Z.to_nat z). split; [lia|].
  apply elem_of_seq. lia.
Qed.

Lemma hex_x (r : Z) :
  (0 ≤ r < 16)%Z →
  ∃ c, toString16 r = String c "" ∧ isHexDigit c = true.
Proof.
  intros Hr.
  pose proof (below_forallb 16
    (λ r, match toString16 r with
          | String c EmptyString => isHexDigit c
          | _ => false
          end) eq_refl r Hr) as H.
  cbv beta in H. destruct (toString16 r) as [|c [|]]; try done. eauto.
Qed.

Lemma hex_y (r : Z) :
  (0 ≤ r < 16)%Z →
  ∃ c, toString16 (Z.lor (Z.land r 3) 8) = String c ""
       ∧ existsb (Ascii.eqb c) (list_ascii_of_string "89ab") = true.
Proof.
  intros Hr.
  pose proof (below_forallb 16
    (λ r, match toString16 (Z.lor (Z.land r 3) 8) with
          | String c EmptyString => existsb (Ascii.eqb c) (list_ascii_of_string "89ab")
          | _ => false
          end) eq_refl r Hr) as H.
  cbv beta in H. destruct (toString16 _) as [|c [|]]; try done. eauto.
Qed.

(** Filling a template draws one random number per hole and gives a string
    that follows the template. *)
Lemma replace_xy_fits (template : string) (w : World) :
  ∃ id,
    run (replace_xy template) w = (Ok id, set_entropy (λ n, entropy w (holes template + n)) w)
    ∧ fits template id = true.
Proof.
  revert w. induction template as [|c rest IH]; intros w.
  - exists "". split; [by destruct w | done].
  - cbn [replace_xy holes fits]. rewrite run_bind.
    destruct (Ascii.eqb c "x" || Ascii.eqb c "y") eqn:Hxy.
    + rewrite run_bind, run_random16. cbv beta iota zeta. rewrite run_ret.
      cbv beta iota. rewrite run_bind.
      destruct (IH (set_entropy (λ n, entropy w (S n)) w)) as (tail & -> & Htail).
      cbv beta iota. rewrite run_ret.
      assert (0 ≤ entropy w 0 mod 16 < 16)%Z as Hr by (apply Z.mod_pos_bound; lia).
      destruct (Ascii.eqb c "x") eqn:Hx.
      * destruct (hex_x _ Hr) as (d & -> & Hd). exists (String d tail).
        split; [reflexivity|]. by rewrite Hd, Htail.
      * cbn [orb] in Hxy. rewrite Hxy.
        destruct (hex_y _ Hr) as (d & -> & Hd). exists (String d tail).
        split; [reflexivity|]. by rewrite Hd, Htail.
    + apply orb_false_iff in Hxy as [-> ->].
      rewrite run_ret. cbv beta iota. rewrite run_bind.
      destruct (IH w) as (tail & -> & Htail). cbv beta iota. rewrite run_ret.
      exists (String c tail). split; [reflexivity|].
      by rewrite Ascii.eqb_refl, Htail.
Qed.

Lemma fits_length (template id : string) :
  fits template id = true → String.length id = String.length template.
Proof.
  revert id. induction template as [|c t IH]; intros [|d s]; cbn; try done.
  intros [_ ?]%andb_true_iff. f_equal. by apply IH.
Qed.

(** X2.  Where [crypto.randomUUID] is missing, [Storage.generateId] always
    returns, uses up 31 random numbers, and its result has the shape of a
    version-4 UUID: 36 characters, hyphens after the 8th, 13th, 18th and
    23rd, a 4 in front of the third group, one of 8, 9, a, b in front of
    the fourth, lower-case hexadecimal digits elsewhere. *)
Theorem generateId_fallback_is_uuid (B : Browser) (w : World) :
  crypto_randomUUID = None →
  ∃ id,
    run generateId w = (Ok id, set_entropy (λ n, entropy w (31 + n)) w)
    ∧ uuid_v4 id = true
    ∧ String.length id = 36.
Proof.
  intros Hnone. unfold generateId. rewrite Hnone.
  destruct (replace_xy_fits "xxxxxxxx-xxxx-4xxx-yxxx-xxxxxxxxxxxx" w) as (id & Hrun & Hfits).
  exists id. split; [exact Hrun|]. split; [exact Hfits|].
  by rewrite (fits_length _ _ Hfits).
Qed.

(** ** The digest of a password *)

Lemma toInt32_wraps (z : Z) : ∃ k, toInt32 z = (z + k * 2 ^ 32)%Z.
Proof.
  exists (- ((z + 2 ^ 31) / 2 ^ 32))%Z. unfold toInt32.
  rewrite Z.mod_eq by lia. lia.
Qed.

Lemma toInt32_congruent (a b k : Z) : a = (b + k * 2 ^ 32)%Z → toInt32 a = toInt32 b.
Proof.
  intros ->. unfold toInt32.
  replace (b + k * 2 ^ 32 + 2 ^ 31)%Z with (b + 2 ^ 31 + k * 2 ^ 32)%Z by lia.
  by rewrite Z_mod_plus_full.
Qed.

Lemma toInt32_mod (a b : Z) : ((a - b) mod 2 ^ 32 = 0)%Z → toInt32 a = toInt32 b.
Proof.
  intros Hmod. apply (toInt32_congruent a b ((a - b) / 2 ^ 32)).
  pose proof (Z.div_mod (a - b) (2 ^ 32) ltac:(lia)) as Hdiv. lia.
Qed.

Lemma rolling_step (H c : Z) :
  (let hash := toInt32 H in
   let hash := (toInt32 (Z.shiftl (toInt32 hash) 5) - hash + c)%Z in
   Z.land (toInt32 hash) (toInt32 hash))
  = toInt32 (31 * H + c).
Proof.
  cbv zeta. rewrite Z.land_diag, Z.shiftl_mul_pow2 by lia.
  destruct (toInt32_wraps H) as [k1 H1].
  destruct (toInt32_wraps (toInt32 H)) as [k2 H2].
  destruct (toInt32_wraps (toInt32 (toInt32 H) * 2 ^ 5)) as [k3 H3].
  apply (toInt32_congruent _ _ (31 * k1 + 32 * k2 + k3)). lia.
Qed.

Lemma rolling_hash (codes : list Z) (H : Z) :
  fold_left
    (λ hash char,
       let hash := (toInt32 (Z.shiftl (toInt32 hash) 5) - hash + char)%Z in
       Z.land (toInt32 hash) (toInt32 hash))
    codes (toInt32 H)
  = toInt32 (fold_left (λ h c, (31 * h + c)%Z) codes H).
Proof.
  revert H. induction codes as [|c codes IH]; intros H; [done|].
  cbn [fold_left]. rewrite <- IH. f_equal. apply (rolling_step H c).
Qed.

(** Without [crypto.subtle] the digest is the hexadecimal form of the
    polynomial hash wrapped to 32 bits. *)
Lemma fallback_digest {browser : Browser} (s : string) :
  crypto_subtle = None → digest s = toString16 (toInt32 (hashCode s)).
Proof.
  intros Hnone. unfold digest, hashCode. rewrite Hnone. f_equal.
  apply (rolling_hash (charCodes s) 0).
Qed.

(** X3.  Where [crypto.subtle] is missing, the digest of a password is the
    hexadecimal form of its polynomial hash c0 * 31^(n-1) + ... + c(n-1)
    wrapped to a signed 32-bit integer; so two passwords whose polynomial
    hashes agree modulo 2^32 have the same digest. *)
Theorem fallback_digest_is_hashCode (B : Browser) (password : string) :
  crypto_subtle = None →
  digest password = toString16 (toInt32 (hashCode password))
  ∧ ∀ other, ((hashCode other - hashCode password) mod 2 ^ 32 = 0)%Z →
             digest other = digest password.
Proof.
  intros Hnone. split; [by apply fallback_digest|]. intros other Hmod.
  rewrite !fallback_digest by done. f_equal. by apply toInt32_mod.
Qed.

(** Bytes in hexadecimal. *)

Lemma concat_cons (x : string) (xs : list string) :
  String.concat "" (x :: xs) = x +:+ String.concat "" xs.
Proof.
  destruct xs as [|y xs]; cbn [String.concat].
  - induction x as [|c x IH]; [reflexivity|].
    change (String c x = String c (x +:+ "")). by f_equal.
  - reflexivity.
Qed.

Lemma append_pair (a b : ascii) (rest : string) :
  String a (String b "") +:+ rest = String a (String b rest).
Proof. reflexivity. Qed.

Lemma byte_hex (b : Z) :
  isByte b →
  padStart 2 "0" (toString16 b) = String (hexDigit (b / 16)) (String (hexDigit (b mod 16)) "").
Proof.
  intros Hb. apply String.eqb_eq.
  apply (below_forallb 256
    (λ b, String.eqb (padStart 2 "0" (toString16 b))
            (String (hexDigit (b / 16)) (String (hexDigit (b mod 16)) "")))); [|exact Hb].
  vm_compute. reflexivity.
Qed.

Lemma hexDigit_inj (a b : Z) :
  (0 ≤ a < 16)%Z → (0 ≤ b < 16)%Z → hexDigit a = hexDigit b → a = b.
Proof.
  intros Ha Hb Heq.
  pose proof (below_forallb 16
    (λ a, forallb (λ b, negb (Ascii.eqb (hexDigit a) (hexDigit b)) || (a =? b)%Z)
            (Z.of_nat <$> seq 0 16)) eq_refl a Ha) as Hall.
  cbv beta in Hall.
  pose proof (below_forallb 16 _ Hall b Hb) as Hab. cbv beta in Hab.
  rewrite Heq, Ascii.eqb_refl in Hab. cbn in Hab. by apply Z.eqb_eq.
Qed.

Lemma hex_bytes_inj (bs1 bs2 : list Z) :
  Forall isByte bs1 → Forall isByte bs2 →
  String.concat "" (List.map (λ b, padStart 2 "0" (toString16 b)) bs1)
  = String.concat "" (List.map (λ b, padStart 2 "0" (toString16 b)) bs2) →
  bs1 = bs2.
Proof.
  intros H1. revert bs2. induction H1 as [|b1 bs1 Hb1 _ IH]; intros bs2 H2.
  - destruct H2 as [|b2 bs2 Hb2 _]; [done|].
    cbn [List.map]. rewrite concat_cons, (byte_hex b2 Hb2), append_pair. done.
  - destruct H2 as [|b2 bs2 Hb2 H2]; cbn [List.map];
      rewrite !concat_cons, (byte_hex b1 Hb1), append_pair; [done|].
    rewrite (byte_hex b2 Hb2), append_pair. intros [= Hhi Hlo Hrest].
    unfold isByte in *.
    assert (∀ b, 0 ≤ b < 256 → 0 ≤ b / 16 < 16)%Z as Hdiv.
    { intros b Hb. split; [apply Z.div_pos; lia | apply Z.div_lt_upper_bound; lia]. }
    apply hexDigit_inj in Hhi; [|by apply Hdiv..].
    apply hexDigit_inj in Hlo; [|apply Z.mod_pos_bound; lia..].
    f_equal; [|by apply IH].
    rewrite (Z.div_mod b1 16), (Z.div_mod b2 16) by lia. congruence.
Qed.

Lemma hex_bytes_length (bs : list Z) :
  Forall isByte bs →
  String.length (String.concat "" (List.map (λ b, padStart 2 "0" (toString16 b)) bs))
  = 2 * length bs.
Proof.
  induction 1 as [|b bs Hb _ IH]; [done|].
  cbn [List.map length]. rewrite concat_cons, (byte_hex b Hb), append_pair. cbn [String.length].
  rewrite IH. lia.
Qed.

(** X4.  Where [crypto.subtle] exists and returns bytes, the digest has two
    hexadecimal characters for each byte, and two passwords have the same
    digest exactly when their hashes are the same bytes: padding each byte
    to two digits loses nothing. *)
Theorem digest_renders_bytes (B : Browser) (sha256 : string → list Z) (p q : string) :
  crypto_subtle = Some sha256 →
  (∀ s, Forall isByte (sha256 s)) →
  String.length (digest p) = 2 * length (sha256 p)
  ∧ (digest p = digest q ↔ sha256 p = sha256 q).
Proof.
  intros Hsome Hbytes. unfold digest. rewrite Hsome.
  split; [by apply hex_bytes_length|].
  split; [by apply hex_bytes_inj | by intros ->].
Qed.

(** ** Writing, then reading, the storage of the page *)

(** X1.  On the storage of the page, with a codec whose texts parse back:
    [getItem] after [setItem] on the same key returns the value written,
    whatever the default, and [setItem] changes what [getItem] returns
    under no other key. *)
Theorem setItem_then_getItem
    {V : Type} (codec : JSON V) (key : string) (data defaultValue : V) (w : World) :
  roundTrips codec →
  run (setItem key data ≫= λ _, getItem key defaultValue) w
  = (Ok data, exec (setItem key data) w)
  ∧ ∀ (V' : Type) (codec' : JSON V') (key' : string) (defaultValue' : V'),
      key' ≠ key →
      outcome (getItem key' defaultValue') (exec (setItem key data) w)
      = outcome (getItem key' defaultValue') w.
Proof.
  intros Hcodec. destruct (Hcodec data) as (text & Hs & Ht & Hp).
  assert (run (setItem key data) w = (Ok true, set_localStorage (insert key text) w)) as Hset.
  { by apply (setItem_written page_storage codec key data w _ text). }
  split.
  - rewrite run_bind. unfold exec. rewrite Hset. cbv beta iota. cbn [snd].
    apply (getItem_parsed page_storage codec key defaultValue _ _ text); [|done..].
    cbn [localStorage_getItem page_storage]. rewrite run_gets.
    cbn [localStorage set_localStorage]. by rewrite lookup_insert_eq.
  - intros V' codec' key' defaultValue' Hne. unfold exec, outcome. rewrite Hset. cbn [snd].
    unfold getItem. rewrite !run_try_catch, !run_bind.
    cbn [localStorage_getItem page_storage]. rewrite !run_gets.
    cbn [localStorage set_localStorage]. rewrite lookup_insert_ne by done.
    cbv beta iota.
    destruct (localStorage w !! key') as [text'|]; [|done].
    destruct (truthy_text text'); [|done].
    rewrite !run_lift. by destruct (JSON_parse text').
Qed.

(** ** Sessions *)

Lemma run_logout (w : World) :
  run logout w =
  (Ok tt,
   exec (showMessage "You have been logged out successfully" "success")
        (set_localStorage (delete "attendance_current_user") w)).
Proof. reflexivity. Qed.

Lemma sessionOf_cleared (w : World) :
  sessionOf (set_localStorage (delete "attendance_current_user") w) = None.
Proof. rewrite sessionOf_eq. cbn [localStorage set_localStorage]. by rewrite lookup_delete_eq. Qed.

Lemma studentsOf_cleared (w : World) :
  studentsOf (set_localStorage (delete "attendance_current_user") w) = studentsOf w.
Proof.
  rewrite !studentsOf_eq. cbn [localStorage set_localStorage]. by rewrite lookup_delete_ne.
Qed.

Lemma teachersOf_cleared (w : World) :
  teachersOf (set_localStorage (delete "attendance_current_user") w) = teachersOf w.
Proof.
  rewrite !teachersOf_eq. cbn [localStorage set_localStorage]. by rewrite lookup_delete_ne.
Qed.

#[global] Hint Rewrite sessionOf_cleared studentsOf_cleared teachersOf_cleared : page.

Lemma run_requireAuth (w : World) :
  run requireAuth w =
  match sessionOf w with
  | Some _ => (Ok true, w)
  | None => (Ok false, exec (showMessage "Please login to access this page" "error") w)
  end.
Proof.
  unfold requireAuth. rewrite run_bind, run_getCurrentUser. cbv beta iota.
  by destruct (sessionOf w).
Qed.

Lemma run_getCurrentTeacher (w : World) :
  run getCurrentTeacher w =
  (Ok (u ← sessionOf w;
       t ← find (λ t, String.eqb (Teacher.id t) (Session.id u)) (teachersOf w);
       Some (Session.mk (Teacher.id t) (Teacher.username t) (Teacher.createdAt t))),
   w).
Proof.
  unfold getCurrentTeacher. rewrite run_bind, run_getCurrentUser. cbv beta iota.
  destruct (sessionOf w) as [u|]; [|reflexivity]. cbn [mbind option_bind].
  rewrite run_bind, run_getTeachers. cbv beta iota.
  by destruct (find _ (teachersOf w)).
Qed.

Section Anonymous.
Context {browser : Browser}.

(** Nobody is logged in: no session, or one without an identifier. *)
Lemma anonymous_add (e : AddStudentForm) (w : World) :
  (∀ teacher, ¬ loggedIn w teacher) →
  rejects (handleAddStudent e) "Session expired. Please login again." w.
Proof.
  intros Hanon. unfold rejects, handleAddStudent.
  rewrite run_bind, run_getCurrentTeacherId. cbv beta iota.
  destruct (Session.id <$> sessionOf w) as [teacher|] eqn:Hid; [|reflexivity].
  destruct (decide (teacher = "")) as [->|Hne]; [reflexivity|].
  destruct (Hanon teacher). by apply loggedIn_session.
Qed.

Lemma anonymous_render (searchQuery courseFilter : string) (w : World) :
  (∀ teacher, ¬ loggedIn w teacher) →
  run (renderStudentsTable searchQuery courseFilter) w = (Ok tt, w).
Proof.
  intros Hanon. unfold renderStudentsTable.
  rewrite run_bind, run_getCurrentTeacherId. cbv beta iota.
  destruct (Session.id <$> sessionOf w) as [teacher|] eqn:Hid; [|reflexivity].
  destruct (decide (teacher = "")) as [->|Hne]; [reflexivity|].
  destruct (Hanon teacher). by apply loggedIn_session.
Qed.

Lemma not_loggedIn_None (w : World) : sessionOf w = None → ∀ teacher, ¬ loggedIn w teacher.
Proof. intros Hnone teacher [Hid _]%loggedIn_session. by rewrite Hnone in Hid. Qed.

End Anonymous.

(** X5.  [Auth.logout] always ends the session and keeps the teachers and
    the students; afterwards [requireAuth] answers false with its alert,
    nobody is the current teacher, an add request is answered with the
    session-expired alert and rendering the table changes nothing. *)
Theorem logout_ends_session (B : Browser) (w : World) :
  let after := exec logout w in
  sessionOf after = None
  ∧ teachersOf after = teachersOf w
  ∧ studentsOf after = studentsOf w
  ∧ messages after = messages w ++ [("You have been logged out successfully", "success")]
  ∧ run requireAuth after
    = (Ok false, exec (showMessage "Please login to access this page" "error") after)
  ∧ outcome getCurrentTeacherId after = Ok None
  ∧ outcome getCurrentTeacher after = Ok None
  ∧ (∀ e, rejects (handleAddStudent e) "Session expired. Please login again." after)
  ∧ (∀ searchQuery courseFilter,
       run (renderStudentsTable searchQuery courseFilter) after = (Ok tt, after)).
Proof.
  intros after.
  assert (sessionOf after = None) as Hnone.
  { unfold after, exec. rewrite run_logout. by page. }
  split_and!.
  - done.
  - unfold after, exec. rewrite run_logout. by page.
  - unfold after, exec. rewrite run_logout. by page.
  - unfold after, exec. by rewrite run_logout.
  - by rewrite run_requireAuth, Hnone.
  - unfold outcome. by rewrite run_getCurrentTeacherId, Hnone.
  - unfold outcome. by rewrite run_getCurrentTeacher, Hnone.
  - intros e. by apply anonymous_add, not_loggedIn_None.
  - intros q f. by apply anonymous_render, not_loggedIn_None.
Qed.

(** Two members with the same key in a list without duplicate keys. *)
Lemma NoDup_fmap_elem {A B : Type} (f : A → B) (l : list A) (x y : A) :
  NoDup (f <$> l) → x ∈ l → y ∈ l → f x = f y → x = y.
Proof.
  intros Hnodup [i Hi]%list_elem_of_lookup [j Hj]%list_elem_of_lookup Heq.
  assert (i = j) as ->; [|congruence].
  apply (NoDup_lookup _ i j (f x) Hnodup); rewrite list_lookup_fmap.
  - by rewrite Hi.
  - by rewrite Hj, Heq.
Qed.

Section Sessions.
Context {browser : Browser}.

(** A login that returns has found a stored teacher and written its
    session. *)
Lemma login_returns (username password : string) (w w' : World) (u : Session.t) :
  run (login username password) w = (Ok u, w') →
  ∃ t, t ∈ teachersOf w
       ∧ credentials_fit username password t
       ∧ u = Session.mk (Teacher.id t) (Teacher.username t) (Teacher.createdAt t)
       ∧ w' = exec (showMessage ("Welcome back, " +:+ username +:+ "!") "success")
                   (exec (setCurrentUser u) w).
Proof.
  intros Hrun.
  destruct (decide (username = "")) as [Hu|Hu].
  { by rewrite (login_blank username password w (or_introl Hu)) in Hrun. }
  destruct (decide (password = "")) as [Hp|Hp].
  { by rewrite (login_blank username password w (or_intror Hp)) in Hrun. }
  rewrite (login_run username password w Hu Hp) in Hrun.
  destruct (find _ (teachersOf w)) as [t|] eqn:Hfind; [|done].
  apply find_Some_first in Hfind as [Hin Hfit%credentials_test].
  cbv zeta in Hrun. injection Hrun as <- <-. exists t. done.
Qed.


(** A registration that returns has appended the teacher it returns and
    left its call of [login] pending. *)
Lemma register_returns (username password : string) (w w' : World) (t : Teacher.t) :
  run (register username password) w = (Ok t, w') →
  username ≠ "" ∧ password ≠ ""
  ∧ (∀ t0, t0 ∈ teachersOf w → ¬ same_ci (Teacher.username t0) username)
  ∧ t = registered username password (freshId w) (clock w)
  ∧ teachersOf w' = teachersOf w ++ [t]
  ∧ studentsOf w' = studentsOf w
  ∧ sessionOf w' = sessionOf w
  ∧ pending w' = pending w ++ [(username, password)]
  ∧ w' = exec (showMessage ("Registration successful! Welcome aboard, " +:+ username +:+ "!")
                           "success")
              (set_pending (λ calls, calls ++ [(username, password)])
                 (exec (saveTeachers (teachersOf w ++ [t])) (exec generateId w))).
Proof.
  rewrite register_run.
  destruct (negb (truthy username) || _) eqn:Hu; [done|].
  destruct (negb (truthy password) || _) eqn:Hp; [done|].
  destruct (find _ (teachersOf w)) as [t0|] eqn:Hfind; [done|].
  cbv zeta. intros [= <- <-].
  apply orb_false_iff in Hu as [Hu%negb_false_iff%truthy_true _].
  apply orb_false_iff in Hp as [Hp%negb_false_iff%truthy_true _].
  split_and!; [done | done | | done | | | | | done].
  - intros t0 Hin Hsame%username_test. rewrite find_None_all in Hfind.
    by rewrite (Hfind t0 Hin) in Hsame.
  - by page.
  - page. destruct (run_generateId w) as [e ->]. by page.
  - page. destruct (run_generateId w) as [e ->]. by page.
  - unfold exec. rewrite run_showMessage, run_saveTeachers. cbn [snd].
    destruct (run_generateId w) as [e ->]. reflexivity.
Qed.

(** A registration that throws has shown its message and nothing else. *)
Lemma register_throws (username password : string) (w w' : World) (e : JsError) :
  run (register username password) w = (Throw e, w') →
  w' = exec (showMessage (message e) "error") w.
Proof.
  rewrite register_run.
  destruct (negb (truthy username) || _); [by intros [= <- <-]|].
  destruct (negb (truthy password) || _); [by intros [= <- <-]|].
  destruct (find _ (teachersOf w)); [by intros [= <- <-] | done].
Qed.

(** Logging in with the name and the password of the last teacher, when no
    teacher before has the name. *)
Lemma login_last (username password : string) (t : Teacher.t) (teachers : list Teacher.t)
    (w : World) :
  username ≠ "" → password ≠ "" →
  teachersOf w = teachers ++ [t] →
  (∀ t0, t0 ∈ teachers → ¬ same_ci (Teacher.username t0) username) →
  credentials_fit username password t →
  run (login username password) w
  = (let u := Session.mk (Teacher.id t) (Teacher.username t) (Teacher.createdAt t) in
     (Ok u, exec (showMessage ("Welcome back, " +:+ username +:+ "!") "success")
                 (exec (setCurrentUser u) w))).
Proof.
  intros Hu Hp Hteachers Hfree Hfit. rewrite (login_run username password w Hu Hp), Hteachers.
  rewrite find_app_none.
  2:{ intros t0 Hin. apply andb_false_iff. left.
      destruct (String.eqb _ _) eqn:Heq; [|done].
      apply username_test in Heq. by destruct (Hfree t0 Hin). }
  cbn [find]. apply credentials_test in Hfit. by rewrite Hfit.
Qed.

(** After a login that returned, the current teacher is a stored teacher
    with the session's id; it is the session record itself when teacher ids
    are distinct. *)
Lemma login_current_teacher (username password : string) (w w' : World) (u : Session.t) :
  run (login username password) w = (Ok u, w') →
  sessionOf w' = Some u
  ∧ teachersOf w' = teachersOf w
  ∧ studentsOf w' = studentsOf w
  ∧ (∃ t, outcome getCurrentTeacher w' = Ok (Some t) ∧ Session.id t = Session.id u)
  ∧ (NoDup (Teacher.id <$> teachersOf w) → outcome getCurrentTeacher w' = Ok (Some u)).
Proof.
  intros (t & Hin & _ & Hu & ->)%login_returns.
  set (w' := exec _ _).
  assert (sessionOf w' = Some u) as Hsession by (unfold w'; by page).
  assert (teachersOf w' = teachersOf w) as Hteachers by (unfold w'; by page).
  assert (studentsOf w' = studentsOf w) as Hstudents by (unfold w'; by page).
  assert (∃ t', t' ∈ teachersOf w ∧ Teacher.id t' = Session.id u
                ∧ find (λ t, String.eqb (Teacher.id t) (Session.id u)) (teachersOf w) = Some t')
    as (t' & Hin' & Hid' & Hfind).
  { destruct (find (λ t, String.eqb (Teacher.id t) (Session.id u)) (teachersOf w))
      as [t'|] eqn:Hfind.
    - exists t'. apply find_Some_first in Hfind as [? ?%String.eqb_eq]. done.
    - rewrite find_None_all in Hfind. specialize (Hfind t Hin).
      rewrite Hu in Hfind. cbn in Hfind. by rewrite String.eqb_refl in Hfind. }
  split_and!; [done | done | done | |].
  - eexists. unfold outcome. rewrite run_getCurrentTeacher, Hsession, Hteachers.
    cbn [mbind option_bind fst]. rewrite Hfind. cbn [mbind option_bind]. done.
  - intros Hnodup. unfold outcome. rewrite run_getCurrentTeacher, Hsession, Hteachers.
    cbn [mbind option_bind fst]. rewrite Hfind. cbn [mbind option_bind].
    assert (t' = t) as ->; [|by rewrite Hu].
    apply (NoDup_fmap_elem Teacher.id (teachersOf w)); [done..|]. by rewrite Hid', Hu.
Qed.

End Sessions.

(** X6.  A login that returns has opened a session: the session read back
    is the one returned, [requireAuth] answers true and shows nothing,
    the current teacher id is the session's, [getCurrentTeacher] returns a
    stored teacher with that id (the very session record when teacher ids
    are distinct), and a logout ends it. *)
Theorem login_opens_session
    (B : Browser) (username password : string) (w w' : World) (u : Session.t) :
  run (login username password) w = (Ok u, w') →
  sessionOf w' = Some u
  ∧ run requireAuth w' = (Ok true, w')
  ∧ outcome getCurrentTeacherId w' = Ok (Some (Session.id u))
  ∧ (∃ t, outcome getCurrentTeacher w' = Ok (Some t) ∧ Session.id t = Session.id u)
  ∧ (NoDup (Teacher.id <$> teachersOf w) → outcome getCurrentTeacher w' = Ok (Some u))
  ∧ sessionOf (exec logout w') = None.
Proof.
  intros (Hsession & _ & _ & Hteacher & Hsame)%login_current_teacher.
  split_and!; [done | | | done | done |].
  - by rewrite run_requireAuth, Hsession.
  - unfold outcome. by rewrite run_getCurrentTeacherId, Hsession.
  - unfold exec. rewrite run_logout. by page.
Qed.

(** X7.  After a registration that returned the teacher [t]: a second
    registration under a username equal to the stored one up to case, and
    otherwise valid, fails with the conflict message and stores nothing.
    When the username was typed without blanks around it, a login with
    the same credentials returns the session of the new teacher, and so
    does the login the registration called, once it resumes: it opens
    that session and is pending no more. *)
Theorem register_then_same_name
    (B : Browser) (username password : string) (w w' : World) (t : Teacher.t) :
  run (register username password) w = (Ok t, w') →
  let session := Session.mk (Teacher.id t) (Teacher.username t) (Teacher.createdAt t) in
  (∀ username' password',
     same_ci (Teacher.username t) username' →
     username' ≠ "" → 3 ≤ String.length (trim username') → 4 ≤ String.length password' →
     fails (register username' password') "Username already exists. Please choose another one." w'
     ∧ teachersOf (exec (register username' password') w') = teachersOf w')
  ∧ (trim username = username →
     outcome (login username password) w' = Ok session
     ∧ sessionOf (exec (resumeLogin (length (pending w))) w') = Some session
     ∧ pending (exec (resumeLogin (length (pending w))) w') = pending w).
Proof.
  intros (Hu & Hp & Hfree & Ht & Hteachers & _ & _ & Hpending & _)%register_returns session.
  split.
  - intros username' password' Hsame Hne Hlong Hlong'.
    assert (fails (register username' password')
              "Username already exists. Please choose another one." w') as Hfails.
    { unfold fails. rewrite register_run.
      apply truthy_true in Hne as ->. apply Nat.ltb_ge in Hlong as ->. cbn [negb orb].
      assert (truthy password' = true) as ->.
      { apply truthy_true. intros ->. cbn in Hlong'. lia. }
      apply Nat.ltb_ge in Hlong' as ->. cbn [negb orb].
      destruct (find _ (teachersOf w')) as [t0|] eqn:Hfind; [done|].
      rewrite find_None_all in Hfind.
      assert (t ∈ teachersOf w') as Hin by (rewrite Hteachers; set_solver).
      apply username_test in Hsame. by rewrite (Hfind t Hin) in Hsame. }
    split; [done|]. unfold exec. rewrite Hfails. by page.
  - intros Htrim.
    assert (credentials_fit username password t) as Hfit.
    { rewrite Ht. unfold credentials_fit, registered, same_ci. cbn. by rewrite Htrim. }
    split.
    { unfold outcome.
      by rewrite (login_last username password t (teachersOf w)). }
    assert (run (resumeLogin (length (pending w))) w'
            = (Ok tt, exec (login username password)
                           (set_pending (delete (length (pending w))) w'))) as Hresume.
    { unfold run, resumeLogin. rewrite Hpending.
      rewrite lookup_app_r by lia. by rewrite Nat.sub_diag. }
    unfold exec at 1 2. rewrite Hresume. cbn [snd]. unfold exec.
    rewrite (login_last username password t (teachersOf w));
      [| done | done | by page | done | done].
    cbv zeta. cbn [snd]. split; [by page|].
    unfold exec. rewrite run_showMessage, run_setCurrentUser.
    cbn [snd pending set_messages set_localStorage set_pending].
    by rewrite Hpending, delete_middle, app_nil_r.
Qed.

(** X8.  A registration under a username typed without blanks around it
    keeps the stored usernames distinct up to case, whether it succeeds or
    fails. *)
Theorem register_keeps_usernames_distinct
    (B : Browser) (username password : string) (w : World) :
  trim username = username →
  distinctUsernames (teachersOf w) →
  distinctUsernames (teachersOf (exec (register username password) w)).
Proof.
  intros Htrim Hdistinct.
  destruct (run (register username password) w) as [[t|e] w'] eqn:Hrun.
  - unfold exec. rewrite Hrun. cbn [snd].
    apply register_returns in Hrun as (_ & _ & Hfree & Ht & -> & _).
    assert (Teacher.username t = username) as Hname by (by rewrite Ht).
    intros i j t1 t2 Hi Hj Hsame.
    apply lookup_app_Some in Hi as [Hi | [Hi1 Hi2]], Hj as [Hj | [Hj1 Hj2]].
    + by apply (Hdistinct i j t1 t2).
    + apply list_lookup_singleton_Some in Hj2 as [Hj2 <-].
      rewrite Hname in Hsame. destruct (Hfree t1); [by eapply list_elem_of_lookup_2 | done].
    + apply list_lookup_singleton_Some in Hi2 as [Hi2 <-].
      rewrite Hname in Hsame. destruct (Hfree t2); [by eapply list_elem_of_lookup_2 |].
      unfold same_ci in *. congruence.
    + apply list_lookup_singleton_Some in Hi2 as [Hi2 _].
      apply list_lookup_singleton_Some in Hj2 as [Hj2 _]. lia.
  - unfold exec. rewrite Hrun. cbn [snd].
    apply register_throws in Hrun as ->. by page.
Qed.

(** ** The demo data *)

Lemma run_sampleTeacher (id username : string) (w : World) :
  run (sampleTeacher id username) w = (Ok (Teacher.mk id username demoDigest (clock w)), w).
Proof. reflexivity. Qed.

Lemma run_sampleStudent (id teacherId name studentId course : string) (year : Z)
    (status : string) (w : World) :
  run (sampleStudent id teacherId name studentId course year status) w
  = (Ok (Student.mk id teacherId name studentId course (Num year) status (clock w)), w).
Proof. reflexivity. Qed.

(** [loadSampleData], case by case. *)
Lemma loadSampleData_run (w : World) :
  run loadSampleData w =
  if (0 <? length (teachersOf w)) || (0 <? length (studentsOf w)) then (Ok tt, w)
  else
    (Ok tt,
     exec (saveStudents (demoStudents (clock w)))
          (exec (saveTeachers (demoTeachers (clock w)))
                (exec (showMessage "Loading demo data for first-time setup..." "info") w))).
Proof.
  unfold loadSampleData. rewrite run_bind, run_getTeachers. cbv beta iota.
  rewrite run_bind, run_getStudents. cbv beta iota.
  destruct ((0 <? length (teachersOf w)) || (0 <? length (studentsOf w))); [reflexivity|].
  rewrite run_bind, run_showMessage. cbv beta iota.
  repeat (rewrite run_bind, ?run_sampleTeacher, ?run_sampleStudent; cbv beta iota).
  reflexivity.
Qed.

Lemma loadSampleData_skips (w : World) :
  teachersOf w ≠ [] ∨ studentsOf w ≠ [] → run loadSampleData w = (Ok tt, w).
Proof.
  intros Hstored. rewrite loadSampleData_run.
  destruct (teachersOf w), (studentsOf w); cbn; try done. by destruct Hstored.
Qed.

Lemma loadSampleData_loads (w : World) :
  teachersOf w = [] → studentsOf w = [] →
  teachersOf (exec loadSampleData w) = demoTeachers (clock w)
  ∧ studentsOf (exec loadSampleData w) = demoStudents (clock w)
  ∧ sessionOf (exec loadSampleData w) = sessionOf w
  ∧ messages (exec loadSampleData w)
    = messages w ++ [("Loading demo data for first-time setup...", "info")].
Proof.
  intros Ht Hs. unfold exec at 1 2 3 4. rewrite loadSampleData_run, Ht, Hs. cbn [length Nat.ltb Nat.leb orb].
  split_and!; by page.
Qed.

Lemma demoStudents_referenced (now : string) (s : Student.t) :
  s ∈ demoStudents now → ∃ t, t ∈ demoTeachers now ∧ Teacher.id t = Student.teacherId s.
Proof.
  intros Hs. unfold demoStudents in Hs.
  repeat (apply elem_of_cons in Hs as [-> | Hs]); cbn [Student.teacherId];
    [..| by apply elem_of_nil in Hs];
    first [ exists (Teacher.mk "teacher-1" "Teacher1" demoDigest now); split; [repeat constructor | done]
          | exists (Teacher.mk "teacher-2" "Teacher2" demoDigest now); split; [repeat constructor | done]
          | exists (Teacher.mk "teacher-3" "Teacher3" demoDigest now); split; [repeat constructor | done] ].
Qed.

(** X9.  [App.loadSampleData] writes only into an empty store: with a
    teacher or a student stored it changes nothing at all, so calling it
    again after it has loaded the data changes nothing.  Into an empty
    store it puts three teachers and ten students: every student belongs
    to one of the three teachers, the students' ids are distinct, their
    statuses valid, and every teacher carries the same digest; the
    session is untouched and one alert announces the load. *)
Theorem loadSampleData_fills_empty_store (w : World) :
  let after := exec loadSampleData w in
  (teachersOf w ≠ [] ∨ studentsOf w ≠ [] → after = w)
  ∧ (teachersOf w = [] → studentsOf w = [] →
     Teacher.username <$> teachersOf after = ["Teacher1"; "Teacher2"; "Teacher3"]
     ∧ length (studentsOf after) = 10
     ∧ Forall (λ t, Teacher.password t = demoDigest) (teachersOf after)
     ∧ (∀ s, s ∈ studentsOf after →
             ∃ t, t ∈ teachersOf after ∧ Teacher.id t = Student.teacherId s)
     ∧ NoDup (Student.id <$> studentsOf after)
     ∧ Forall statusOk (studentsOf after)
     ∧ sessionOf after = sessionOf w
     ∧ messages after = messages w ++ [("Loading demo data for first-time setup...", "info")])
  ∧ exec loadSampleData after = after.
Proof.
  intros after.
  assert (teachersOf w ≠ [] ∨ studentsOf w ≠ [] → after = w) as Hskip.
  { intros Hstored. unfold after, exec. by rewrite loadSampleData_skips. }
  split; [done|].
  assert (teachersOf w = [] → studentsOf w = [] → teachersOf after = demoTeachers (clock w))
    as Hteachers by (intros Ht Hs; by destruct (loadSampleData_loads w Ht Hs) as (? & _)).
  split.
  - intros Ht Hs. unfold after.
    destruct (loadSampleData_loads w Ht Hs) as (-> & -> & -> & ->).
    split_and!; try done.
    + repeat constructor; done.
    + apply demoStudents_referenced.
    + apply (bool_decide_unpack _). vm_compute. exact I.
    + repeat constructor; unfold statusOk; cbn; tauto.
  - destruct (teachersOf w) as [|t ts] eqn:Ht.
    + destruct (studentsOf w) as [|s ss] eqn:Hs.
      * unfold exec at 1. rewrite loadSampleData_skips; [done|]. left.
        by rewrite (Hteachers eq_refl eq_refl).
      * rewrite Hskip by (by right). unfold exec. rewrite loadSampleData_skips; [done|].
        right. by rewrite Hs.
    + rewrite Hskip by (by left). unfold exec. rewrite loadSampleData_skips; [done|].
      left. by rewrite Ht.
Qed.

(** ** The digest without [crypto.subtle] is short *)

Lemma hexDigits_length (fuel k : nat) (n : Z) (acc : string) :
  (0 ≤ n < 16 ^ Z.of_nat k)%Z →
  String.length (hexDigits fuel n acc) ≤ max 1 k + String.length acc.
Proof.
  revert k n acc. induction fuel as [|fuel IH]; intros k n acc Hn; cbn [hexDigits]; [lia|].
  destruct (Z.ltb_spec n 16) as [Hsmall|Hbig]; [cbn [String.length]; lia|].
  destruct k as [|[|k]].
  - cbn in Hn. lia.
  - cbn in Hn. lia.
  - specialize (IH (S k) (n / 16)%Z (String (hexDigit (n mod 16)) acc)).
    cbn [String.length] in IH. etransitivity; [apply IH|lia].
    split; [apply Z.div_pos; lia|]. apply Z.div_lt_upper_bound; [lia|].
    rewrite Nat2Z.inj_succ, Z.pow_succ_r in Hn by lia. lia.
Qed.

Lemma toString16_length (z : Z) :
  (- 2 ^ 31 ≤ z < 2 ^ 31)%Z → String.length (toString16 z) ≤ 9.
Proof.
  intros Hz. unfold toString16.
  assert (∀ fuel n, (0 ≤ n ≤ 2 ^ 31)%Z → String.length (hexDigits fuel n "") ≤ 8) as Hlen.
  { intros fuel n Hn. apply (hexDigits_length fuel 8 n "").
    change (16 ^ Z.of_nat 8)%Z with (2 ^ 32)%Z. lia. }
  destruct (Z.ltb_spec z 0) as [Hneg|Hpos].
  - change ("-" +:+ ?s) with (String "-" s). cbn [String.length].
    specialize (Hlen (S (Z.to_nat (Z.log2 (- z)))) (- z)%Z). lia.
  - specialize (Hlen (S (Z.to_nat (Z.log2 z))) z). lia.
Qed.

Lemma toInt32_range (z : Z) : (- 2 ^ 31 ≤ toInt32 z < 2 ^ 31)%Z.
Proof.
  unfold toInt32. pose proof (Z.mod_pos_bound (z + 2 ^ 31) (2 ^ 32) ltac:(lia)). lia.
Qed.

Lemma fallback_digest_short {browser : Browser} (password : string) :
  crypto_subtle = None → String.length (digest password) ≤ 9.
Proof.
  intros Hnone. rewrite fallback_digest by done. apply toString16_length, toInt32_range.
Qed.

(** X10.  On a page where the demo data has just been loaded into an empty
    store: where the digest of 123456 is the stored one, a login as
    Teacher1 (in any case) with that password opens the session of
    teacher-1; where [crypto.subtle] is missing, a digest has at most nine
    characters, so no username and no password log in to a demo account. *)
Theorem demo_accounts_need_crypto (B : Browser) (w : World) :
  teachersOf w = [] → studentsOf w = [] →
  let demo := exec loadSampleData w in
  (digest "123456" = demoDigest →
   ∀ username, username ≠ "" → same_ci "Teacher1" username →
     outcome (login username "123456") demo = Ok (Session.mk "teacher-1" "Teacher1" (clock w)))
  ∧ (crypto_subtle = None →
     ∀ username password,
       String.length (digest password) ≤ 9
       ∧ ∀ u w', run (login username password) demo ≠ (Ok u, w')).
Proof.
  intros Ht Hs demo. destruct (loadSampleData_loads w Ht Hs) as (Hteachers & _).
  fold demo in Hteachers. split.
  - intros Hdigest username Hne Hsame. unfold outcome.
    rewrite login_run by done. rewrite Hteachers. cbn [demoTeachers find Teacher.username Teacher.password].
    rewrite Hdigest, String.eqb_refl.
    unfold same_ci in Hsame. rewrite Hsame, String.eqb_refl. done.
  - intros Hnone username password.
    pose proof (fallback_digest_short password Hnone) as Hshort. split; [done|].
    intros u w' (t & Hin & [_ Hpass] & _)%login_returns.
    rewrite Hteachers in Hin. rewrite <- Hpass in Hshort.
    unfold demoTeachers in Hin.
    repeat (apply elem_of_cons in Hin as [-> | Hin]); [..| by apply elem_of_nil in Hin];
      cbn in Hshort; lia.
Qed.

(** ** What a handler leaves behind *)

Section Effects.
Context {browser : Browser}.

(** With no search and no filter the rows are the teacher's records. *)
Lemma listed_all (teacher : string) (students : list Student.t) :
  filter (listed teacher "" "") students
  = filter (λ s, Student.teacherId s = teacher) students.
Proof.
  apply list_filter_iff. intros s. unfold listed. split; [by intros [? _] | done].
Qed.

(** Rendering for a logged-in teacher: the rows and the cards. *)
Lemma renderStudentsTable_run (teacher searchQuery courseFilter : string) (w : World) :
  loggedIn w teacher →
  let rows := filter (listed teacher searchQuery courseFilter) (studentsOf w) in
  run (renderStudentsTable searchQuery courseFilter) w =
  (Ok tt,
   set_table rows
     (set_counters (Stats.mk (length rows) (howMany "Present" rows)
                             (howMany "Absent" rows) (howMany "Unmarked" rows)) w)).
Proof.
  intros [Hid Hne]%loggedIn_session rows. unfold renderStudentsTable.
  rewrite run_bind, run_getCurrentTeacherId, Hid. cbv beta iota.
  cbn [truthy_or_null]. apply truthy_true in Hne as Htruthy. rewrite Htruthy. cbn [negb].
  rewrite run_bind, run_getStudents. cbv beta iota zeta.
  rewrite run_bind, run_updateStats. cbv beta iota. rewrite run_modify.
  match goal with
  | |- (Ok tt, set_table ?l _) = _ => assert (l = rows) as ->; [|reflexivity]
  end.
  unfold rows. rewrite <- (filter_bool_Prop _ _ _ (listed_test teacher searchQuery courseFilter)).
  destruct (truthy searchQuery), (truthy courseFilter); cbn [negb orb];
    rewrite ?filter_filter_bool; apply filter_ext; intros s;
    destruct (strict_eq (Student.teacherId s) (Some teacher)); cbn [andb];
    rewrite ?andb_true_r; reflexivity.
Qed.

(** A world that differs from one where [teacher] is logged in by the
    table and the cards of a fresh rendering. *)
Lemma rendered_refreshed (teacher : string) (w : World) :
  loggedIn w teacher → refreshed teacher (exec (renderStudentsTable "" "") w).
Proof.
  intros Hin. unfold exec. rewrite (renderStudentsTable_run teacher "" "" w Hin). cbv zeta.
  cbn [snd]. unfold refreshed. cbn [table counters set_table set_counters].
  autorewrite with page. by rewrite listed_all.
Qed.

Lemma rendered_frame (searchQuery courseFilter : string) (w : World) :
  localStorage (exec (renderStudentsTable searchQuery courseFilter) w) = localStorage w
  ∧ messages (exec (renderStudentsTable searchQuery courseFilter) w) = messages w
  ∧ currentDeleteId (exec (renderStudentsTable searchQuery courseFilter) w) = currentDeleteId w.
Proof.
  unfold exec.
  destruct (renderStudentsTable_frame searchQuery courseFilter w) as (rows & stats & ->).
  done.
Qed.

Lemma loggedIn_storage (teacher : string) (w w' : World) :
  localStorage w' = localStorage w → loggedIn w teacher → loggedIn w' teacher.
Proof.
  intros Heq. rewrite !loggedIn_session. by rewrite (sessionOf_storage _ _ Heq).
Qed.

End Effects.

Section HandlerEffects.
Context {browser : Browser}.

Lemma exec_generateId (w : World) : ∃ e, exec generateId w = set_entropy e w.
Proof. destruct (run_generateId w) as [e He]. exists e. unfold exec. by rewrite He. Qed.

(** What [handleAddStudent] leaves: the teachers, the session and the
    pending deletion as they were; the students as they were, or with the
    new record at the end and the table refreshed. *)
Lemma add_effect (e : AddStudentForm) (w : World) :
  let after := exec (handleAddStudent e) w in
  teachersOf after = teachersOf w
  ∧ sessionOf after = sessionOf w
  ∧ currentDeleteId after = currentDeleteId w
  ∧ (studentsOf after = studentsOf w
     ∨ ∃ teacher,
         loggedIn w teacher
         ∧ (∀ s, s ∈ studentsOf w → ¬ taken_by teacher (trim (studentIdInput e)) s)
         ∧ studentsOf after
           = studentsOf w ++
             [Student.mk (freshId w) teacher (trim (studentName e)) (trim (studentIdInput e))
                         (studentCourse e) (parseInt (studentYear e)) "Unmarked" (clock w)]
         ∧ refreshed teacher after).
Proof.
  intros after.
  assert (∀ msg, after = exec (showMessage msg "error") w →
     teachersOf after = teachersOf w ∧ sessionOf after = sessionOf w
     ∧ currentDeleteId after = currentDeleteId w
     ∧ (studentsOf after = studentsOf w ∨ False)) as Hrejected.
  { intros msg ->. split_and!; [by page..|left; by page]. }
  assert (∀ P : Prop, (∃ msg, after = exec (showMessage msg "error") w) →
     teachersOf after = teachersOf w ∧ sessionOf after = sessionOf w
     ∧ currentDeleteId after = currentDeleteId w
     ∧ (studentsOf after = studentsOf w ∨ P)) as Hcase.
  { intros P [msg Hmsg]. destruct (Hrejected msg Hmsg) as (? & ? & ? & [?|[]]). tauto. }
  destruct (Session.id <$> sessionOf w) as [teacher|] eqn:Hid.
  2:{ apply Hcase. eexists. unfold after, exec, handleAddStudent.
      rewrite run_bind, run_getCurrentTeacherId, Hid. cbv beta iota.
      cbn [truthy_or_null negb]. reflexivity. }
  destruct (decide (teacher = "")) as [->|Hne].
  { apply Hcase. eexists. unfold after, exec, handleAddStudent.
    rewrite run_bind, run_getCurrentTeacherId, Hid. cbv beta iota.
    cbn [truthy_or_null truthy String.eqb negb]. reflexivity. }
  assert (loggedIn w teacher) as Hin by (by apply loggedIn_session).
  pose proof (handleAddStudent_run e teacher w Hin) as Hrun. cbv zeta in Hrun.
  destruct (negb _ || _ || _ || _).
  { apply Hcase. eexists. unfold after, exec. by rewrite Hrun. }
  destruct (find _ (studentsOf w)) as [dup|] eqn:Hfind.
  { apply Hcase. eexists. unfold after, exec. by rewrite Hrun. }
  destruct (exec_generateId w) as [ent Hgen]. rewrite Hgen in Hrun.
  match type of Hrun with
  | _ = run _ ?x => set (w1 := x) in *
  end.
  assert (after = exec (renderStudentsTable "" "") w1) as Hafter.
  { unfold after, exec. by rewrite Hrun. }
  destruct (rendered_frame "" "" w1) as (Hstorage & _ & Hpending).
  rewrite <- Hafter in Hstorage, Hpending.
  assert (localStorage w1
          = <["attendance_students" := Json (StudentArray (studentsOf w ++
               [Student.mk (freshId w) teacher (trim (studentName e)) (trim (studentIdInput e))
                  (studentCourse e) (parseInt (studentYear e)) "Unmarked" (clock w)]))]>
              (localStorage w)) as Hw1 by reflexivity.
  assert (loggedIn w1 teacher) as Hin1.
  { apply loggedIn_session. apply loggedIn_session in Hin as [Hs ?]. split; [|done].
    rewrite <- Hs. f_equal. unfold w1. by page. }
  split_and!.
  - rewrite (teachersOf_storage _ _ Hstorage). unfold w1. by page.
  - rewrite (sessionOf_storage _ _ Hstorage). unfold w1. by page.
  - rewrite Hpending. reflexivity.
  - right. exists teacher. split_and!; [done | | |].
    + intros s Hs Htaken%taken_test. rewrite find_None_all in Hfind.
      by rewrite (Hfind s Hs) in Htaken.
    + rewrite (studentsOf_storage _ _ Hstorage). unfold w1. by page.
    + rewrite Hafter. by apply rendered_refreshed.
Qed.

(** What [handleEditStudent] leaves. *)
Lemma edit_effect (e : EditStudentForm) (w : World) :
  let after := exec (handleEditStudent e) w in
  let studentId := trim (editStudentIdInput e) in
  teachersOf after = teachersOf w
  ∧ sessionOf after = sessionOf w
  ∧ currentDeleteId after = currentDeleteId w
  ∧ (studentsOf after = studentsOf w
     ∨ ∃ i current,
         firstWithId (editStudentId e) (studentsOf w) i current
         ∧ (∀ s, s ∈ studentsOf w → Student.id s ≠ editStudentId e →
                 Session.id <$> sessionOf w = Some (Student.teacherId s) →
                 ¬ same_ci (Student.studentId s) studentId)
         ∧ studentsOf after
           = <[i := withFields (trim (editStudentName e)) studentId (editStudentCourse e)
                               (parseInt (editStudentYear e)) current]> (studentsOf w)
         ∧ ∀ teacher, loggedIn w teacher → refreshed teacher after).
Proof.
  intros after studentId.
  assert (∀ P : Prop, (∃ msg, after = exec (showMessage msg "error") w) →
     teachersOf after = teachersOf w ∧ sessionOf after = sessionOf w
     ∧ currentDeleteId after = currentDeleteId w
     ∧ (studentsOf after = studentsOf w ∨ P)) as Hcase.
  { intros P [msg ->]. split_and!; [by page..|left; by page]. }
  pose proof (handleEditStudent_run e w) as Hrun. cbv zeta in Hrun.
  destruct (negb _ || _ || _ || _).
  { apply Hcase. eexists. unfold after, exec. by rewrite Hrun. }
  destruct (findIndex _ (studentsOf w)) as [i|] eqn:Hi.
  2:{ apply Hcase. eexists. unfold after, exec. by rewrite Hrun. }
  destruct (find _ (studentsOf w)) as [dup|] eqn:Hfind.
  { apply Hcase. eexists. unfold after, exec. by rewrite Hrun. }
  destruct (studentsOf w !! i) as [current|] eqn:Hcurrent.
  2:{ apply Hcase. eexists. unfold after, exec. by rewrite Hrun. }
  match type of Hrun with
  | _ = run _ ?x => set (w1 := x) in *
  end.
  assert (after = exec (renderStudentsTable "" "") w1) as Hafter.
  { unfold after, exec. by rewrite Hrun. }
  destruct (rendered_frame "" "" w1) as (Hstorage & _ & Hpending).
  rewrite <- Hafter in Hstorage, Hpending.
  split_and!.
  - rewrite (teachersOf_storage _ _ Hstorage). unfold w1. by page.
  - rewrite (sessionOf_storage _ _ Hstorage). unfold w1. by page.
  - rewrite Hpending. reflexivity.
  - right. exists i, current. split_and!.
    + assert (∃ s, firstWithId (editStudentId e) (studentsOf w) i s) as [s Hs].
      { by apply findIndex_firstWithId. }
      destruct Hs as (Hs & ?). by assert (s = current) as <- by congruence.
    + intros s Hs Hne Hteacher Hsame. rewrite find_None_all in Hfind.
      assert (negb (String.eqb (Student.id s) (editStudentId e))
              && strict_eq (Student.teacherId s) (Session.id <$> sessionOf w)
              && String.eqb (toLowerCase (Student.studentId s)) (toLowerCase studentId) = true)
        as Htest by (by apply collides_test).
      pose proof (Hfind s Hs) as Hnone. cbv beta in Hnone. unfold studentId in Htest.
      congruence.
    + rewrite (studentsOf_storage _ _ Hstorage). unfold w1. by page.
    + intros teacher Hin. rewrite Hafter. apply rendered_refreshed.
      apply loggedIn_session. apply loggedIn_session in Hin as [Hs ?]. split; [|done].
      rewrite <- Hs. f_equal. unfold w1. by page.
Qed.

(** What [handleToggleAttendance] leaves. *)
Lemma toggle_effect (id : string) (w : World) :
  let after := exec (handleToggleAttendance id) w in
  teachersOf after = teachersOf w
  ∧ sessionOf after = sessionOf w
  ∧ currentDeleteId after = currentDeleteId w
  ∧ (studentsOf after = studentsOf w
     ∨ ∃ i current,
         firstWithId id (studentsOf w) i current
         ∧ studentsOf after
           = <[i := withStatus (flipped (Student.status current)) current]> (studentsOf w)
         ∧ ∀ teacher, loggedIn w teacher → refreshed teacher after).
Proof.
  intros after.
  assert (∀ P : Prop, (∃ msg, after = exec (showMessage msg "error") w) →
     teachersOf after = teachersOf w ∧ sessionOf after = sessionOf w
     ∧ currentDeleteId after = currentDeleteId w
     ∧ (studentsOf after = studentsOf w ∨ P)) as Hcase.
  { intros P [msg ->]. split_and!; [by page..|left; by page]. }
  pose proof (handleToggleAttendance_run id w) as Hrun.
  destruct (findIndex _ (studentsOf w)) as [i|] eqn:Hi.
  2:{ apply Hcase. eexists. unfold after, exec. by rewrite Hrun. }
  destruct (studentsOf w !! i) as [current|] eqn:Hcurrent.
  2:{ apply Hcase. eexists. unfold after, exec. by rewrite Hrun. }
  match type of Hrun with
  | _ = run _ ?x => set (w1 := x) in *
  end.
  assert (after = exec (renderStudentsTable "" "") w1) as Hafter.
  { unfold after, exec. by rewrite Hrun. }
  destruct (rendered_frame "" "" w1) as (Hstorage & _ & Hpending).
  rewrite <- Hafter in Hstorage, Hpending.
  split_and!.
  - rewrite (teachersOf_storage _ _ Hstorage). unfold w1. by page.
  - rewrite (sessionOf_storage _ _ Hstorage). unfold w1. by page.
  - rewrite Hpending. reflexivity.
  - right. exists i, current. split_and!.
    + assert (∃ s, firstWithId id (studentsOf w) i s) as [s Hs].
      { by apply findIndex_firstWithId. }
      destruct Hs as (Hs & ?). by assert (s = current) as <- by congruence.
    + rewrite (studentsOf_storage _ _ Hstorage). unfold w1. by page.
    + intros teacher Hin. rewrite Hafter. apply rendered_refreshed.
      apply loggedIn_session. apply loggedIn_session in Hin as [Hs ?]. split; [|done].
      rewrite <- Hs. f_equal. unfold w1. by page.
Qed.

(** What [handleDeleteConfirm] leaves. *)
Lemma confirm_effect (w : World) :
  let after := exec handleDeleteConfirm w in
  teachersOf after = teachersOf w
  ∧ sessionOf after = sessionOf w
  ∧ (studentsOf after = studentsOf w ∧ currentDeleteId after = currentDeleteId w
     ∨ ∃ id,
         currentDeleteId w = Some id ∧ id ≠ ""
         ∧ (∃ s, s ∈ studentsOf w ∧ Student.id s = id)
         ∧ studentsOf after = filter (λ s, Student.id s ≠ id) (studentsOf w)
         ∧ currentDeleteId after = None
         ∧ ∀ teacher, loggedIn w teacher → refreshed teacher after).
Proof.
  intros after.
  assert (∀ P : Prop, (after = w ∨ ∃ msg, after = exec (showMessage msg "error") w) →
     teachersOf after = teachersOf w ∧ sessionOf after = sessionOf w
     ∧ (studentsOf after = studentsOf w ∧ currentDeleteId after = currentDeleteId w ∨ P))
    as Hcase.
  { intros P [Heq | [msg Heq]]; rewrite Heq.
    - split_and!; [done | done | by left].
    - split_and!; [by page | by page | left; split; by page]. }
  destruct (currentDeleteId w) as [id|] eqn:Hpending.
  2:{ apply Hcase. left. unfold after, exec. rewrite handleDeleteConfirm_idle by by left. done. }
  destruct (decide (id = "")) as [->|Hne].
  { apply Hcase. left. unfold after, exec. rewrite handleDeleteConfirm_idle by by right. done. }
  pose proof (handleDeleteConfirm_run id w Hpending Hne) as Hrun.
  destruct (findIndex _ (studentsOf w)) as [i|] eqn:Hi.
  2:{ apply Hcase. right. eexists. unfold after, exec. by rewrite Hrun. }
  destruct (studentsOf w !! i) as [current|] eqn:Hcurrent.
  2:{ apply Hcase. right. eexists. unfold after, exec. by rewrite Hrun. }
  match type of Hrun with
  | _ = run _ ?x => set (w1 := x) in *
  end.
  assert (after = exec (renderStudentsTable "" "") w1) as Hafter.
  { unfold after, exec. by rewrite Hrun. }
  destruct (rendered_frame "" "" w1) as (Hstorage & _ & Hpending1).
  rewrite <- Hafter in Hstorage, Hpending1.
  split_and!.
  - rewrite (teachersOf_storage _ _ Hstorage). unfold w1. by page.
  - rewrite (sessionOf_storage _ _ Hstorage). unfold w1. by page.
  - right. exists id. split_and!; [done | done | | | |].
    + exists current. split; [by eapply list_elem_of_lookup_2|].
      apply findIndex_Some in Hi as (s & Hs & Htest%id_test & _). congruence.
    + rewrite (studentsOf_storage _ _ Hstorage). unfold w1. page.
      apply filter_bool_Prop. intros s. by rewrite negb_true_iff, id_test_false.
    + rewrite Hpending1. reflexivity.
    + intros teacher Hin. rewrite Hafter. apply rendered_refreshed.
      apply loggedIn_session. apply loggedIn_session in Hin as [Hs ?]. split; [|done].
      rewrite <- Hs. f_equal. unfold w1. by page.
Qed.

End HandlerEffects.

(** X11.  For a logged-in teacher, whenever an add, an edit, a toggle or a
    confirmed deletion changes the stored students, the table shows all
    the teacher's records of the new collection, whatever search or filter
    was displayed before, and the cards count the rows of the table. *)
Theorem handlers_refresh_table (B : Browser) (teacher : string) (w : World) :
  loggedIn w teacher →
  (∀ e, studentsOf (exec (handleAddStudent e) w) ≠ studentsOf w →
        refreshed teacher (exec (handleAddStudent e) w))
  ∧ (∀ e, studentsOf (exec (handleEditStudent e) w) ≠ studentsOf w →
          refreshed teacher (exec (handleEditStudent e) w))
  ∧ (∀ id, studentsOf (exec (handleToggleAttendance id) w) ≠ studentsOf w →
           refreshed teacher (exec (handleToggleAttendance id) w))
  ∧ (studentsOf (exec handleDeleteConfirm w) ≠ studentsOf w →
     refreshed teacher (exec handleDeleteConfirm w)).
Proof.
  intros Hin. split_and!.
  - intros e Hchanged.
    destruct (add_effect e w) as (_ & _ & _ & [Hsame | (teacher' & Hin' & _ & _ & Hfresh)]);
      [done|].
    apply loggedIn_session in Hin as [Hid _], Hin' as [Hid' _].
    by assert (teacher' = teacher) as <- by congruence.
  - intros e Hchanged.
    destruct (edit_effect e w) as (_ & _ & _ & [Hsame | (i & current & _ & _ & _ & Hfresh)]);
      [done | by apply Hfresh].
  - intros id Hchanged.
    destruct (toggle_effect id w) as (_ & _ & _ & [Hsame | (i & current & _ & _ & Hfresh)]);
      [done | by apply Hfresh].
  - intros Hchanged.
    destruct (confirm_effect w) as (_ & _ & [[Hsame _] | (id & _ & _ & _ & _ & _ & Hfresh)]);
      [done | by apply Hfresh].
Qed.

(** ** Distinct identifiers and studentIds *)

Lemma fmap_insert_same {A B : Type} (f : A → B) (l : list A) (i : nat) (x y : A) :
  l !! i = Some x → f y = f x → f <$> <[i:=y]> l = f <$> l.
Proof.
  intros Hx Hf. rewrite list_fmap_insert. apply list_insert_id.
  by rewrite list_lookup_fmap, Hx, Hf.
Qed.

(** A member of a list with one element replaced: the new element, or a
    member of the list at another index. *)
Lemma elem_of_insert_cases {A : Type} (l : list A) (i : nat) (x y : A) :
  x ∈ <[i:=y]> l → x = y ∨ ∃ j, j ≠ i ∧ l !! j = Some x.
Proof.
  intros [j Hj]%list_elem_of_lookup.
  apply list_lookup_insert_Some in Hj as [(_ & -> & _) | (Hne & Hj)]; [by left|].
  right. exists j. split; [done | done].
Qed.

Section Distinct.
Context {browser : Browser}.

Lemma same_ci_sym (a b : string) : same_ci a b → same_ci b a.
Proof. unfold same_ci. congruence. Qed.

(** [distinctRoster] looks at the identifier, the teacher and the studentId
    of each record only. *)
Lemma distinctRoster_same_keys (l l' : list Student.t) :
  Student.id <$> l' = Student.id <$> l →
  Student.teacherId <$> l' = Student.teacherId <$> l →
  Student.studentId <$> l' = Student.studentId <$> l →
  distinctRoster l → distinctRoster l'.
Proof.
  intros Hid Hteacher Hsid [Hnodup Hdistinct]. split; [by rewrite Hid|].
  assert (∀ s, s ∈ l' → ∃ s0, s0 ∈ l ∧ Student.id s0 = Student.id s
                             ∧ Student.teacherId s0 = Student.teacherId s
                             ∧ Student.studentId s0 = Student.studentId s) as Hback.
  { intros s [j Hj]%list_elem_of_lookup.
    assert ((Student.id <$> l) !! j = Some (Student.id s)) as H1.
    { by rewrite <- Hid, list_lookup_fmap, Hj. }
    assert ((Student.teacherId <$> l) !! j = Some (Student.teacherId s)) as H2.
    { by rewrite <- Hteacher, list_lookup_fmap, Hj. }
    assert ((Student.studentId <$> l) !! j = Some (Student.studentId s)) as H3.
    { by rewrite <- Hsid, list_lookup_fmap, Hj. }
    rewrite list_lookup_fmap in H1, H2, H3.
    destruct (l !! j) as [s0|] eqn:Hs0; [|done].
    exists s0. cbn in *. split; [by eapply list_elem_of_lookup_2|]. split_and!; congruence. }
  intros s1 s2 (s1' & Hs1 & <- & <- & <-)%Hback (s2' & Hs2 & <- & <- & <-)%Hback.
  by apply Hdistinct.
Qed.

Lemma distinctRoster_filter (P : Student.t → Prop) `{!∀ s, Decision (P s)}
    (l : list Student.t) :
  distinctRoster l → distinctRoster (filter P l).
Proof.
  intros [Hnodup Hdistinct]. split.
  - apply (sublist_NoDup _ (Student.id <$> l)); [done|].
    apply fmap_sublist, sublist_filter.
  - intros s1 s2 [_ Hs1]%list_elem_of_filter [_ Hs2]%list_elem_of_filter.
    by apply Hdistinct.
Qed.

(** One operation of a teacher on the teacher's own records. *)
Lemma own_step_distinct (teacher : string) (w w' : World) :
  own_step teacher w w' →
  loggedIn w teacher → distinctRoster (studentsOf w) →
  loggedIn w' teacher ∧ distinctRoster (studentsOf w').
Proof.
  intros Hstep Hin Hroster.
  assert (∀ w', sessionOf w' = sessionOf w → loggedIn w' teacher) as Hstill.
  { intros w1 Hsession. apply loggedIn_session. rewrite Hsession. by apply loggedIn_session. }
  pose proof Hin as [Hsession _]%loggedIn_session.
  destruct Hroster as [Hnodup Hdistinct].
  destruct Hstep as [e w Hnew | e w Hown | id w | id w | w].
  - destruct (add_effect e w) as (_ & Hs & _ & Hstudents). split; [by apply Hstill|].
    destruct Hstudents as [-> | (teacher' & Hin' & Hfree & -> & _)]; [done|].
    apply loggedIn_session in Hin' as [Hid' _].
    assert (teacher' = teacher) as -> by congruence.
    split.
    + rewrite fmap_app. apply NoDup_app. split_and!; [done | | apply NoDup_singleton].
      intros id Hid Heq%list_elem_of_singleton. cbn in Heq. by subst.
    + intros s1 s2 [Hs1 | ->%list_elem_of_singleton]%elem_of_app
                   [Hs2 | ->%list_elem_of_singleton]%elem_of_app; cbn.
      * by apply Hdistinct.
      * intros Hteacher Hsame. destruct (Hfree s1 Hs1). by split.
      * intros Hteacher Hsame. destruct (Hfree s2 Hs2). split; [done | by apply same_ci_sym].
      * done.
  - destruct (edit_effect e w) as (_ & Hs & _ & Hstudents). split; [by apply Hstill|].
    destruct Hstudents as [-> | (i & current & Hfirst & Hfree & -> & _)]; [done|].
    destruct Hfirst as (Hcurrent & Hid & _).
    assert (Student.teacherId current = teacher) as Hteacher.
    { apply Hown; [by eapply list_elem_of_lookup_2 | done]. }
    set (updated := withFields _ _ _ _ current).
    assert (∀ s j, j ≠ i → studentsOf w !! j = Some s → Student.id s ≠ editStudentId e)
      as Hother.
    { intros s j Hne Hj Heq. apply Hne.
      apply (NoDup_lookup _ j i (Student.id s) Hnodup); rewrite list_lookup_fmap.
      - by rewrite Hj.
      - rewrite Hcurrent. cbn. congruence. }
    split.
    + by rewrite (fmap_insert_same Student.id _ i current).
    + intros s1 s2 [-> | (j1 & Hj1 & Hs1)]%elem_of_insert_cases
                   [-> | (j2 & Hj2 & Hs2)]%elem_of_insert_cases; cbn.
      * done.
      * intros Ht Hsame. destruct (Hfree s2); [by eapply list_elem_of_lookup_2 | by eapply Hother | | by apply same_ci_sym].
        rewrite Hsession. f_equal. congruence.
      * intros Ht Hsame. destruct (Hfree s1); [by eapply list_elem_of_lookup_2 | by eapply Hother | | done].
        rewrite Hsession. f_equal. congruence.
      * apply Hdistinct; by eapply list_elem_of_lookup_2.
  - destruct (toggle_effect id w) as (_ & Hs & _ & Hstudents). split; [by apply Hstill|].
    destruct Hstudents as [-> | (i & current & (Hcurrent & _) & -> & _)]; [done|].
    apply (distinctRoster_same_keys (studentsOf w)); [..|done];
      by apply (fmap_insert_same _ _ i current).
  - split; [apply Hstill; unfold handleDeleteStudent; by page|].
    unfold handleDeleteStudent. page. by split.
  - destruct (confirm_effect w) as (_ & Hs & Hstudents). split; [by apply Hstill|].
    destruct Hstudents as [[-> _] | (id & _ & _ & _ & -> & _)]; [done|].
    by apply distinctRoster_filter.
Qed.

End Distinct.

(** X12.  For a logged-in teacher and a collection in which identifiers
    are distinct and no teacher has two records with the same studentId up
    to case: after any sequence of adds (whose generated identifier is
    new), edits of the teacher's own records, toggles and deletions, the
    collection still has both properties and the teacher is still logged
    in. *)
Theorem own_steps_keep_roster_distinct (B : Browser) (teacher : string) (w0 w : World) :
  loggedIn w0 teacher → distinctRoster (studentsOf w0) →
  rtc (own_step teacher) w0 w →
  loggedIn w teacher ∧ distinctRoster (studentsOf w).
Proof.
  intros Hin Hroster Hsteps. induction Hsteps as [|w1 w2 w3 Hstep _ IH]; [done|].
  destruct (own_step_distinct teacher w1 w2 Hstep Hin Hroster) as [Hin2 Hroster2].
  by apply IH.
Qed.

(** ** Every student has a teacher *)

Section Integrity.
Context {browser : Browser}.




Lemma modal_frame (id : string) (w : World) :
  localStorage (exec (handleEditStudentModal id) w) = localStorage w.
Proof.
  unfold exec, handleEditStudentModal.
  rewrite run_bind, run_getCurrentTeacherId. cbv beta iota.
  rewrite run_bind, run_getStudents. cbv beta iota.
  by destruct (find _ (studentsOf w)).
Qed.




End Integrity.


(** ** The records of the other teachers *)

Lemma filter_insert_out {A : Type} (P : A → Prop) `{!∀ x, Decision (P x)}
    (l : list A) (i : nat) (x y : A) :
  l !! i = Some x → ¬ P x → ¬ P y → filter P (<[i:=y]> l) = filter P l.
Proof.
  revert i. induction l as [|z l IH]; intros [|i] Hx Hnx Hny; try done.
  - injection Hx as ->. change (<[0:=y]> (x :: l)) with (y :: l).
    by rewrite !filter_cons_False.
  - change (<[S i:=y]> (z :: l)) with (z :: <[i:=y]> l).
    rewrite !(filter_cons _ z). destruct (decide (P z)); [f_equal|]; by apply IH.
Qed.

Lemma filter_filter_out {A : Type} (P Q : A → Prop)
    `{!∀ x, Decision (P x)} `{!∀ x, Decision (Q x)} (l : list A) :
  (∀ x, x ∈ l → P x → Q x) → filter P (filter Q l) = filter P l.
Proof.
  induction l as [|z l IH]; intros Hall; [done|].
  rewrite (filter_cons Q). destruct (decide (Q z)) as [HQ|HQ].
  - rewrite !filter_cons. destruct (decide (P z)); [f_equal|]; apply IH;
      intros x Hx; apply Hall; by right.
  - rewrite filter_cons_False; [apply IH; intros x Hx; apply Hall; by right|].
    intros HP. apply HQ, Hall; [by left | done].
Qed.

Section Isolation.
Context {browser : Browser}.

(** A row of the table is a stored record of the logged-in teacher. *)
Lemma row_owned (teacher searchQuery courseFilter : string) (w : World) (row : Student.t) :
  loggedIn w teacher →
  row ∈ table (exec (renderStudentsTable searchQuery courseFilter) w) →
  row ∈ studentsOf w ∧ Student.teacherId row = teacher.
Proof.
  intros Hin. unfold exec.
  rewrite (renderStudentsTable_run teacher searchQuery courseFilter w Hin). cbv zeta.
  cbn [snd table set_table]. intros [[Hteacher _] Hrow]%list_elem_of_filter. done.
Qed.

Lemma toggle_others (teacher id : string) (w : World) :
  NoDup (Student.id <$> studentsOf w) →
  (∀ s, s ∈ studentsOf w → Student.id s = id → Student.teacherId s = teacher) →
  others teacher (studentsOf (exec (handleToggleAttendance id) w))
  = others teacher (studentsOf w).
Proof.
  intros Hnodup Hown.
  destruct (toggle_effect id w) as (_ & _ & _ & [-> | (i & current & Hfirst & -> & _)]); [done|].
  destruct Hfirst as (Hcurrent & Hid & _).
  assert (Student.teacherId current = teacher) as Hteacher.
  { apply Hown; [by eapply list_elem_of_lookup_2 | done]. }
  unfold others. by apply (filter_insert_out _ _ i current); [done | intros ? | intros ?].
Qed.

Lemma edit_others (teacher : string) (e : EditStudentForm) (w : World) :
  (∀ s, s ∈ studentsOf w → Student.id s = editStudentId e → Student.teacherId s = teacher) →
  others teacher (studentsOf (exec (handleEditStudent e) w))
  = others teacher (studentsOf w).
Proof.
  intros Hown.
  destruct (edit_effect e w) as (_ & _ & _ & [-> | (i & current & Hfirst & _ & -> & _)]);
    [done|].
  destruct Hfirst as (Hcurrent & Hid & _).
  assert (Student.teacherId current = teacher) as Hteacher.
  { apply Hown; [by eapply list_elem_of_lookup_2 | done]. }
  unfold others. by apply (filter_insert_out _ _ i current); [done | intros ? | intros ?].
Qed.

Lemma add_others (teacher : string) (e : AddStudentForm) (w : World) :
  loggedIn w teacher →
  others teacher (studentsOf (exec (handleAddStudent e) w))
  = others teacher (studentsOf w).
Proof.
  intros [Hid _]%loggedIn_session.
  destruct (add_effect e w) as (_ & _ & _ & [-> | (teacher' & Hin' & _ & -> & _)]); [done|].
  apply loggedIn_session in Hin' as [Hid' _].
  assert (teacher' = teacher) as -> by congruence.
  unfold others. rewrite filter_app, filter_cons_False by (by intros ?).
  by rewrite filter_nil, app_nil_r.
Qed.

Lemma confirm_others (teacher id : string) (w : World) :
  currentDeleteId w = Some id →
  (∀ s, s ∈ studentsOf w → Student.id s = id → Student.teacherId s = teacher) →
  others teacher (studentsOf (exec handleDeleteConfirm w))
  = others teacher (studentsOf w).
Proof.
  intros Hpending Hown.
  destruct (confirm_effect w) as (_ & _ & [[-> _] | (id' & Hpending' & _ & _ & -> & _)]);
    [done|].
  assert (id' = id) as -> by congruence.
  unfold others. apply filter_filter_out. intros s Hs Hother Hid.
  by apply Hother, Hown.
Qed.

End Isolation.

(** X14.  With distinct identifiers in the store and a teacher logged in,
    whatever is done from a row of the teacher's table leaves the records
    of every other teacher exactly as they were: any table action on the
    row, the confirmation of its deletion, the submission of an edit of
    it; and so does any add request. *)
Theorem table_actions_touch_own_records
    (B : Browser) (teacher searchQuery courseFilter : string) (w : World) (row : Student.t) :
  loggedIn w teacher →
  NoDup (Student.id <$> studentsOf w) →
  let page := exec (renderStudentsTable searchQuery courseFilter) w in
  row ∈ table page →
  (∀ action,
     others teacher (studentsOf (exec (handleTableAction action (Student.id row)) page))
     = others teacher (studentsOf w))
  ∧ (Student.id row ≠ "" →
     others teacher
       (studentsOf (exec handleDeleteConfirm
                         (exec (handleTableAction "delete" (Student.id row)) page)))
     = others teacher (studentsOf w))
  ∧ (∀ e, editStudentId e = Student.id row →
          others teacher (studentsOf (exec (handleEditStudent e) page))
          = others teacher (studentsOf w))
  ∧ (∀ e, others teacher (studentsOf (exec (handleAddStudent e) page))
          = others teacher (studentsOf w)).
Proof.
  intros Hin Hnodup page Hrow.
  destruct (row_owned teacher searchQuery courseFilter w row Hin Hrow) as [Hstored Hteacher].
  destruct (rendered_frame searchQuery courseFilter w) as (Hstorage & _ & _).
  fold page in Hstorage.
  pose proof (studentsOf_storage _ _ Hstorage) as Hstudents.
  assert (loggedIn page teacher) as Hin' by (by apply (loggedIn_storage teacher w)).
  assert (∀ s, s ∈ studentsOf page → Student.id s = Student.id row →
               Student.teacherId s = teacher) as Hown.
  { intros s Hs Hid. rewrite Hstudents in Hs.
    by rewrite (NoDup_fmap_elem Student.id (studentsOf w) s row Hnodup Hs Hstored Hid). }
  rewrite <- Hstudents in Hnodup |- *.
  split_and!.
  - intros action. unfold handleTableAction.
    destruct (negb (truthy action) || negb (truthy (Student.id row))); [done|].
    destruct (String.eqb action "toggle"); [by apply toggle_others|].
    destruct (String.eqb action "edit").
    { by rewrite (studentsOf_storage _ _ (modal_frame (Student.id row) page)). }
    destruct (String.eqb action "delete"); [|done].
    unfold handleDeleteStudent. by page.
  - intros Hid%truthy_true. unfold handleTableAction.
    rewrite Hid. cbn [truthy String.eqb Ascii.eqb Bool.eqb negb orb andb].
    rewrite (confirm_others teacher (Student.id row)).
    + unfold handleDeleteStudent. by page.
    + reflexivity.
    + intros s Hs. apply Hown. revert Hs. unfold handleDeleteStudent. by page.
  - intros e He. apply edit_others. intros s Hs Hid. apply Hown; [done | congruence].
  - intros e. by apply add_others.
Qed.

(** ** A deletion is confirmed once *)

(** X15.  Choosing a record to delete only remembers its identifier.  When
    a record has it, the confirmation removes every record with it and
    forgets the identifier, so that a second confirmation does nothing at
    all; when no record has it, the identifier stays pending and a second
    confirmation shows the not-found message again. *)
Theorem delete_is_confirmed_once (B : Browser) (id : string) (w : World) :
  id ≠ "" →
  let chosen := exec (handleDeleteStudent id) w in
  let once := exec handleDeleteConfirm chosen in
  currentDeleteId chosen = Some id
  ∧ localStorage chosen = localStorage w
  ∧ ((∃ s, s ∈ studentsOf w ∧ Student.id s = id) →
     currentDeleteId once = None
     ∧ (∀ s, s ∈ studentsOf once → Student.id s ≠ id)
     ∧ run handleDeleteConfirm once = (Ok tt, once))
  ∧ ((∀ s, s ∈ studentsOf w → Student.id s ≠ id) →
     currentDeleteId once = Some id
     ∧ rejects handleDeleteConfirm "Student not found" once).
Proof.
  intros Hne chosen once.
  assert (currentDeleteId chosen = Some id) as Hpending by reflexivity.
  assert (studentsOf chosen = studentsOf w) as Hstudents.
  { unfold chosen, handleDeleteStudent. by page. }
  pose proof (handleDeleteConfirm_run id chosen Hpending Hne) as Hrun.
  rewrite Hstudents in Hrun.
  split_and!; [done | done | |].
  - intros Hpresent. destruct (firstWithId_present id _ Hpresent) as (i & current & Hfirst).
    assert (findIndex (λ s, String.eqb (Student.id s) id) (studentsOf w) = Some i) as Hi.
    { apply findIndex_firstWithId. eauto. }
    destruct Hfirst as (Hcurrent & _). rewrite Hi, Hcurrent in Hrun.
    match type of Hrun with
    | _ = run _ ?x => set (w1 := x) in *
    end.
    assert (once = exec (renderStudentsTable "" "") w1) as Honce.
    { unfold once, exec. by rewrite Hrun. }
    destruct (rendered_frame "" "" w1) as (Hstorage & _ & Hpending1).
    rewrite <- Honce in Hstorage, Hpending1.
    assert (currentDeleteId once = None) as Hnone by (by rewrite Hpending1).
    split_and!; [done | | by apply handleDeleteConfirm_idle; left].
    intros s. rewrite (studentsOf_storage _ _ Hstorage). unfold w1. page.
    intros [_ Htest]%list_elem_of_In%filter_In.
    by apply negb_true_iff, id_test_false in Htest.
  - intros Habsent. apply findIndex_absent in Habsent as Hi. rewrite Hi in Hrun.
    assert (once = exec (showMessage "Student not found" "error") chosen) as Honce.
    { unfold once, exec. by rewrite Hrun. }
    assert (currentDeleteId once = Some id) as Hpending1 by (by rewrite Honce).
    split; [done|]. unfold rejects.
    rewrite (handleDeleteConfirm_run id once Hpending1 Hne).
    assert (studentsOf once = studentsOf w) as -> by (rewrite Honce; by page).
    by rewrite Hi.
Qed.

(** * The handlers in full *)

(** ** Running a computation on the page *)

Lemma runPage_ret {A : Type} (a : A) (p : Page) : runPage (mret a) p = (Ok a, p).
Proof. reflexivity. Qed.

Lemma runPage_bind {A B : Type} (m : Dom A) (f : A → Dom B) (p : Page) :
  runPage (m ≫= f) p =
  match runPage m p with
  | (Ok a, p') => runPage (f a) p'
  | (Throw e, p') => (Throw e, p')
  end.
Proof. reflexivity. Qed.

Lemma runPage_tryCatch {A : Type} (m : Dom A) (handler : JsError → Dom A) (p : Page) :
  runPage (tryCatch m handler) p =
  match runPage m p with
  | (Ok a, p') => (Ok a, p')
  | (Throw e, p') => runPage (handler e) p'
  end.
Proof. reflexivity. Qed.

Lemma runPage_inWorld {A : Type} (m : Js A) (p : Page) :
  runPage (inWorld m) p = (outcome m (world p), mkPage (exec m (world p)) (document p)).
Proof. unfold runPage, inWorld, outcome, exec. by destruct (run m (world p)). Qed.

Lemma runPage_update (f : Document.t → Document.t) (p : Page) :
  runPage (update f) p = (Ok tt, mkPage (world p) (f (document p))).
Proof. reflexivity. Qed.

Lemma runPage_ask {A : Type} (f : Document.t → A) (p : Page) :
  runPage (ask f) p = (Ok (f (document p)), p).
Proof. reflexivity. Qed.

(** ** The handlers in full project to the handlers of the roster *)

Lemma projects_ret {A : Type} (a : A) : projects (mret a) (mret a).
Proof. intros [w d]. by exists d. Qed.

Lemma projects_inWorld {A : Type} (j : Js A) : projects (inWorld j) j.
Proof. intros p. exists (document p). apply runPage_inWorld. Qed.

Lemma projects_bind {A B : Type} (m : Dom A) (j : Js A) (f : A → Dom B) (g : A → Js B) :
  projects m j → (∀ a, projects (f a) (g a)) → projects (m ≫= f) (j ≫= g).
Proof.
  intros Hm Hf p. destruct (Hm p) as [d Hrun].
  rewrite runPage_bind, Hrun. unfold outcome, exec. rewrite run_bind.
  destruct (run j (world p)) as [[a|e] w1]; cbn [fst snd].
  - destruct (Hf a (mkPage w1 d)) as [d' ->]. by exists d'.
  - by exists d.
Qed.

Lemma projects_tryCatch {A : Type} (m : Dom A) (j : Js A)
    (h : JsError → Dom A) (k : JsError → Js A) :
  projects m j → (∀ e, projects (h e) (k e)) → projects (tryCatch m h) (try_catch j k).
Proof.
  intros Hm Hh p. destruct (Hm p) as [d Hrun].
  rewrite runPage_tryCatch, Hrun. unfold outcome, exec. rewrite run_try_catch.
  destruct (run j (world p)) as [[a|e] w1]; cbn [fst snd].
  - by exists d.
  - destruct (Hh e (mkPage w1 d)) as [d' ->]. by exists d'.
Qed.

(** A step that only concerns the document, before or after. *)
Lemma projects_before {A : Type} (m : Dom unit) (n : Dom A) (j : Js A) :
  projects m (mret tt) → projects n j → projects (m ≫= λ _, n) j.
Proof.
  intros Hm Hn p. destruct (Hm p) as [d Hrun]. rewrite runPage_bind, Hrun.
  apply (Hn (mkPage (world p) d)).
Qed.

Lemma projects_after (m n : Dom unit) (j : Js unit) :
  projects m j → projects n (mret tt) → projects (m ≫= λ _, n) j.
Proof.
  intros Hm Hn p. destruct (Hm p) as [d Hrun]. rewrite runPage_bind, Hrun.
  destruct (outcome j (world p)) as [[]|e] eqn:Hj.
  - destruct (Hn (mkPage (exec j (world p)) d)) as [d' ->]. by exists d'.
  - by exists d.
Qed.

Lemma projects_update (f : Document.t → Document.t) : projects (update f) (mret tt).
Proof. intros p. by eexists. Qed.

Lemma projects_ask {A B : Type} (f : Document.t → A) (n : A → Dom B) (j : Js B) :
  (∀ a, projects (n a) j) → projects (ask f ≫= n) j.
Proof. intros Hn p. rewrite runPage_bind, runPage_ask. apply Hn. Qed.

Section Projections.
Context {browser : Browser}.

Lemma projects_showModal (id : string) : projects (Full.showModal id) (mret tt).
Proof. intros p. by eexists. Qed.

Lemma projects_closeModal (id : string) : projects (Full.closeModal id) (mret tt).
Proof. intros p. by eexists. Qed.

Lemma projects_prefillEditForm (s : Student.t) : projects (Full.prefillEditForm s) (mret tt).
Proof. intros p. by eexists. Qed.

Lemma projects_showSection (id : string) : projects (Full.showSection id) (mret tt).
Proof. intros p. by eexists. Qed.

Lemma projects_renderEmptyState (searchQuery courseFilter : string) :
  projects (Full.renderEmptyState searchQuery courseFilter) (mret tt).
Proof. intros p. by eexists. Qed.

Lemma projects_renderStudentsTable (searchQuery courseFilter : string) :
  projects (Full.renderStudentsTable searchQuery courseFilter)
           (renderStudentsTable searchQuery courseFilter).
Proof.
  unfold Full.renderStudentsTable, renderStudentsTable.
  apply projects_bind; [apply projects_inWorld|]. intros teacherId.
  destruct (negb (truthy_or_null teacherId)); [apply projects_ret|].
  apply projects_bind; [apply projects_inWorld|]. intros stored. cbv zeta.
  set (students := if truthy courseFilter then _ else _).
  apply projects_bind; [apply projects_inWorld|]. intros _.
  destruct students as [|s rest]; cbn [length Nat.eqb].
  - apply projects_after; [apply projects_inWorld|].
    apply projects_before; [apply projects_update|].
    apply projects_before; [apply projects_update|].
    apply projects_renderEmptyState.
  - apply projects_before; [apply projects_update|].
    apply projects_before; [apply projects_update|].
    apply projects_inWorld.
Qed.

(** One step of a handler and of its projection. *)
Ltac project :=
  first
    [ apply projects_ret
    | apply projects_inWorld
    | apply projects_renderStudentsTable
    | apply projects_bind; [apply projects_inWorld | intros ?]
    | apply projects_before; [apply projects_closeModal|]
    | apply projects_tryCatch; [| intros ?]
    | match goal with
      | |- projects (match ?x with _ => _ end) _ => destruct x
      | |- projects (if ?x then _ else _) _ => destruct x
      end ].

Lemma projects_handleAddStudent (e : AddStudentForm) :
  projects (Full.handleAddStudent e) (handleAddStudent e).
Proof. unfold Full.handleAddStudent, handleAddStudent. cbv zeta. repeat project. Qed.

Lemma projects_handleEditStudent (p : Page) :
  ∃ d, runPage Full.handleEditStudent p
       = (outcome (handleEditStudent (Document.editForm (document p))) (world p),
          mkPage (exec (handleEditStudent (Document.editForm (document p))) (world p)) d).
Proof.
  unfold Full.handleEditStudent. rewrite runPage_bind, runPage_ask. cbv beta iota.
  generalize (Document.editForm (document p)) as e. intros e. revert p.
  match goal with
  | |- ∀ p, ∃ d, runPage ?m p = _ => change (projects m (handleEditStudent e))
  end.
  unfold handleEditStudent. cbv zeta. repeat project.
Qed.

Lemma projects_handleToggleAttendance (id : string) :
  projects (Full.handleToggleAttendance id) (handleToggleAttendance id).
Proof. unfold Full.handleToggleAttendance, handleToggleAttendance. cbv zeta. repeat project. Qed.

Lemma projects_handleEditStudentModal (id : string) :
  projects (Full.handleEditStudentModal id) (handleEditStudentModal id).
Proof.
  unfold Full.handleEditStudentModal, handleEditStudentModal. repeat project.
  apply projects_before; [apply projects_prefillEditForm | apply projects_showModal].
Qed.

Lemma projects_handleDeleteStudent (id : string) :
  projects (Full.handleDeleteStudent id) (handleDeleteStudent id).
Proof.
  unfold Full.handleDeleteStudent, handleDeleteStudent.
  apply projects_after; [apply projects_inWorld | apply projects_showModal].
Qed.

Lemma projects_handleDeleteConfirm :
  projects Full.handleDeleteConfirm handleDeleteConfirm.
Proof. unfold Full.handleDeleteConfirm, handleDeleteConfirm. cbv zeta. repeat project. Qed.

Lemma projects_handleTableAction (action id : string) :
  projects (Full.handleTableAction action id) (handleTableAction action id).
Proof.
  unfold Full.handleTableAction, handleTableAction.
  destruct (negb (truthy action) || negb (truthy id)); [apply projects_ret|].
  destruct (String.eqb action "toggle"); [apply projects_handleToggleAttendance|].
  destruct (String.eqb action "edit"); [apply projects_handleEditStudentModal|].
  destruct (String.eqb action "delete"); [apply projects_handleDeleteStudent|].
  apply projects_ret.
Qed.

End Projections.

(** The handlers in full, with the sections, the modals and the
    forms, return what the handlers of the roster return and do to the
    storage, the alerts, the table, the cards and the pending deletion
    what those do, whatever the document; the edit handler does so for the
    values found in the edit form.  So what is proved of the handlers of
    the roster holds of the handlers in full. *)
Lemma full_handlers_project (B : Browser) :
  (∀ searchQuery courseFilter,
     projects (Full.renderStudentsTable searchQuery courseFilter)
              (renderStudentsTable searchQuery courseFilter))
  ∧ (∀ e, projects (Full.handleAddStudent e) (handleAddStudent e))
  ∧ (∀ p, ∃ d,
       runPage Full.handleEditStudent p
       = (outcome (handleEditStudent (Document.editForm (document p))) (world p),
          mkPage (exec (handleEditStudent (Document.editForm (document p))) (world p)) d))
  ∧ (∀ id, projects (Full.handleToggleAttendance id) (handleToggleAttendance id))
  ∧ (∀ id, projects (Full.handleEditStudentModal id) (handleEditStudentModal id))
  ∧ (∀ id, projects (Full.handleDeleteStudent id) (handleDeleteStudent id))
  ∧ projects Full.handleDeleteConfirm handleDeleteConfirm
  ∧ (∀ action id, projects (Full.handleTableAction action id) (handleTableAction action id)).
Proof.
  split_and!.
  - apply projects_renderStudentsTable.
  - apply projects_handleAddStudent.
  - apply projects_handleEditStudent.
  - apply projects_handleToggleAttendance.
  - apply projects_handleEditStudentModal.
  - apply projects_handleDeleteStudent.
  - apply projects_handleDeleteConfirm.
  - apply projects_handleTableAction.
Qed.

(** ** The table and the empty state *)

Lemma runPage_inWorld_run {A : Type} (m : Js A) (p : Page) (r : Result A) (w : World) :
  run m (world p) = (r, w) → runPage (inWorld m) p = (r, mkPage w (document p)).
Proof. intros Hrun. rewrite runPage_inWorld. unfold outcome, exec. by rewrite Hrun. Qed.

Section FullTable.
Context {browser : Browser}.

(** With nobody logged in the table is left as it is. *)
Lemma Full_render_anonymous (searchQuery courseFilter : string) (p : Page) :
  (∀ teacher, ¬ loggedIn (world p) teacher) →
  runPage (Full.renderStudentsTable searchQuery courseFilter) p = (Ok tt, p).
Proof.
  intros Hanon. unfold Full.renderStudentsTable.
  rewrite runPage_bind, (runPage_inWorld_run _ _ _ _ (run_getCurrentTeacherId _)).
  cbv beta iota.
  destruct (Session.id <$> sessionOf (world p)) as [teacher|] eqn:Hid; [|by destruct p].
  destruct (decide (teacher = "")) as [->|Hne]; [by destruct p|].
  destruct (Hanon teacher). by apply loggedIn_session.
Qed.

(** For a logged-in teacher: the rows, the cards, and the table or the
    empty state. *)
Lemma Full_render_run (teacher searchQuery courseFilter : string) (p : Page) :
  loggedIn (world p) teacher →
  let rows := filter (listed teacher searchQuery courseFilter) (studentsOf (world p)) in
  runPage (Full.renderStudentsTable searchQuery courseFilter) p =
  (Ok tt,
   mkPage (exec (renderStudentsTable searchQuery courseFilter) (world p))
     (match rows with
      | [] =>
          Document.set_emptyState
            (if truthy searchQuery || truthy courseFilter
             then "No students match your search criteria. Try adjusting your filters."
             else "No students found. Add your first student to get started!")
            (Document.set_display "emptyState" "block"
               (Document.set_display "studentsTable" "none" (document p)))
      | _ :: _ =>
          Document.set_display "emptyState" "none"
            (Document.set_display "studentsTable" "table" (document p))
      end)).
Proof.
  intros Hin rows. unfold exec.
  rewrite (renderStudentsTable_run teacher searchQuery courseFilter (world p) Hin).
  cbv zeta. fold rows. cbn [snd].
  apply loggedIn_session in Hin as [Hid Hne]. unfold Full.renderStudentsTable.
  rewrite runPage_bind, (runPage_inWorld_run _ _ _ _ (run_getCurrentTeacherId _)), Hid.
  cbv beta iota. cbn [truthy_or_null]. apply truthy_true in Hne as Htruthy.
  rewrite Htruthy. cbn [negb].
  rewrite runPage_bind, (runPage_inWorld_run _ _ _ _ (run_getStudents _)).
  cbv beta iota zeta. cbn [world document].
  match goal with
  | |- context [inWorld (updateStats ?l)] => assert (l = rows) as ->
  end.
  { unfold rows.
    rewrite <- (filter_bool_Prop _ _ _ (listed_test teacher searchQuery courseFilter)).
    destruct (truthy searchQuery), (truthy courseFilter); cbn [negb orb];
      rewrite ?filter_filter_bool; apply filter_ext; intros s;
      destruct (strict_eq (Student.teacherId s) (Some teacher)); cbn [andb];
      rewrite ?andb_true_r; reflexivity. }
  rewrite runPage_bind, (runPage_inWorld_run _ _ _ _ (run_updateStats _ _)).
  cbv beta iota. destruct rows as [|row rows']; reflexivity.
Qed.

(** What rendering can do to the document. *)
Lemma Full_render_document (searchQuery courseFilter : string) (p : Page) :
  let d := document p in
  let d' := document (execPage (Full.renderStudentsTable searchQuery courseFilter) p) in
  d' = d
  ∨ (∃ message,
       d' = Document.set_emptyState message
              (Document.set_display "emptyState" "block"
                 (Document.set_display "studentsTable" "none" d)))
  ∨ d' = Document.set_display "emptyState" "none"
           (Document.set_display "studentsTable" "table" d).
Proof.
  intros d d'. unfold d', execPage.
  destruct (Session.id <$> sessionOf (world p)) as [teacher|] eqn:Hid.
  2:{ left. rewrite Full_render_anonymous; [done|].
      intros teacher [Hid' _]%loggedIn_session. congruence. }
  destruct (decide (teacher = "")) as [->|Hne].
  { left. rewrite Full_render_anonymous; [done|].
    intros teacher [Hid' Hne']%loggedIn_session. congruence. }
  rewrite (Full_render_run teacher) by (by apply loggedIn_session). cbv zeta. cbn [snd document].
  destruct (filter _ _); [right; left; eauto | right; right; done].
Qed.

End FullTable.

(** X16.  Rendering in full for a logged-in teacher puts in the table the
    rows of the plain rendering, and shows either the table or the empty
    state, never both: with at least one row the table is displayed and
    the empty state hidden; with none the table is hidden and the empty
    state displayed, with the message about the search criteria when a
    query or a filter was given and the message inviting to add a first
    student otherwise.  With nobody logged in nothing on the page
    changes. *)
Theorem renderStudentsTable_shows_table_or_empty_state
    (B : Browser) (teacher searchQuery courseFilter : string) (p : Page) :
  let p' := execPage (Full.renderStudentsTable searchQuery courseFilter) p in
  let rows := filter (listed teacher searchQuery courseFilter) (studentsOf (world p)) in
  (loggedIn (world p) teacher →
   table (world p') = rows
   ∧ (rows ≠ [] →
      Document.display (document p') !! "studentsTable" = Some "table"
      ∧ Document.display (document p') !! "emptyState" = Some "none"
      ∧ Document.emptyState (document p') = Document.emptyState (document p))
   ∧ (rows = [] →
      Document.display (document p') !! "studentsTable" = Some "none"
      ∧ Document.display (document p') !! "emptyState" = Some "block"
      ∧ Document.emptyState (document p')
        = if bool_decide (searchQuery = "" ∧ courseFilter = "")
          then "No students found. Add your first student to get started!"
          else "No students match your search criteria. Try adjusting your filters."))
  ∧ ((∀ teacher, ¬ loggedIn (world p) teacher) → p' = p).
Proof.
  intros p' rows. split.
  - intros Hin. unfold p', execPage. rewrite (Full_render_run teacher) by done.
    cbv zeta. fold rows. cbn [snd world document]. split_and!.
    + unfold exec. rewrite (renderStudentsTable_run teacher) by done. done.
    + intros Hrows. destruct rows as [|row rows']; [done|].
      cbn [Document.display Document.set_display Document.emptyState].
      split_and!; [|by rewrite lookup_insert_eq | done].
      by rewrite lookup_insert_ne, lookup_insert_eq.
    + intros ->. cbn [Document.display Document.set_display Document.set_emptyState
                      Document.emptyState].
      split_and!; [by rewrite lookup_insert_ne, lookup_insert_eq | by rewrite lookup_insert_eq |].
      destruct (decide (searchQuery = "")) as [->|Hq], (decide (courseFilter = "")) as [->|Hf].
      * by rewrite bool_decide_eq_true_2.
      * rewrite bool_decide_eq_false_2 by tauto. apply truthy_true in Hf as ->.
        by rewrite orb_true_r.
      * rewrite bool_decide_eq_false_2 by tauto. by apply truthy_true in Hq as ->.
      * rewrite bool_decide_eq_false_2 by tauto. by apply truthy_true in Hq as ->.
  - intros Hanon. unfold p', execPage. by rewrite Full_render_anonymous.
Qed.

(** ** Sections and routing *)

Section Routing.
Context {browser : Browser}.

Lemma showSection_run (sectionId : string) (p : Page) :
  runPage (Full.showSection sectionId) p =
  (Ok tt,
   mkPage (world p)
     (Document.set_display "dashboardSection"
        (if String.eqb "dashboardSection" sectionId then "flex" else "none")
        (Document.set_display "registerSection"
           (if String.eqb "registerSection" sectionId then "flex" else "none")
           (Document.set_display "loginSection"
              (if String.eqb "loginSection" sectionId then "flex" else "none")
              (document p))))).
Proof. reflexivity. Qed.

(** After [showSection], of the three sections the one named is displayed
    and no other. *)
Lemma showSection_shown (sectionId id : string) (p : Page) :
  id ∈ ["loginSection"; "registerSection"; "dashboardSection"] →
  shown id (execPage (Full.showSection sectionId) p) ↔ id = sectionId.
Proof.
  intros Hid. unfold shown, execPage. rewrite showSection_run.
  cbn [snd document Document.display Document.set_display].
  repeat (apply elem_of_cons in Hid as [-> | Hid]); [..| by apply elem_of_nil in Hid].
  - rewrite lookup_insert_ne, lookup_insert_ne, lookup_insert_eq by done.
    destruct (String.eqb_spec "loginSection" sectionId); split; congruence.
  - rewrite lookup_insert_ne, lookup_insert_eq by done.
    destruct (String.eqb_spec "registerSection" sectionId); split; congruence.
  - rewrite lookup_insert_eq.
    destruct (String.eqb_spec "dashboardSection" sectionId); split; congruence.
Qed.

(** Rendering the table leaves the rest of the document alone. *)
Lemma Full_render_frame (searchQuery courseFilter : string) (p : Page) :
  let p' := execPage (Full.renderStudentsTable searchQuery courseFilter) p in
  world p' = exec (renderStudentsTable searchQuery courseFilter) (world p)
  ∧ Document.action (document p') = Document.action (document p)
  ∧ Document.title (document p') = Document.title (document p)
  ∧ Document.active (document p') = Document.active (document p)
  ∧ Document.overflow (document p') = Document.overflow (document p)
  ∧ Document.currentUserDisplay (document p') = Document.currentUserDisplay (document p)
  ∧ Document.editForm (document p') = Document.editForm (document p)
  ∧ (∀ id, id ≠ "studentsTable" → id ≠ "emptyState" →
           Document.display (document p') !! id = Document.display (document p) !! id).
Proof.
  intros p'.
  assert (world p' = exec (renderStudentsTable searchQuery courseFilter) (world p)) as Hworld.
  { unfold p', execPage.
    destruct (projects_renderStudentsTable searchQuery courseFilter p) as [d ->]. done. }
  split; [done|].
  destruct (Full_render_document searchQuery courseFilter p) as [Hd | [[message Hd] | Hd]];
    fold p' in Hd; rewrite Hd; split_and!; try done;
    intros id Hne1 Hne2; cbn [Document.display Document.set_display Document.set_emptyState];
    by rewrite !lookup_insert_ne.
Qed.

Lemma renderLogin_effect (p : Page) :
  let p' := execPage Full.renderLogin p in
  world p' = world p
  ∧ Document.title (document p') = "Login - Student Attendance System"
  ∧ ∀ id, id ∈ ["loginSection"; "registerSection"; "dashboardSection"] →
          shown id p' ↔ id = "loginSection".
Proof.
  intros p'. split_and!; [done | done |]. intros id Hid.
  by rewrite <- (showSection_shown "loginSection" id p).
Qed.

Lemma renderRegister_effect (p : Page) :
  let p' := execPage Full.renderRegister p in
  world p' = world p
  ∧ Document.title (document p') = "Register - Student Attendance System"
  ∧ ∀ id, id ∈ ["loginSection"; "registerSection"; "dashboardSection"] →
          shown id p' ↔ id = "registerSection".
Proof.
  intros p'. split_and!; [done | done |]. intros id Hid.
  by rewrite <- (showSection_shown "registerSection" id p).
Qed.

Lemma renderDashboard_effect (p : Page) :
  let p' := execPage Full.renderDashboard p in
  world p' = exec (renderStudentsTable "" "") (world p)
  ∧ Document.title (document p') = "Dashboard - Student Attendance System"
  ∧ Document.action (document p') = Document.action (document p)
  ∧ Document.currentUserDisplay (document p')
    = match outcome getCurrentTeacher (world p) with
      | Ok (Some currentUser) => Session.username currentUser
      | _ => Document.currentUserDisplay (document p)
      end
  ∧ ∀ id, id ∈ ["loginSection"; "registerSection"; "dashboardSection"] →
          shown id p' ↔ id = "dashboardSection".
Proof.
  intros p'. unfold p', execPage, Full.renderDashboard.
  rewrite runPage_bind, showSection_run. cbv beta iota.
  rewrite runPage_bind, runPage_update. cbv beta iota. cbn [world document].
  rewrite runPage_bind, (runPage_inWorld_run _ _ _ _ (run_getCurrentTeacher _)).
  cbv beta iota. cbn [world document]. unfold outcome. rewrite run_getCurrentTeacher.
  cbn [fst]. rewrite runPage_bind.
  set (user := sessionOf (world p) ≫= _).
  match goal with
  | |- context [runPage (match user with _ => _ end) ?q] =>
      assert (∃ name,
        runPage (match user with
                 | Some currentUser =>
                     update (Document.set_currentUserDisplay (Session.username currentUser))
                 | None => mret tt
                 end) q
        = (Ok tt, mkPage (world p) (Document.set_currentUserDisplay name (document q)))
        ∧ name = match user with
                 | Some currentUser => Session.username currentUser
                 | None => Document.currentUserDisplay (document p)
                 end) as (name & -> & Hname)
  end.
  { destruct user as [u|]; eexists; (split; [|reflexivity]); [reflexivity|].
    rewrite runPage_ret. by destruct p as [w []]. }
  cbv beta iota.
  match goal with
  | |- context [runPage (Full.renderStudentsTable "" "") ?q] =>
      pose proof (Full_render_frame "" "" q) as Hframe; cbv zeta in Hframe;
      unfold execPage in Hframe;
      destruct (runPage (Full.renderStudentsTable "" "") q) as [r p1]
  end.
  cbn [snd world document] in *.
  destruct Hframe as (Hworld & Haction & Htitle & _ & _ & Huser & _ & Hdisplay).
  split_and!; [done | by rewrite Htitle | by rewrite Haction | by rewrite Huser |].
  intros id Hid. rewrite <- (showSection_shown "dashboardSection" id p Hid).
  unfold shown, execPage. rewrite showSection_run. cbn [snd document].
  rewrite Hdisplay; [done | |];
    intros ->; repeat (apply elem_of_cons in Hid as [Heq | Hid]; [discriminate Heq|]);
    by apply elem_of_nil in Hid.
Qed.

End Routing.

Section RoutingRun.
Context {browser : Browser}.

(** [handleRouting], case by case. *)
Lemma handleRouting_run (p : Page) :
  runPage Full.handleRouting p =
  if bool_decide (Document.action (document p) = Some "register") then
    runPage Full.renderRegister p
  else if bool_decide (Document.action (document p) = Some "dashboard") then
    match sessionOf (world p) with
    | Some _ => runPage Full.renderDashboard p
    | None =>
        (Ok tt,
         mkPage (exec (showMessage "Please login to access this page" "error") (world p))
                (document p))
    end
  else runPage Full.renderLogin p.
Proof.
  unfold Full.handleRouting. rewrite runPage_bind, runPage_ask. cbv beta iota zeta.
  assert (∀ allowed : Dom unit,
    runPage (inWorld requireAuth ≫= λ ok : bool, if ok then Full.renderDashboard else allowed) p
    = match sessionOf (world p) with
      | Some _ => runPage Full.renderDashboard p
      | None => runPage allowed
                  (mkPage (exec (showMessage "Please login to access this page" "error")
                                (world p)) (document p))
      end) as Hguard.
  { intros allowed. rewrite runPage_bind, runPage_inWorld. unfold outcome, exec.
    rewrite run_requireAuth.
    destruct (sessionOf (world p)); cbn [fst snd]; [by destruct p | done]. }
  destruct (Document.action (document p)) as [action|]; [|reflexivity].
  cbn [truthy_or_null default from_option id].
  destruct (decide (action = "")) as [->|Hne]; [reflexivity|].
  apply truthy_true in Hne as ->.
  destruct (String.eqb_spec action "register") as [->|Hregister].
  { by rewrite bool_decide_eq_true_2. }
  rewrite bool_decide_eq_false_2 by congruence.
  destruct (String.eqb_spec action "dashboard") as [->|Hdashboard].
  { rewrite bool_decide_eq_true_2 by done. rewrite Hguard. by destruct (sessionOf (world p)). }
  rewrite bool_decide_eq_false_2 by congruence. done.
Qed.

End RoutingRun.

(** X17.  [App.handleRouting] displays, of the three sections, exactly
    one: the registration for the action [register]; the dashboard, with
    the table rendered, for the action [dashboard] when a session exists;
    the login for any other action or none.  For the action [dashboard]
    without a session it changes nothing in the document and shows the
    alert of the guard.  So routing never brings up the dashboard without
    a session. *)
Theorem handleRouting_guards_dashboard (B : Browser) (p : Page) :
  let p' := execPage Full.handleRouting p in
  let action := Document.action (document p) in
  let sections := ["loginSection"; "registerSection"; "dashboardSection"] in
  (action = Some "register" →
   world p' = world p ∧ ∀ id, id ∈ sections → shown id p' ↔ id = "registerSection")
  ∧ (action = Some "dashboard" → is_Some (sessionOf (world p)) →
     world p' = exec (renderStudentsTable "" "") (world p)
     ∧ ∀ id, id ∈ sections → shown id p' ↔ id = "dashboardSection")
  ∧ (action = Some "dashboard" → sessionOf (world p) = None →
     document p' = document p
     ∧ world p' = exec (showMessage "Please login to access this page" "error") (world p))
  ∧ (action ≠ Some "register" → action ≠ Some "dashboard" →
     world p' = world p ∧ ∀ id, id ∈ sections → shown id p' ↔ id = "loginSection")
  ∧ (shown "dashboardSection" p' → shown "dashboardSection" p ∨ is_Some (sessionOf (world p))).
Proof.
  intros p' action sections.
  assert (action = Some "register" →
          world p' = world p ∧ ∀ id, id ∈ sections → shown id p' ↔ id = "registerSection")
    as Hregister.
  { intros Haction. unfold p', execPage. rewrite handleRouting_run.
    fold action. rewrite bool_decide_eq_true_2 by done.
    by destruct (renderRegister_effect p) as (? & _ & ?). }
  assert (action = Some "dashboard" → is_Some (sessionOf (world p)) →
          world p' = exec (renderStudentsTable "" "") (world p)
          ∧ ∀ id, id ∈ sections → shown id p' ↔ id = "dashboardSection") as Hdashboard.
  { intros Haction [u Hu]. unfold p', execPage. rewrite handleRouting_run.
    fold action. rewrite Haction, Hu. cbn [bool_decide decide_rel].
    rewrite bool_decide_eq_false_2 by done. rewrite bool_decide_eq_true_2 by done.
    by destruct (renderDashboard_effect p) as (? & _ & _ & _ & ?). }
  assert (action = Some "dashboard" → sessionOf (world p) = None →
          document p' = document p
          ∧ world p' = exec (showMessage "Please login to access this page" "error") (world p))
    as Hguard.
  { intros Haction Hnone. unfold p', execPage. rewrite handleRouting_run.
    fold action. rewrite Haction, Hnone.
    rewrite bool_decide_eq_false_2 by done. rewrite bool_decide_eq_true_2 by done. done. }
  assert (action ≠ Some "register" → action ≠ Some "dashboard" →
          world p' = world p ∧ ∀ id, id ∈ sections → shown id p' ↔ id = "loginSection")
    as Hlogin.
  { intros Hne1 Hne2. unfold p', execPage. rewrite handleRouting_run. fold action.
    rewrite !bool_decide_eq_false_2 by done.
    by destruct (renderLogin_effect p) as (? & _ & ?). }
  split_and!; [done..|].
  intros Hshown.
  assert ("dashboardSection" ∈ sections) as Hin by (unfold sections; repeat constructor).
  destruct (decide (action = Some "register")) as [Ha|Ha].
  { destruct (Hregister Ha) as [_ Hs]. by apply Hs in Hshown. }
  destruct (decide (action = Some "dashboard")) as [Hb|Hb].
  - destruct (sessionOf (world p)) as [u|] eqn:Hu; [right; eauto|].
    left. destruct (Hguard Hb eq_refl) as [Hdoc _]. unfold shown in *. by rewrite <- Hdoc.
  - destruct (Hlogin Ha Hb) as [_ Hs]. by apply Hs in Hshown.
Qed.

(** ** Logging in from the form *)

(** X18.  [App.handleLogin] with credentials that fit (the login returns)
    leaves the address on the action [dashboard] and the dashboard as the
    one section displayed, under its title, with the session of the
    teacher found; the table then holds the students of that teacher (when
    the teacher's id is not empty) and, teacher ids being distinct, the
    header shows the teacher's username.  When the login throws, the
    document is untouched: the address and the section stay, and the page
    differs by the alert of the login only. *)
Theorem handleLogin_lands_on_dashboard (B : Browser) (username password : string) (p : Page) :
  let p' := execPage (Full.handleLogin username password) p in
  (∀ u w', run (login username password) (world p) = (Ok u, w') →
     Document.action (document p') = Some "dashboard"
     ∧ (∀ id, id ∈ ["loginSection"; "registerSection"; "dashboardSection"] →
              shown id p' ↔ id = "dashboardSection")
     ∧ Document.title (document p') = "Dashboard - Student Attendance System"
     ∧ sessionOf (world p') = Some u
     ∧ (Session.id u ≠ "" →
        table (world p')
        = filter (λ s, Student.teacherId s = Session.id u) (studentsOf (world p)))
     ∧ (NoDup (Teacher.id <$> teachersOf (world p)) →
        Document.currentUserDisplay (document p') = Session.username u))
  ∧ (∀ e w', run (login username password) (world p) = (Throw e, w') →
     p' = mkPage w' (document p)).
Proof.
  intros p'. split.
  - intros u w' Hrun.
    destruct (login_current_teacher username password (world p) w' u Hrun)
      as (Hsession & _ & Hstudents & _ & Hcurrent).
    set (p1 := mkPage w' (Document.set_action (Some "dashboard") (document p))).
    assert (p' = execPage Full.renderDashboard p1) as ->.
    { unfold p', execPage, Full.handleLogin.
      rewrite runPage_tryCatch, runPage_bind, (runPage_inWorld_run _ _ _ _ Hrun).
      cbv beta iota. rewrite runPage_bind. unfold Full.updateURL. rewrite runPage_update.
      cbv beta iota. cbn [world document]. fold p1.
      rewrite handleRouting_run. cbn [document world p1 Document.action Document.set_action].
      rewrite bool_decide_eq_false_2 by done. rewrite bool_decide_eq_true_2 by done.
      rewrite Hsession. by destruct (runPage Full.renderDashboard p1) as [[[]|e] p2]. }
    destruct (renderDashboard_effect p1) as (Hworld & Htitle & Haction & Huser & Hsections).
    cbn [world document p1] in Hworld, Haction, Huser.
    destruct (rendered_frame "" "" w') as (Hstorage & _ & _). rewrite <- Hworld in Hstorage.
    split_and!; [done | done | done | | |].
    + by rewrite (sessionOf_storage _ _ Hstorage).
    + intros Hne. rewrite Hworld. unfold exec.
      rewrite (renderStudentsTable_run (Session.id u)).
      * cbv zeta. cbn [snd table set_table]. by rewrite listed_all, Hstudents.
      * apply loggedIn_session. by rewrite Hsession.
    + intros Hnodup. rewrite Huser, (Hcurrent Hnodup). done.
  - intros e w' Hrun. unfold p', execPage, Full.handleLogin.
    by rewrite runPage_tryCatch, runPage_bind, (runPage_inWorld_run _ _ _ _ Hrun).
Qed.

(** ** The modals and the edit form *)

Section Modals.
Context {browser : Browser}.

Lemma runPage_guard (c : bool) (e : JsError) (p : Page) :
  runPage (inWorld (when c (throw e))) p = if c then (Throw e, p) else (Ok tt, p).
Proof.
  rewrite runPage_inWorld. unfold outcome, exec. rewrite run_when.
  by destruct c, p.
Qed.

Lemma runPage_throw {A : Type} (e : JsError) (p : Page) :
  runPage (inWorld (throw (A:=A) e)) p = (Throw e, p).
Proof. by destruct p. Qed.

Lemma runPage_tryCatch_ok {A : Type} (m : Dom A) (handler : JsError → Dom A)
    (p p' : Page) (a : A) :
  runPage m p = (Ok a, p') → runPage (tryCatch m handler) p = (Ok a, p').
Proof. intros Hrun. by rewrite runPage_tryCatch, Hrun. Qed.

Lemma runPage_gets {A : Type} (f : World → A) (p : Page) :
  runPage (inWorld (gets f)) p = (Ok (f (world p)), p).
Proof. by destruct p. Qed.

(** The document with a modal closed. *)
Lemma closeModal_run (modalId : string) (p : Page) :
  runPage (Full.closeModal modalId) p =
  (Ok tt,
   mkPage (world p)
     (Document.set_overflow ""
        (Document.set_active (λ open, open ∖ {[modalId]}) (document p)))).
Proof. reflexivity. Qed.

Lemma showModal_run (modalId : string) (p : Page) :
  runPage (Full.showModal modalId) p =
  (Ok tt,
   mkPage (world p)
     (Document.set_overflow "hidden"
        (Document.set_active (λ open, {[modalId]} ∪ open) (document p)))).
Proof. reflexivity. Qed.

(** A page on which the table has just been rendered, with a modal
    closed before: the modal is still closed. *)
Lemma rendered_closed (modalId : string) (w : World) (p : Page) :
  let p' :=
    execPage (Full.renderStudentsTable "" "")
      (mkPage w (Document.set_overflow ""
                   (Document.set_active (λ open, open ∖ {[modalId]}) (document p)))) in
  world p' = exec (renderStudentsTable "" "") w
  ∧ ¬ open modalId p'
  ∧ Document.overflow (document p') = ""
  ∧ Document.editForm (document p') = Document.editForm (document p)
  ∧ Document.action (document p') = Document.action (document p).
Proof.
  intros p'.
  destruct (Full_render_frame "" ""
    (mkPage w (Document.set_overflow ""
                 (Document.set_active (λ open, open ∖ {[modalId]}) (document p)))))
    as (Hworld & Haction & _ & Hactive & Hoverflow & _ & Hform & _).
  fold p' in Hworld, Haction, Hactive, Hoverflow, Hform.
  split_and!; [done | | done | done | done].
  unfold open. rewrite Hactive. cbn [document Document.active Document.set_active
                                     Document.set_overflow].
  intros [_ Hnot]%elem_of_difference. apply Hnot. by apply elem_of_singleton.
Qed.

(** The table can always be rendered. *)
Lemma Full_render_returns (searchQuery courseFilter : string) (p : Page) :
  runPage (Full.renderStudentsTable searchQuery courseFilter) p
  = (Ok tt, execPage (Full.renderStudentsTable searchQuery courseFilter) p).
Proof.
  unfold execPage.
  destruct (projects_renderStudentsTable searchQuery courseFilter p) as [d Hp].
  rewrite Hp. cbn [snd]. f_equal. unfold outcome.
  by destruct (renderStudentsTable_frame searchQuery courseFilter (world p)) as (? & ? & ->).
Qed.

(** [handleAddStudent] in full for a logged-in teacher, case by case. *)
Lemma Full_handleAddStudent_run (e : AddStudentForm) (teacher : string) (p : Page) :
  loggedIn (world p) teacher →
  let name := trim (studentName e) in
  let studentId := trim (studentIdInput e) in
  let course := studentCourse e in
  let year := parseInt (studentYear e) in
  runPage (Full.handleAddStudent e) p =
  if negb (truthy name) || negb (truthy studentId) || negb (truthy course)
     || negb (truthy_number year)
  then (Ok tt, mkPage (exec (showMessage "Please fill in all fields" "error") (world p))
                      (document p))
  else
    match find (λ s, String.eqb (Student.teacherId s) teacher
                     && String.eqb (toLowerCase (Student.studentId s)) (toLowerCase studentId))
               (studentsOf (world p)) with
    | Some _ =>
        (Ok tt,
         mkPage (exec (showMessage "A student with this ID already exists" "error") (world p))
                (document p))
    | None =>
        let newStudent :=
          Student.mk (freshId (world p)) teacher name studentId course year "Unmarked"
                     (clock (world p)) in
        runPage (Full.renderStudentsTable "" "")
          (mkPage
             (exec (showMessage ("Student " +:+ name +:+ " added successfully!") "success")
                   (exec (saveStudents (studentsOf (world p) ++ [newStudent]))
                         (exec generateId (world p))))
             (Document.set_overflow ""
                (Document.set_active (λ open, open ∖ {["addStudentModal"]}) (document p))))
    end.
Proof.
  intros [Hid Hne]%loggedIn_session name studentId course year.
  destruct p as [w d]. cbn [world document] in *. unfold Full.handleAddStudent.
  rewrite runPage_bind, (runPage_inWorld_run _ _ _ _ (run_getCurrentTeacherId _)).
  cbn [world document]. rewrite Hid. cbv beta iota.
  cbn [truthy_or_null default from_option id]. apply truthy_true in Hne as ->. cbn [negb].
  cbv zeta. fold name studentId course year.
  rewrite runPage_tryCatch, runPage_bind, runPage_guard.
  destruct (negb (truthy name) || _ || _ || _).
  { by rewrite runPage_inWorld. }
  cbv beta iota. rewrite runPage_bind, (runPage_inWorld_run _ _ _ _ (run_getStudents _)).
  cbv beta iota zeta. cbn [world document].
  rewrite runPage_bind, runPage_guard.
  destruct (find _ (studentsOf w)) as [s|] eqn:Hfind.
  - rewrite bool_decide_eq_true_2 by eauto. by rewrite runPage_inWorld.
  - rewrite bool_decide_eq_false_2 by (by intros [? ?]). cbv beta iota.
    destruct (run_generateId w) as [entropy' Hgen].
    rewrite runPage_bind, (runPage_inWorld_run _ (mkPage w d) _ _ Hgen). cbv beta iota.
    rewrite runPage_bind, (runPage_inWorld_run _ _ _ _ (run_currentTime _)). cbv beta iota.
    cbn [world document].
    rewrite runPage_bind, (runPage_inWorld_run _ _ _ _ (run_saveStudents _ _)). cbv beta iota.
    cbn [world document].
    rewrite runPage_bind, (runPage_inWorld_run _ _ _ _ (run_showMessage _ _ _)). cbv beta iota.
    cbn [world document].
    rewrite runPage_bind, closeModal_run. cbv beta iota. cbn [world document].
    rewrite !Full_render_returns.
    unfold exec. rewrite Hgen, run_saveStudents, run_showMessage. reflexivity.
Qed.

End Modals.

Section ModalRuns.
Context {browser : Browser}.

Lemma Full_handleAddStudent_anonymous (e : AddStudentForm) (p : Page) :
  (∀ teacher, ¬ loggedIn (world p) teacher) →
  runPage (Full.handleAddStudent e) p
  = (Ok tt, mkPage (exec (showMessage "Session expired. Please login again." "error") (world p))
                   (document p)).
Proof.
  intros Hanon. destruct p as [w d]. cbn [world document] in *. unfold Full.handleAddStudent.
  rewrite runPage_bind, (runPage_inWorld_run _ _ _ _ (run_getCurrentTeacherId _)).
  cbn [world document]. cbv beta iota.
  destruct (Session.id <$> sessionOf w) as [teacher|] eqn:Hid; [|reflexivity].
  destruct (decide (teacher = "")) as [->|Hne]; [reflexivity|].
  destruct (Hanon teacher). by apply loggedIn_session.
Qed.

(** [handleEditStudent] in full, case by case. *)
Lemma Full_handleEditStudent_run (p : Page) :
  let e := Document.editForm (document p) in
  let id := editStudentId e in
  let name := trim (editStudentName e) in
  let studentId := trim (editStudentIdInput e) in
  let course := editStudentCourse e in
  let year := parseInt (editStudentYear e) in
  runPage Full.handleEditStudent p =
  if negb (truthy name) || negb (truthy studentId) || negb (truthy course)
     || negb (truthy_number year)
  then (Ok tt, mkPage (exec (showMessage "Please fill in all fields" "error") (world p))
                      (document p))
  else
    match findIndex (λ s, String.eqb (Student.id s) id) (studentsOf (world p)) with
    | None =>
        (Ok tt, mkPage (exec (showMessage "Student not found" "error") (world p)) (document p))
    | Some i =>
        match find (λ s, negb (String.eqb (Student.id s) id)
                         && strict_eq (Student.teacherId s)
                                      (Session.id <$> sessionOf (world p))
                         && String.eqb (toLowerCase (Student.studentId s))
                                       (toLowerCase studentId))
                   (studentsOf (world p)) with
        | Some _ =>
            (Ok tt,
             mkPage (exec (showMessage "A student with this ID already exists" "error")
                          (world p)) (document p))
        | None =>
            match studentsOf (world p) !! i with
            | Some current =>
                runPage (Full.renderStudentsTable "" "")
                  (mkPage
                     (exec (showMessage "Student updated successfully!" "success")
                           (exec (saveStudents
                                    (<[i := withFields name studentId course year current]>
                                       (studentsOf (world p))))
                                 (world p)))
                     (Document.set_overflow ""
                        (Document.set_active (λ open, open ∖ {["editStudentModal"]})
                                             (document p))))
            | None =>
                (Ok tt, mkPage (exec (showMessage (message TypeError) "error") (world p))
                               (document p))
            end
        end
    end.
Proof.
  intros e id name studentId course year. subst e.
  destruct p as [w d]. cbn [world document] in *. unfold Full.handleEditStudent.
  rewrite runPage_bind, runPage_ask. cbv beta iota zeta. cbn [world document].
  fold id name studentId course year.
  rewrite runPage_tryCatch, runPage_bind, runPage_guard.
  destruct (negb (truthy name) || _ || _ || _).
  { by rewrite runPage_inWorld. }
  cbv beta iota.
  rewrite runPage_bind, (runPage_inWorld_run _ _ _ _ (run_getCurrentTeacherId _)).
  cbv beta iota. cbn [world document].
  rewrite runPage_bind, (runPage_inWorld_run _ _ _ _ (run_getStudents _)).
  cbv beta iota. cbn [world document].
  destruct (findIndex _ (studentsOf w)) as [i|].
  2:{ rewrite runPage_throw. by rewrite runPage_inWorld. }
  rewrite runPage_bind, runPage_guard.
  destruct (find _ (studentsOf w)) as [s|] eqn:Hfind.
  - rewrite bool_decide_eq_true_2 by eauto. by rewrite runPage_inWorld.
  - rewrite bool_decide_eq_false_2 by (by intros [? ?]). cbv beta iota.
    rewrite runPage_bind, runPage_inWorld. cbn [world document]. unfold outcome, exec, at_index.
    destruct (studentsOf w !! i) as [current|].
    2:{ cbn [run throw fst snd]. by rewrite runPage_inWorld. }
    rewrite run_ret. cbn [fst snd]. cbv beta iota zeta.
    rewrite runPage_bind, (runPage_inWorld_run _ _ _ _ (run_saveStudents _ _)). cbv beta iota.
    cbn [world document].
    rewrite runPage_bind, (runPage_inWorld_run _ _ _ _ (run_showMessage _ _ _)). cbv beta iota.
    cbn [world document].
    rewrite runPage_bind, closeModal_run. cbv beta iota. cbn [world document].
    rewrite !Full_render_returns.
    rewrite run_saveStudents, run_showMessage. reflexivity.
Qed.

(** [handleDeleteConfirm] in full with a deletion pending, case by case. *)
Lemma Full_handleDeleteConfirm_run (id : string) (p : Page) :
  currentDeleteId (world p) = Some id → id ≠ "" →
  runPage Full.handleDeleteConfirm p =
  match findIndex (λ s, String.eqb (Student.id s) id) (studentsOf (world p)) with
  | None =>
      (Ok tt, mkPage (exec (showMessage "Student not found" "error") (world p)) (document p))
  | Some i =>
      match studentsOf (world p) !! i with
      | Some current =>
          runPage (Full.renderStudentsTable "" "")
            (mkPage
               (exec (modify (set_currentDeleteId None))
                  (exec (showMessage ("Student " +:+ Student.name current
                                      +:+ " deleted successfully!") "success")
                        (exec (saveStudents
                                 (List.filter (λ s, negb (String.eqb (Student.id s) id))
                                              (studentsOf (world p))))
                              (world p))))
               (Document.set_overflow ""
                  (Document.set_active (λ open, open ∖ {["deleteModal"]}) (document p))))
      | None =>
          (Ok tt, mkPage (exec (showMessage (message TypeError) "error") (world p))
                         (document p))
      end
  end.
Proof.
  destruct p as [w d]. cbn [world document]. intros Hpending Hne%truthy_true.
  unfold Full.handleDeleteConfirm.
  rewrite runPage_bind, runPage_gets. cbn [world]. rewrite Hpending. cbv beta iota.
  cbn [truthy_or_null strict_eq]. rewrite Hne. cbn [negb].
  rewrite runPage_tryCatch.
  rewrite runPage_bind, (runPage_inWorld_run _ _ _ _ (run_getCurrentTeacherId _)).
  cbv beta iota. cbn [world document].
  rewrite runPage_bind, (runPage_inWorld_run _ _ _ _ (run_getStudents _)).
  cbv beta iota. cbn [world document].
  destruct (findIndex _ (studentsOf w)) as [i|].
  2:{ rewrite runPage_throw. by rewrite runPage_inWorld. }
  rewrite runPage_bind, runPage_inWorld. cbn [world document]. unfold outcome, exec, at_index.
  destruct (studentsOf w !! i) as [current|].
  2:{ cbn [run throw fst snd]. by rewrite runPage_inWorld. }
  rewrite run_ret. cbn [fst snd]. cbv beta iota zeta.
  rewrite runPage_bind, (runPage_inWorld_run _ _ _ _ (run_saveStudents _ _)). cbv beta iota.
  cbn [world document].
  rewrite runPage_bind, (runPage_inWorld_run _ _ _ _ (run_showMessage _ _ _)). cbv beta iota.
  cbn [world document].
  rewrite runPage_bind, closeModal_run. cbv beta iota. cbn [world document].
  rewrite runPage_bind, (runPage_inWorld_run _ _ _ _ (run_modify _ _)). cbv beta iota.
  cbn [world document].
  rewrite !Full_render_returns.
  rewrite run_saveStudents, run_showMessage, run_modify. reflexivity.
Qed.

(** Opening the edit modal on a record that exists. *)
Lemma Full_handleEditStudentModal_run (id : string) (p : Page) (s : Student.t) :
  studentWithId id (studentsOf (world p)) = Some s →
  runPage (Full.handleEditStudentModal id) p =
  (Ok tt,
   mkPage (world p)
     (Document.set_overflow "hidden"
        (Document.set_active (λ open, {["editStudentModal"]} ∪ open)
           (Document.set_editForm
              (λ _, mkEditStudentForm (Student.id s) (Student.name s) (Student.studentId s)
                                      (Student.course s) (toString (Student.year s)))
              (document p))))).
Proof.
  destruct p as [w d]. cbn [world document]. intros Hfind. unfold Full.handleEditStudentModal.
  rewrite runPage_bind, (runPage_inWorld_run _ _ _ _ (run_getCurrentTeacherId _)).
  cbv beta iota. cbn [world document].
  rewrite runPage_bind, (runPage_inWorld_run _ _ _ _ (run_getStudents _)).
  cbv beta iota. cbn [world document].
  unfold studentWithId in Hfind. rewrite Hfind. reflexivity.
Qed.

End ModalRuns.

Section Outcomes.
Context {browser : Browser}.

Lemma messages_rendered (searchQuery courseFilter : string) (w : World) :
  messages (exec (renderStudentsTable searchQuery courseFilter) w) = messages w.
Proof. by destruct (rendered_frame searchQuery courseFilter w) as (_ & ? & _). Qed.

Lemma messages_generateId (w : World) : messages (exec generateId w) = messages w.
Proof. destruct (exec_generateId w) as [e ->]. reflexivity. Qed.

End Outcomes.

(** X19.  What a submit handler does to the document follows the alert it
    shows, and it shows exactly one.  After an add, an edit or a confirmed
    deletion: either the alert is an error, and the document (the modals,
    the edit form, the address) is as it was, so the form stays open with
    what was typed; or it is a success, and the modal of the handler is
    closed.  Choosing a record to delete opens the confirmation modal and
    remembers the identifier; a failed confirmation leaves it pending, a
    successful one forgets it. *)
Theorem modals_follow_outcome (B : Browser) (p : Page) :
  (∀ e, let p' := execPage (Full.handleAddStudent e) p in
        ∃ msg type,
          messages (world p') = messages (world p) ++ [(msg, type)]
          ∧ (type = "error" ∧ document p' = document p
             ∨ type = "success" ∧ ¬ open "addStudentModal" p'
               ∧ Document.overflow (document p') = ""))
  ∧ (let p' := execPage Full.handleEditStudent p in
     ∃ msg type,
       messages (world p') = messages (world p) ++ [(msg, type)]
       ∧ (type = "error" ∧ document p' = document p
          ∨ type = "success" ∧ ¬ open "editStudentModal" p'
            ∧ Document.overflow (document p') = ""))
  ∧ (∀ id, let p' := execPage (Full.handleDeleteStudent id) p in
           open "deleteModal" p'
           ∧ Document.overflow (document p') = "hidden"
           ∧ currentDeleteId (world p') = Some id)
  ∧ (∀ id, currentDeleteId (world p) = Some id → id ≠ "" →
       let p' := execPage Full.handleDeleteConfirm p in
       ∃ msg type,
         messages (world p') = messages (world p) ++ [(msg, type)]
         ∧ (type = "error" ∧ document p' = document p ∧ currentDeleteId (world p') = Some id
            ∨ type = "success" ∧ ¬ open "deleteModal" p'
              ∧ Document.overflow (document p') = ""
              ∧ currentDeleteId (world p') = None)).
Proof.
  split_and!.
  - intros e p'.
    destruct (Session.id <$> sessionOf (world p)) as [teacher|] eqn:Hid.
    2:{ exists "Session expired. Please login again.", "error". unfold p', execPage.
        rewrite Full_handleAddStudent_anonymous; [split; [done | by left]|].
        intros teacher [Hid' _]%loggedIn_session. congruence. }
    destruct (decide (teacher = "")) as [->|Hne].
    { exists "Session expired. Please login again.", "error". unfold p', execPage.
      rewrite Full_handleAddStudent_anonymous; [split; [done | by left]|].
      intros teacher [Hid' Hne']%loggedIn_session. congruence. }
    assert (loggedIn (world p) teacher) as Hin by (by apply loggedIn_session).
    unfold p', execPage. rewrite (Full_handleAddStudent_run e teacher p Hin). cbv zeta.
    destruct (negb _ || _ || _ || _).
    { eexists _, "error". split; [reflexivity | by left]. }
    destruct (find _ (studentsOf (world p))).
    { eexists _, "error". split; [reflexivity | by left]. }
    match goal with
    | |- context [mkPage ?w1 _] =>
        destruct (rendered_closed "addStudentModal" w1 p) as (Hworld & Hclosed & Hover & _)
    end.
    cbv zeta in Hworld, Hclosed, Hover. unfold execPage in Hworld, Hclosed, Hover.
    eexists _, "success". split; [|right; done].
    rewrite Hworld, messages_rendered, messages_showMessage. f_equal.
    change (messages (exec (saveStudents ?l) ?w)) with (messages w).
    apply messages_generateId.
  - intros p'. unfold p', execPage. rewrite Full_handleEditStudent_run. cbv zeta.
    destruct (negb _ || _ || _ || _).
    { eexists _, "error". split; [reflexivity | by left]. }
    destruct (findIndex _ (studentsOf (world p))) as [i|].
    2:{ eexists _, "error". split; [reflexivity | by left]. }
    destruct (find _ (studentsOf (world p))).
    { eexists _, "error". split; [reflexivity | by left]. }
    destruct (studentsOf (world p) !! i) as [current|].
    2:{ eexists _, "error". split; [reflexivity | by left]. }
    match goal with
    | |- context [mkPage ?w1 _] =>
        destruct (rendered_closed "editStudentModal" w1 p) as (Hworld & Hclosed & Hover & _)
    end.
    cbv zeta in Hworld, Hclosed, Hover. unfold execPage in Hworld, Hclosed, Hover.
    eexists _, "success". split; [|right; done].
    by rewrite Hworld, messages_rendered, messages_showMessage.
  - intros id p'. split_and!; [|done..].
    unfold open, p'. cbn. apply elem_of_union. left. by apply elem_of_singleton.
  - intros id Hpending Hne p'. unfold p', execPage.
    rewrite (Full_handleDeleteConfirm_run id p Hpending Hne).
    destruct (findIndex _ (studentsOf (world p))) as [i|].
    2:{ eexists _, "error". split; [reflexivity | by left]. }
    destruct (studentsOf (world p) !! i) as [current|].
    2:{ eexists _, "error". split; [reflexivity | by left]. }
    match goal with
    | |- context [mkPage ?w1 _] =>
        destruct (rendered_closed "deleteModal" w1 p) as (Hworld & Hclosed & Hover & _);
        destruct (rendered_frame "" "" w1) as (_ & _ & Hpending1)
    end.
    cbv zeta in Hworld, Hclosed, Hover. unfold execPage in Hworld, Hclosed, Hover.
    eexists _, "success". split.
    + by rewrite Hworld, messages_rendered.
    + right. split_and!; [done | done | done |]. by rewrite Hworld, Hpending1.
Qed.

(** X20.  Opening the edit modal on a record that exists fills the edit
    form with the record's identifier, name, studentId, course and year
    and opens the modal, storing nothing.  Submitting the form as it was
    filled, for a record whose name and studentId are trimmed, whose four
    fields are filled in, whose year reads back from its decimal form and
    whose studentId no other record of the logged-in teacher has, stores
    the collection exactly as it was, closes the modal and shows the
    success alert. *)
Theorem edit_form_round_trip (B : Browser) (id : string) (p : Page) (i : nat) (s : Student.t) :
  firstWithId id (studentsOf (world p)) i s →
  let opened := execPage (Full.handleEditStudentModal id) p in
  let saved := execPage Full.handleEditStudent opened in
  Document.editForm (document opened)
  = mkEditStudentForm (Student.id s) (Student.name s) (Student.studentId s) (Student.course s)
                      (toString (Student.year s))
  ∧ open "editStudentModal" opened
  ∧ world opened = world p
  ∧ (trim (Student.name s) = Student.name s →
     trim (Student.studentId s) = Student.studentId s →
     parseInt (toString (Student.year s)) = Student.year s →
     filled (Student.name s) (Student.studentId s) (Student.course s) (Student.year s) →
     (∀ s', s' ∈ studentsOf (world p) → Student.id s' ≠ id →
            Session.id <$> sessionOf (world p) = Some (Student.teacherId s') →
            ¬ same_ci (Student.studentId s') (Student.studentId s)) →
     studentsOf (world saved) = studentsOf (world p)
     ∧ ¬ open "editStudentModal" saved
     ∧ messages (world saved)
       = messages (world p) ++ [("Student updated successfully!", "success")]).
Proof.
  intros Hfirst opened saved.
  pose proof (studentWithId_first id _ i s Hfirst) as Hfind.
  assert (findIndex (λ s, String.eqb (Student.id s) id) (studentsOf (world p)) = Some i) as Hi.
  { apply findIndex_firstWithId. eauto. }
  destruct Hfirst as (Hs & Hid & _).
  pose proof (Full_handleEditStudentModal_run id p s Hfind) as Hopen.
  assert (opened = (runPage (Full.handleEditStudentModal id) p).2) as Hopened by reflexivity.
  rewrite Hopen in Hopened. cbn [snd] in Hopened.
  split_and!; [by rewrite Hopened | | by rewrite Hopened |].
  { unfold open. rewrite Hopened. cbn. apply elem_of_union. left. by apply elem_of_singleton. }
  intros Hname Hsid Hyear Hfilled Hfree.
  unfold saved, execPage. rewrite Full_handleEditStudent_run. cbv zeta.
  rewrite Hopened. cbn [world document Document.editForm Document.set_editForm
                        Document.set_active Document.set_overflow
                        editStudentId editStudentName editStudentIdInput editStudentCourse
                        editStudentYear].
  rewrite Hname, Hsid, Hyear, Hid.
  apply filled_test in Hfilled as ->. rewrite Hi.
  destruct (find _ (studentsOf (world p))) as [dup|] eqn:Hdup.
  { apply find_Some_first in Hdup as [Hin Htest]. apply collides_test in Htest as (? & ? & ?).
    by destruct (Hfree dup). }
  rewrite Hs.
  assert (withFields (Student.name s) (Student.studentId s) (Student.course s)
                     (Student.year s) s = s) as -> by (by destruct s).
  rewrite list_insert_id by done.
  match goal with
  | |- context [runPage _ (mkPage ?w1 ?d1)] =>
      pose proof (Full_render_frame "" "" (mkPage w1 d1)) as Hframe
  end.
  cbv zeta in Hframe. unfold execPage in Hframe. cbn [world document] in Hframe.
  destruct Hframe as (Hworld & _ & _ & Hactive & _).
  rewrite Hworld. split_and!.
  - rewrite (studentsOf_storage _ _ (proj1 (rendered_frame "" "" _))). by page.
  - unfold open. rewrite Hactive. cbn.
    intros [_ Hnot]%elem_of_difference. apply Hnot. by apply elem_of_singleton.
  - by rewrite messages_rendered, messages_showMessage.
Qed.

(** X21.  [App.handleFilter] renders the table for the value of the search
    box, trimmed, and the value of the course filter: for a logged-in
    teacher the rows are the teacher's students that match both, and the
    cards count these rows, not the whole roster; so a search box that
    holds only blanks, with no course chosen, lists all the teacher's
    students. *)
Theorem handleFilter_lists (B : Browser) (teacher : string) (p : Page) :
  loggedIn (world p) teacher →
  let p' := execPage Full.handleFilter p in
  let searchQuery := trim (Document.searchInput (document p)) in
  let courseFilter := Document.courseFilter (document p) in
  let rows := filter (listed teacher searchQuery courseFilter) (studentsOf (world p)) in
  table (world p') = rows
  ∧ counters (world p')
    = Stats.mk (length rows) (howMany "Present" rows) (howMany "Absent" rows)
               (howMany "Unmarked" rows)
  ∧ studentsOf (world p') = studentsOf (world p)
  ∧ (searchQuery = "" → courseFilter = "" →
     table (world p') = filter (λ s, Student.teacherId s = teacher) (studentsOf (world p))).
Proof.
  intros Hin p' searchQuery courseFilter rows.
  assert (world p'
          = set_table rows
              (set_counters (Stats.mk (length rows) (howMany "Present" rows)
                                      (howMany "Absent" rows) (howMany "Unmarked" rows))
                            (world p))) as Hworld.
  { unfold p', execPage, Full.handleFilter.
    rewrite runPage_bind, runPage_ask. cbv beta iota zeta.
    rewrite runPage_bind, runPage_ask. cbv beta iota.
    fold searchQuery courseFilter.
    rewrite (Full_render_run teacher searchQuery courseFilter p Hin). cbv zeta. cbn [snd world].
    unfold exec. by rewrite (renderStudentsTable_run teacher) by done. }
  rewrite Hworld. split_and!; [done | done | by page |].
  intros Hq Hf. cbn [table set_table]. unfold rows. rewrite Hq, Hf. apply listed_all.
Qed.

(** * The further properties at work on the demo page *)

(** A computation gives its value and its world. *)
Lemma run_pair {A : Type} (m : Js A) (w : World) (r : Result A) :
  outcome m w = r → run m w = (r, exec m w).
Proof. intros <-. unfold outcome, exec. by destruct (run m w). Qed.

Lemma sha256_bytes (s : string) : Forall isByte (Sha256.sha256 s).
Proof.
  unfold Sha256.sha256.
  induction (Sha256.blocks _ _ _) as [|x state IH]; cbn [flat_map]; [constructor|].
  apply Forall_app. split; [|exact IH].
  unfold Sha256.bigEndian. apply Forall_forall. intros b [i [<- _]]%list_elem_of_In%in_map_iff.
  unfold isByte. apply Z.mod_pos_bound. lia.
Qed.

Lemma classroom_distinct_usernames : distinctUsernames (browser := latin1) (teachersOf classroom).
Proof.
  intros i j t1 t2 Hi Hj Hsame. rewrite teachersOf_eq in Hi, Hj. cbn in Hi, Hj.
  destruct i as [|[|i]], j as [|[|j]]; cbn in Hi, Hj;
    try discriminate Hi; try discriminate Hj; try reflexivity;
    injection Hi as <-; injection Hj as <-; vm_compute in Hsame; discriminate Hsame.
Qed.

Lemma classroom_distinct_roster : distinctRoster (browser := latin1) (studentsOf classroom).
Proof.
  rewrite classroom_students. split.
  - apply (bool_decide_unpack _). vm_compute. exact I.
  - intros s1 s2 H1 H2 Hteacher Hsame.
    repeat (apply elem_of_cons in H1 as [-> | H1]); [.. | by apply elem_of_nil in H1];
      repeat (apply elem_of_cons in H2 as [-> | H2]);
      try (by apply elem_of_nil in H2); try reflexivity;
      try discriminate Hteacher; vm_compute in Hsame; discriminate Hsame.
Qed.

(** The students' entry written on a blank page is read back. *)
Lemma setItem_then_getItem_witness :
  run (setItem "attendance_students" [john]
       ≫= λ _, getItem "attendance_students" ([] : list Student.t)) blank
  = (Ok [john], exec (setItem "attendance_students" [john]) blank).
Proof.
  apply (setItem_then_getItem JSON_students "attendance_students" [john] [] blank).
  intros v. exists (Json (StudentArray v)). split_and!; reflexivity.
Defined.

(** With the random numbers 0, 1, 2, ... of the demo page. *)
Lemma generateId_fallback_is_uuid_witness :
  ∃ id, run (generateId (browser := latin1)) blank
        = (Ok id, set_entropy (λ n, entropy blank (31 + n)) blank)
        ∧ uuid_v4 id = true
        ∧ String.length id = 36.
Proof. exact (generateId_fallback_is_uuid latin1 blank eq_refl). Defined.

(** Aa and BB have the polynomial hash 2112: either opens an account made
    with the other. *)
Lemma fallback_digest_is_hashCode_witness :
  digest (browser := latin1) "BB" = digest (browser := latin1) "Aa".
Proof.
  apply (proj2 (fallback_digest_is_hashCode latin1 "Aa" eq_refl) "BB"). reflexivity.
Defined.

(** The 32 bytes of SHA-256 make 64 characters. *)
Lemma digest_renders_bytes_witness :
  String.length (digest (browser := secure) "123456") = 64.
Proof.
  destruct (digest_renders_bytes secure Sha256.sha256 "123456" "123456" eq_refl sha256_bytes)
    as [Hlength _].
  etransitivity; [exact Hlength | vm_compute; reflexivity].
Defined.

(** The digest the demo data stores is the SHA-256 of 123456, as the
    source says. *)
Example demoDigest_is_sha256 : digest (browser := secure) "123456" = demoDigest.
Proof. vm_compute. reflexivity. Qed.

(** The first teacher logs in on the demo page. *)
Lemma login_opens_session_witness :
  let w' := exec (login (browser := latin1) "TEACHER1" "123456") (world lobby) in
  run requireAuth w' = (Ok true, w')
  ∧ outcome getCurrentTeacher w'
    = Ok (Some (Session.mk "teacher-1" "Teacher1" "2024-01-01T08:00:00.000Z")).
Proof.
  intros w'.
  assert (run (login (browser := latin1) "TEACHER1" "123456") (world lobby)
          = (Ok (Session.mk "teacher-1" "Teacher1" "2024-01-01T08:00:00.000Z"), w')) as Hrun.
  { apply run_pair. vm_compute. reflexivity. }
  assert (NoDup (Teacher.id <$> teachersOf (world lobby))) as Hids.
  { apply (bool_decide_unpack _). vm_compute. exact I. }
  destruct (login_opens_session latin1 "TEACHER1" "123456" (world lobby) w' _ Hrun)
    as (_ & Hguard & _ & _ & Hteacher & _).
  split; [exact Hguard | exact (Hteacher Hids)].
Defined.

(** Alice registers on the demo page: ALICE is then taken, and the login
    the registration called opens her session when it resumes. *)
Lemma register_then_same_name_witness :
  let w' := exec (register (browser := latin1) "alice" "secret") classroom in
  fails (register (browser := latin1) "ALICE" "other")
        "Username already exists. Please choose another one." w'
  ∧ sessionOf (exec (resumeLogin (browser := latin1) 0) w')
    = Some (Session.mk "01234567-89ab-4cde-b012-3456789abcde" "alice"
                       "2024-02-01T08:00:00.000Z").
Proof.
  intros w'.
  assert (run (register (browser := latin1) "alice" "secret") classroom
          = (Ok (Teacher.mk "01234567-89ab-4cde-b012-3456789abcde" "alice"
                            (digest (browser := latin1) "secret") "2024-02-01T08:00:00.000Z"),
             w')) as Hrun.
  { unfold w'. apply run_pair. vm_compute. reflexivity. }
  assert (3 ≤ String.length (trim (Browser := latin1) "ALICE")) as Hname
    by (vm_compute; lia).
  assert (4 ≤ String.length "other") as Hpassword by (vm_compute; lia).
  destruct (register_then_same_name latin1 "alice" "secret" classroom w' _ Hrun)
    as [Htaken Hagain].
  split.
  - apply (Htaken "ALICE" "other"); [reflexivity | discriminate | exact Hname | exact Hpassword].
  - exact (proj1 (proj2 (Hagain eq_refl))).
Defined.

Lemma register_keeps_usernames_distinct_witness :
  distinctUsernames (browser := latin1)
    (teachersOf (exec (register (browser := latin1) "alice" "secret") classroom)).
Proof.
  exact (register_keeps_usernames_distinct latin1 "alice" "secret" classroom eq_refl
           classroom_distinct_usernames).
Defined.

(** The demo data on a blank page: ten students. *)
Lemma loadSampleData_fills_empty_store_witness :
  length (studentsOf (exec loadSampleData blank)) = 10
  ∧ exec loadSampleData (exec loadSampleData blank) = exec loadSampleData blank.
Proof.
  destruct (loadSampleData_fills_empty_store blank) as (_ & Hloads & Hagain).
  destruct (Hloads eq_refl eq_refl) as (_ & Hten & _).
  split; [exact Hten | exact Hagain].
Defined.

(** The demo accounts open where SHA-256 is at hand, and not where the
    rolling hash takes its place. *)
Lemma demo_accounts_need_crypto_witness :
  outcome (login (browser := secure) "teacher1" "123456") (exec loadSampleData blank)
  = Ok (Session.mk "teacher-1" "Teacher1" "2024-02-01T08:00:00.000Z")
  ∧ ∀ u w', run (login (browser := latin1) "Teacher1" "123456") (exec loadSampleData blank)
            ≠ (Ok u, w').
Proof.
  split.
  - apply (proj1 (demo_accounts_need_crypto secure blank eq_refl eq_refl)
             demoDigest_is_sha256 "teacher1"); [discriminate | reflexivity].
  - apply (proj2 (demo_accounts_need_crypto latin1 blank eq_refl eq_refl) eq_refl
             "Teacher1" "123456").
Defined.

Lemma classroom_ids : NoDup (Student.id <$> studentsOf classroom).
Proof. apply (bool_decide_unpack _). vm_compute. exact I. Qed.

Lemma classroom_john : firstWithId "student-1" (studentsOf classroom) 0 john.
Proof. split_and!; [reflexivity | reflexivity | intros j y Hj; lia]. Qed.

(** After the add on the demo page the table shows the four rows of the
    first teacher... *)
Lemma handlers_refresh_table_witness :
  refreshed "teacher-1" (exec (handleAddStudent (browser := latin1) emmaForm) classroom).
Proof.
  apply (proj1 (handlers_refresh_table latin1 "teacher-1" classroom classroom_loggedIn) emmaForm).
  intros Hsame. vm_compute in Hsame. discriminate Hsame.
Defined.

(** An add and a toggle by the first teacher. *)
Lemma own_steps_keep_roster_distinct_witness :
  distinctRoster (browser := latin1)
    (studentsOf (exec (handleToggleAttendance (browser := latin1) "student-1")
                      (exec (handleAddStudent (browser := latin1) emmaForm) classroom))).
Proof.
  assert (freshId (browser := latin1) classroom ∉ Student.id <$> studentsOf classroom) as Hnew.
  { apply (bool_decide_unpack _). vm_compute. exact I. }
  apply (own_steps_keep_roster_distinct latin1 "teacher-1" classroom _
           classroom_loggedIn classroom_distinct_roster).
  eapply rtc_l; [exact (own_add "teacher-1" emmaForm classroom Hnew)|].
  eapply rtc_l; [apply (own_toggle "teacher-1" "student-1")|].
  apply rtc_refl.
Defined.


(** The first teacher toggles John Smith: Johnny Appleseed, who belongs to
    the second teacher, stays as he is. *)
Lemma table_actions_touch_own_records_witness :
  others "teacher-1"
    (studentsOf (exec (handleTableAction (browser := latin1) "toggle" "student-1")
                      (exec (renderStudentsTable (browser := latin1) "" "") classroom)))
  = [johnny].
Proof.
  assert (john ∈ table (exec (renderStudentsTable (browser := latin1) "" "") classroom))
    as Hrow.
  { assert (table (exec (renderStudentsTable (browser := latin1) "" "") classroom)
            = [john; michael]) as -> by (vm_compute; reflexivity).
    left. }
  destruct (table_actions_touch_own_records latin1 "teacher-1" "" "" classroom john
              classroom_loggedIn classroom_ids Hrow) as (Hany & _).
  etransitivity; [exact (Hany "toggle") | vm_compute; reflexivity].
Defined.

(** John Smith is deleted once; the second confirmation does nothing. *)
Lemma delete_is_confirmed_once_witness :
  let once := exec (handleDeleteConfirm (browser := latin1))
                   (exec (handleDeleteStudent "student-1") classroom) in
  currentDeleteId once = None
  ∧ run (handleDeleteConfirm (browser := latin1)) once = (Ok tt, once).
Proof.
  intros once.
  assert ("student-1" ≠ "") as Hid by discriminate.
  destruct (delete_is_confirmed_once latin1 "student-1" classroom Hid)
    as (_ & _ & Hpresent & _).
  destruct Hpresent as (Hnone & _ & Hagain).
  { exists john. split; [rewrite classroom_students; left | reflexivity]. }
  split; [exact Hnone | exact Hagain].
Defined.

(** A search nobody matches shows the empty state with the message about
    the criteria; the course WAD shows the table. *)
Lemma renderStudentsTable_shows_table_or_empty_state_witness :
  Document.display
    (document (execPage (Full.renderStudentsTable (browser := latin1) "zzz" "") desk))
    !! "emptyState" = Some "block"
  ∧ Document.emptyState
      (document (execPage (Full.renderStudentsTable (browser := latin1) "zzz" "") desk))
    = "No students match your search criteria. Try adjusting your filters."
  ∧ Document.display
      (document (execPage (Full.renderStudentsTable (browser := latin1) "" "WAD") desk))
      !! "studentsTable" = Some "table".
Proof.
  assert (filter (listed (browser := latin1) "teacher-1" "zzz" "") (studentsOf classroom) = [])
    as Hnone by (vm_compute; reflexivity).
  assert (filter (listed (browser := latin1) "teacher-1" "" "WAD") (studentsOf classroom) ≠ [])
    as Hsome by (vm_compute; discriminate).
  destruct (renderStudentsTable_shows_table_or_empty_state latin1 "teacher-1" "zzz" "" desk)
    as [Hzzz _].
  destruct (Hzzz classroom_loggedIn) as (_ & _ & Hempty).
  destruct (Hempty Hnone) as (_ & Hblock & Hmessage).
  destruct (renderStudentsTable_shows_table_or_empty_state latin1 "teacher-1" "" "WAD" desk)
    as [Hwad _].
  destruct (Hwad classroom_loggedIn) as (_ & Hrows & _).
  destruct (Hrows Hsome) as (Htable & _).
  split_and!; [exact Hblock | exact Hmessage | exact Htable].
Defined.

(** Under the address of the dashboard: without a session the document
    stays and the guard shows its alert; with the session of the first
    teacher the dashboard is displayed. *)
Lemma handleRouting_guards_dashboard_witness :
  document (execPage (Full.handleRouting (browser := latin1))
                     (mkPage (world lobby) atDashboard)) = atDashboard
  ∧ messages (world (execPage (Full.handleRouting (browser := latin1))
                              (mkPage (world lobby) atDashboard)))
    = [("Please login to access this page", "error")]
  ∧ shown "dashboardSection"
      (execPage (Full.handleRouting (browser := latin1)) (mkPage classroom atDashboard)).
Proof.
  destruct (handleRouting_guards_dashboard latin1 (mkPage (world lobby) atDashboard))
    as (_ & _ & Hguard & _).
  destruct (Hguard eq_refl eq_refl) as [Hdocument Hworld].
  destruct (handleRouting_guards_dashboard latin1 (mkPage classroom atDashboard))
    as (_ & Hdashboard & _).
  destruct Hdashboard as [_ Hsections]; [reflexivity | eexists; reflexivity |].
  split_and!.
  - exact Hdocument.
  - etransitivity; [exact (f_equal messages Hworld) | reflexivity].
  - apply (Hsections "dashboardSection"); [|reflexivity].
    right. right. left.
Defined.

(** The first teacher logs in from the lobby. *)
Lemma handleLogin_lands_on_dashboard_witness :
  let p' := execPage (Full.handleLogin (browser := latin1) "TEACHER1" "123456") lobby in
  Document.action (document p') = Some "dashboard"
  ∧ table (world p') = [john; michael]
  ∧ Document.currentUserDisplay (document p') = "Teacher1".
Proof.
  intros p'.
  assert (run (login (browser := latin1) "TEACHER1" "123456") (world lobby)
          = (Ok (Session.mk "teacher-1" "Teacher1" "2024-01-01T08:00:00.000Z"),
             exec (login (browser := latin1) "TEACHER1" "123456") (world lobby))) as Hrun.
  { apply run_pair. vm_compute. reflexivity. }
  assert (NoDup (Teacher.id <$> teachersOf (world lobby))) as Hids.
  { apply (bool_decide_unpack _). vm_compute. exact I. }
  assert ("teacher-1" ≠ "") as Hne by discriminate.
  destruct (proj1 (handleLogin_lands_on_dashboard latin1 "TEACHER1" "123456" lobby) _ _ Hrun)
    as (Haction & _ & _ & _ & Htable & Hname).
  split_and!.
  - exact Haction.
  - etransitivity; [exact (Htable Hne) | vm_compute; reflexivity].
  - exact (Hname Hids).
Defined.

(** John Smith is chosen and the deletion confirmed: the modal opens, then
    closes on the success. *)
Lemma modals_follow_outcome_witness :
  let asked := execPage (Full.handleDeleteStudent "student-1") desk in
  open "deleteModal" asked
  ∧ ¬ open "deleteModal" (execPage (Full.handleDeleteConfirm (browser := latin1)) asked).
Proof.
  intros asked.
  assert (messages (world (execPage (Full.handleDeleteConfirm (browser := latin1)) asked))
          = [("Student John Smith deleted successfully!", "success")]) as Hshown
    by (vm_compute; reflexivity).
  assert ("student-1" ≠ "") as Hid by discriminate.
  destruct (modals_follow_outcome latin1 desk) as (_ & _ & Hchoose & _).
  destruct (Hchoose "student-1") as (Hopen & _).
  destruct (modals_follow_outcome latin1 asked) as (_ & _ & _ & Hconfirm).
  destruct (Hconfirm "student-1" eq_refl Hid) as (msg & type & Hmessages & Hcases).
  split; [exact Hopen|].
  destruct Hcases as [(Herror & _) | (_ & Hclosed & _)]; [|exact Hclosed].
  rewrite Hshown, Herror in Hmessages. discriminate Hmessages.
Defined.

(** John Smith's record goes into the edit form and comes back from it
    unchanged. *)
Lemma edit_form_round_trip_witness :
  let opened := execPage (Full.handleEditStudentModal "student-1") desk in
  Document.editForm (document opened)
  = mkEditStudentForm "student-1" "John Smith" "2024-001" "WAD" "3"
  ∧ studentsOf (world (execPage (Full.handleEditStudent (browser := latin1)) opened))
    = studentsOf classroom.
Proof.
  intros opened.
  assert (∀ s', s' ∈ studentsOf classroom → Student.id s' ≠ "student-1" →
                Session.id <$> sessionOf classroom = Some (Student.teacherId s') →
                ¬ same_ci (browser := latin1) (Student.studentId s') (Student.studentId john))
    as Hfree.
  { intros s' Hs Hother Hteacher Hsame. each_student Hs.
    - by apply Hother.
    - vm_compute in Hteacher. discriminate Hteacher.
    - vm_compute in Hsame. discriminate Hsame. }
  assert (filled "John Smith" "2024-001" "WAD" (Num 3)) as Hfilled.
  { split_and!; discriminate. }
  destruct (edit_form_round_trip latin1 "student-1" desk 0 john classroom_john)
    as (Hform & _ & _ & Hsave).
  destruct (Hsave eq_refl eq_refl eq_refl Hfilled Hfree) as (Hstudents & _).
  split; [exact Hform | exact Hstudents].
Defined.

(** The search box holds john between blanks: the one row is John Smith. *)
Lemma handleFilter_lists_witness :
  table (world (execPage (Full.handleFilter (browser := latin1)) searching)) = [john].
Proof.
  destruct (handleFilter_lists latin1 "teacher-1" searching classroom_loggedIn)
    as (Hrows & _).
  etransitivity; [exact Hrows | vm_compute; reflexivity].
Defined.
